(* ===== verification/_CoqProject ===== *)
-Q . S2P
Prelude.v
JsString.v
JsValue.v
Filters.v
Columns.v
ColumnFilters.v
FilterPanel.v
CsvExport.v
Colors.v
Tailwind.v
Theme.v
Pagination.v
Formatters.v
Input.v
ComboBox.v
FormStories.v
DebouncedInput.v
SearchField.v
SearchVariants.v
GlobalFilter.v
Presentational.v
ComponentTests.v
SmallStories.v
ColumnManager.v
Grid.v
DataGrid.v
Services.v
Stories.v
