(* ===== verification/Prelude.v ===== *)
(** * A verification development of the design-system component library

    The repository is a React component library written in TypeScript.
    Its one non-trivial engine is the data grid
    ([src/src/components/DataGrid]): a table over an array of records
    with client-side filtering, a global search, a column manager, CSV
    export and pagination.  Around it sit form controls (a text input
    with a password toggle, a Formik combo box, a debounced input, a
    search field), small utilities (colours, the theme, cell formatters),
    presentational components, and the mock people service with the API
    route and the hooks that read it.

    ** How the parts interact

    The exported [DataGrid] ([DataGrid/index.tsx]) renders the container
    ([lib/index.tsx]) inside an error boundary.  The container holds the
    grid's state: [visibleData], the pagination state, the global search
    text.  The filter panel ([ColumnFilters.tsx]) builds filter objects
    and runs [filterData] ([Filters/utils.ts]) on the data source, writing
    [visibleData]; the global search ([GlobalFilter.tsx]) runs Fuse.js on
    the columns' [searchableColumns] keys and writes [visibleData] too;
    [Pagination.tsx] drives the TanStack table's page index; the column
    manager ([ColumnManager.tsx]) opens a [Modal] and toggles TanStack's
    column visibility; the Export button calls [exportCSV]
    ([lib/utils.ts]); the container renders up to three [Grid]s.

    ** Files

    - [Prelude] (this file): JavaScript strings as [list ascii] ([jstr],
      literals [str "..."]); the error monad [except] ([Ok] / [Throw]) with
      its bind [x <- m ;; k], in which a thrown exception or a rejected
      promise is a [Throw]; [Array.prototype.filter] and [forEach] with a
      callback that may throw ([js_filter], [js_foreach]); event
      sequences of a labelled step relation ([trace]), the forward
      simulation of a step relation by a functional specification
      ([trace_refines], Section [Refinement]) and invariants along traces
      ([trace_ind_inv]); the hint databases [js] and [js_rw] and the
      tactics the files share.
    - [JsString]: the string methods the code calls ([toLowerCase],
      [includes], [startsWith], [split], [join], [slice], [replace] of a
      one-character global pattern, template literals interpolating a
      boolean), with their specifications and round trips.
    - [JsValue]: JavaScript values ([value]: [undefined], [null],
      booleans, numbers with [NaN], strings, [Date] objects by identity),
      the records of the grid ([datum], an association list in key order),
      and [Number], [String], truthiness, [||], [typeof], [===],
      [Object.is].  Parsing of strings into numbers and dates belongs to
      the engine: it is the class [JsHost], and every theorem holds for
      every host.
    - [Filters]: [filterData] and [applyStringFilter] ... [applyEnumFilter]
      of [Filters/utils.ts], the [Filter] objects of [types/filters.d.ts],
      and the fixture of [utils.test.ts].
    - [Columns]: column definitions with their [meta]; the global search
      keys; the tags and manageable columns of [ColumnManager.tsx]
      (against any [Array.prototype.sort] that permutes); [isNumber] and
      the filter-type detection of [ColumnFilters.tsx].
    - [ColumnFilters]: the filter panel as a state machine: a record of its
      hooks and of the grid's [visibleData], one function per handler and
      effect, and the step relation [cf_step] of the enabled controls.
    - [FilterPanel]: the panel composed with its [StringFilter] child,
      whose state (the select, the input, [caseSensitive]) lives while it
      is mounted; every step of the composition is a step of [cf_step].
    - [CsvExport]: the text [exportCSV] builds, raw and formatted, and a
      reader of CSV text to state the round trip.
    - [Colors]: [setupColors], [getRGBColor], [getAccessibleColor] and
      [classNames] of [utils/commonUtils.ts], with [parseInt(s, 16)] as
      ECMAScript defines it, and [generateTheme] of [hooks/useTheme.tsx]
      with the document style it writes.
    - [Theme]: the rest of [useTheme.tsx]: the default of [ThemeContext],
      [ThemeProvider] (which memoises [generateTheme({})]) and [useTheme].
    - [Tailwind]: the typography rules [utils/tailwindPlugin.ts] adds.
    - [Pagination]: [Pagination.tsx] as a step relation over its two hooks
      and the table; the table is reached through the type class
      [TableApi] with its laws [TableLaws], which the instance
      [tanstack_table] (TanStack's own definitions) discharges.
    - [Formatters]: [capitalCase], [formatEIN], [formatCurrency] and
      [nFormatter] of [lib/formatters.ts].
    - [Input]: [components/Input/index.tsx]: the hooks of [Input], its eye
      button as the step relation [input_step] and the element tree it
      renders; the one-bit specification [PasswordSpec] of the toggle; the
      props [InputField] derives from a Formik form.
    - [ComboBox]: [components/ComboBox/index.tsx] as the step relation
      [cb_step]: the Formik field, three hooks, the two effects as explicit
      steps that run when their dependencies change, and the list it
      renders; the [options] may have holes, which [filter] and [map]
      skip.
    - [FormStories]: [Input.stories.tsx] and [ComboBox.stories.tsx]: the
      part of Formik and Yup they reach ([setFieldValue],
      [setFieldTouched], [isValid], [string().required]), the text-field
      story as a function of its events ([is_step], [is_run]) with its
      render [input_Template], and the combo-box story's options, with
      their holes, run through [cb_step].
    - [DebouncedInput]: [ui/DebouncedInput.tsx] with explicit time: the
      timer its effect sets and clears, keystrokes, clock ticks and the
      timer's firing as steps.
    - [SearchField]: [StringMatch.tsx] (the regular expression search
      written out for searches without pattern syntax) and the search
      field of [variants/Base.tsx] (hooks, handlers, and a render that
      reads undeclared identifiers).
    - [SearchVariants]: the variants [fenrirSearch] ([GivingaSearch.tsx])
      and [EarthShareSearch] (their search state, the props they give the
      field, their labels) and [SelectableSearch], which switches between
      them; the hooks they import from modules absent from the
      repository are inputs.  Every render of [SelectableSearch] throws
      the field's [ReferenceError].
    - [GlobalFilter]: the rest of [GlobalFilter.tsx]: [isDate], and
      [onSearchChange] with its [await import('fuse.js')], the suspended
      calls being explicit state resumed in order.
    - [Presentational]: [Button], the checkbox, the switch, the tooltip,
      [ChildrenModal] (with the propagation of clicks), [Modal] and the
      column menu, as functions from props to what they render.
    - [ComponentTests]: the tests of the checkbox, the modal and the
      toggle, with the markup they query as a DOM tree.
    - [SmallStories]: the stories of the button (under [ThemeProvider]),
      the checkbox and the switch (a state flipped by each click) and the
      closed modal.
    - [ColumnManager]: the column manager's hooks, its modal, its two
      sections and its visibility checkboxes, as the step relation
      [cm_step].
    - [Grid]: [Grid.tsx] as a function from its props to the rows it
      renders; TanStack's header groups, page rows and visible cells are
      inputs.
    - [DataGrid]: the container [lib/index.tsx] (props and defaults, state
      hooks, the render guard, the mount effects, [handleExpandRow], page
      changes, the toolbar and the grids it renders), [ActionRow.tsx], and
      the exported [DataGrid] with its error boundary.
    - [Services]: [mocks/services/people.ts] ([getPeople] over faker's
      draws, [getPeopleAsync] with its timer and a promise that settles
      once), the API route of [mocks/util/endpoint.ts] with the JSON of
      its responses, the msw handler, and the hooks [useService] (a step
      relation over its hooks, [fetchData] and its two effects, with the
      network a parameter and, composed, the API route) and [usePeople].
    - [Stories]: the DataGrid story: its args and columns, and
      [Template], which feeds [useService('people')] into [DataGrid];
      the JSON of the people read back into the grid's records.

    ** What the theorems show

    - [filterData] only applies the last filter of a handled type (C1,
      C2), rejects filters without [comparables] (C20) — which is how the
      tests ([filterData_tests_as_written]) and the filter panel build
      them — and its string
      predicates behave as specified (C22, C23).  The filter panel never
      changes the visible data (C3, an invariant of every reachable
      state).
    - Pagination: the window invariant (C4), only existing pages are
      selected (C5), and the last page can be unreachable (C6).
    - The password toggle refines [PasswordSpec] (C7).
    - The combo box's settled list is exactly the matching options (C8, an
      invariant over its effects); no check mark is ever shown (C9); after
      a pick, the list stays closed until CLEAR (C33).
    - The global search, in every execution, shows stale results when
      the box is cleared while a search is suspended (C10, an
      interleaving), and otherwise the results of the last text once all
      searches complete (C11).
    - [DebouncedInput] reports only current values (C12), always reaches a
      state where the last report is the current value (C13, liveness),
      and its delay is read as a signed 32-bit integer
      ([debounce_delay_bounds]).
    - [setupColors] accepts exactly [#rrggbb] and returns the bytes (C14);
      [getAccessibleColor] never reads green and blue (C16).
    - The raw CSV reads back under stated conditions (C17) and throws
      exactly on an empty source (C18); the formatted CSV holds no markup
      (C19).
    - [capitalCase] is a one-pass capitaliser (C24), [formatEIN] reads
      back (C25), and [formatCurrency] prints negative amounts as ["$0"] (C27).
    - The grid after mount: pinned columns and the empty right-hand table
      (C28).
    - The right chevron of the pagination cannot be clicked forever (C29,
      termination: its clicks from reachable states are a well-founded
      order measured by the pages left of the window).
    - The filter panel's radio of a column keyed by [""] or [null] is
      selected but never shown as checked (C31, the handler composed with
      the render).
    - [StringMatch] splits a one-line label at the first occurrence of the
      search (C32).
    - The column manager gives no control to an untagged searchable
      column (C21).
    - The filter panel with its [StringFilter] child: Apply builds the
      filter from the child's settings and unmounts it, so they are
      forgotten (C15); the composition refines [ColumnFilters] and still
      shows the data source (C36, a refinement).
    - The people service: [getPeopleAsync] settles once, at its timer, to
      the outcome its options select (C38); the API route answers [500]
      with [{}] for unknown service keys (C39); [useService('people')]
      composed with the route ends with records whose [birthday] is a
      string, not the [Date] the [Person] type declares (C40, a type
      property).
    - The DataGrid story, composed of the fetch, the route, the grid and
      its filter panel: the grid mounts empty with the four tagged
      columns hidden, and shows the 100 people once the fetch settles,
      through the panel's effect on [dataSource] (C37).
    - The text-field story, Formik composed with two [InputField]s: after
      any change or blur, ["Required"] shows under every empty field,
      touched or not (C26); a field's border, colour and icon follow
      [touched] and its emptiness (C30); the printed [isValid] is [true]
      before the first validation, then exactly when both fields are
      filled in (C34).
    - The combo-box story, whose [options] literal has three holes: what
      is picked after typing a term is an animal of the literal matching
      the term, shown whole in the form's values, and the list closes
      (C35).
    - Lemmas outside the numbered properties record further behaviour:
      the three component tests cannot pass ([component_tests_fail]); the
      theme has two colour formats ([theme_formats_differ]); [.header-1]
      overflows its line ([typography_header1_overflows]); a new data
      source is not shown while a filter is listed
      ([dataSource_change_stale]); the
      small stories keep their icon and text in step
      ([checkbox_story_clicks], [switch_story_clicks]).

    ** Modelling choices and bounds

    - Numbers are [NaN] or integers ([Z]): the modelled code parses,
      compares and prints integral values; where it divides
      ([getAccessibleColor], [Math.round], [Math.ceil]) the division is
      written out on integers; the timer delay is converted to a signed
      32-bit integer as WebIDL does.  No fuel is used: every function is
      structurally recursive or a fold over its input, and the state
      machines are relations whose traces are finite lists of events;
      where a loop of the user's clicks must end, that is a
      [well_founded] order with a measure ([Pagination]).
    - Strings are lists of ASCII code units; case mapping is ASCII's.
    - React: a handler's state updates are applied together; the effects
      whose dependencies changed ([Object.is]) run after the render, in
      declaration order, as their own step ([ComboBox]) or together with
      the event that triggered them where nothing observable happens in
      between; a click or keystroke is handled once the effects have run;
      the updates made after one [await] resume are batched.
      A promise that rejects is a [Throw]; an [await] is a suspended call
      kept in the state ([GlobalFilter]).
    - Library and engine code is not modelled but abstracted: the host
      ([JsHost]), the TanStack table ([TableApi]), [Array.prototype.sort]
      (any permutation), [Intl.NumberFormat] and [toFixed], Fuse.js
      (section variables), rendered markup (an input of the formatted
      export), the debounce hook (its values are events), faker (its draws
      are parameters), [NextCors] (taken to complete), the methods of
      [Object.prototype] (a parameter of the route), and
      [Date.prototype.toISOString] (a parameter of the JSON).  Formik and
      Yup are written out from their documentation where the stories use
      them ([FormStories]), with validation applied at once.  [JSON.parse]
      of [JSON.stringify] is taken to be the identity on [json] values.

    ** Not modelled

    [downloadBlob] and other DOM I/O; the colours story, which renders
    the static [Misc] page; the children of the button stories (text and
    icons); the grid story's Storybook [argTypes] and [SubComponent]; the
    preflight ([OPTIONS]) answered by [NextCors]; the static [Misc] page
    and the [Label] of [Input/Wrappers.tsx] (markup without logic); the
    date helpers of [formatters.ts] (they read the clock and call dayjs);
    the index of the search field, which only re-exports the variants
    (from a path that does not exist); Fuse.js itself; the
    meaning of a [StringMatch] search holding pattern syntax. *)

From stdpp Require Import base list strings.
From Stdlib Require Import Ascii String ZArith.

Declare Scope js_scope.
Delimit Scope js_scope with js.
Open Scope js_scope.

(** ** JavaScript strings

    A JavaScript string is modelled as the list of its code units; the code
    units of the modelled programs are ASCII characters.  String literals of
    the source are written [str "..."]. *)

Abbreviation jstr := (list ascii).

Definition str (s : string) : jstr := list_ascii_of_string s.
Arguments str s%_string_scope.

(** ** Errors thrown by JavaScript code

    Code that can throw returns a value of [except A]: [Ok a] when it
    completes with [a], [Throw e] when it throws [e].  A [TypeError] is what
    the engine throws on a property access on [undefined] or [null];
    [Error msg] is the [new Error(msg)] of the source; [ReferenceError x]
    is what reading the undeclared identifier [x] throws. *)

Inductive js_error :=
  | TypeError
  | SyntaxError
  | ReferenceError (name : jstr)
  | Error (msg : jstr).

Inductive except (A : Type) : Type :=
  | Ok (a : A)
  | Throw (e : js_error).
Arguments Ok {A} a.
Arguments Throw {A} e.

Definition ebind {A B} (m : except A) (k : A -> except B) : except B :=
  match m with Ok a => k a | Throw e => Throw e end.

#[export] Instance except_ret : MRet except := @Ok.
#[export] Instance except_bind : MBind except := fun A B k m => @ebind A B m k.

(** Sequencing of statements that may throw, in the scope of this
    development: the continuation runs only when [m] completes. *)
Notation "x <- m ;; k" := (ebind m (fun x => k))
  (at level 100, m at next level, right associativity) : js_scope.

Definition is_ok {A} (m : except A) : bool :=
  match m with Ok _ => true | Throw _ => false end.

(** [Array.prototype.filter] with a callback that may throw: the callback
    runs on the elements from left to right and the first exception aborts
    the whole call. *)
Fixpoint js_filter {A} (p : A -> except bool) (l : list A) : except (list A) :=
  match l with
  | [] => Ok (@nil A)
  | x :: l' =>
      b <- p x ;;
      r <- js_filter p l' ;;
      Ok (if b then x :: r else r)
  end.

(** [Array.prototype.forEach] over a state threaded through the callback
    (the closure variable the callback assigns). *)
Fixpoint js_foreach {A S} (f : S -> A -> except S) (s : S) (l : list A) : except S :=
  match l with
  | [] => Ok s
  | x :: l' => s' <- f s x ;; js_foreach f s' l'
  end.

(** ** Event sequences

    A component is a labelled step relation: [step e s s'] when the event
    [e] (a click, a keystroke, a render with new props, a timer) takes the
    state [s] to [s'].  [trace step es s s'] runs the events [es] in
    order. *)
Inductive trace {L S} (step : L -> S -> S -> Prop) : list L -> S -> S -> Prop :=
  | trace_nil s : trace step [] s s
  | trace_cons e es s1 s2 s3 :
      step e s1 s2 -> trace step es s2 s3 -> trace step (e :: es) s1 s3.

(** A specification that answers each event with a function of its
    state, run over a sequence of events. *)
Definition spec_run {L A} (spec : L -> A -> A) (a : A) (es : list L) : A :=
  foldl (fun a e => spec e a) a es.

(** ** Automation *)

Create HintDb js.
Create Rewrite HintDb js_rw.

Lemma bind_Ok {A B} (a : A) (k : A -> except B) : ebind (Ok a) k = k a.
Proof. reflexivity. Qed.

Lemma bind_Throw {A B} (e : js_error) (k : A -> except B) : ebind (Throw e) k = Throw e.
Proof. reflexivity. Qed.

#[export] Hint Rewrite @bind_Ok @bind_Throw : js_rw.

Lemma bind_eq_Ok {A B} (m : except A) (k : A -> except B) (b : B) :
  ebind m k = Ok b <-> exists a, m = Ok a /\ k a = Ok b.
Proof.
  destruct m as [a|e]; simpl; split.
  - eauto.
  - intros (a' & [= ->] & H). exact H.
  - discriminate.
  - intros (a' & ? & _). discriminate.
Qed.

(** Case analysis on every [except] scrutinee of the goal. *)
Ltac except_cases :=
  repeat match goal with
  | |- context [match ?m with Ok _ => _ | Throw _ => _ end] =>
      let E := fresh "E" in destruct m eqn:E
  | H : context [match ?m with Ok _ => _ | Throw _ => _ end] |- _ =>
      let E := fresh "E" in destruct m eqn:E
  end.

(** [js_filter] of a callback that never throws is [List.filter]. *)
Lemma js_filter_pure {A} (p : A -> bool) (l : list A) :
  js_filter (fun x => Ok (p x)) l = Ok (List.filter p l).
Proof. induction l as [|x l IH]; simpl; [done|]. rewrite IH. done. Qed.

#[export] Hint Rewrite @js_filter_pure : js_rw.

(** The result of [js_filter] is a sublist of its input whose elements all
    satisfy the callback. *)
Lemma js_filter_Ok_sublist {A} (p : A -> except bool) (l r : list A) :
  js_filter p l = Ok r -> sublist r l.
Proof.
  revert r. induction l as [|x l IH]; simpl; intros r H.
  - injection H as <-. constructor.
  - destruct (p x) as [b|e]; [|discriminate]. simpl in H.
    destruct (js_filter p l) as [r'|e]; [|discriminate]. simpl in H.
    injection H as <-. destruct b; constructor; auto.
Qed.

Lemma js_filter_Ok_elem {A} (p : A -> except bool) (l r : list A) (x : A) :
  js_filter p l = Ok r -> x ∈ r -> p x = Ok true.
Proof.
  revert r. induction l as [|y l IH]; simpl; intros r H Hx.
  - injection H as <-. by apply not_elem_of_nil in Hx.
  - destruct (p y) as [b|e] eqn:Ey; [|discriminate]. simpl in H.
    destruct (js_filter p l) as [r'|e]; [|discriminate]. simpl in H.
    injection H as <-. destruct b.
    + apply elem_of_cons in Hx as [->|Hx]; eauto.
    + eauto.
Qed.

(** A callback that throws on the first element makes [js_filter] throw. *)
Lemma js_filter_throw_head {A} (p : A -> except bool) (x : A) (l : list A) e :
  p x = Throw e -> js_filter p (x :: l) = Throw e.
Proof. intros H. simpl. rewrite H. reflexivity. Qed.

#[export] Hint Resolve js_filter_Ok_sublist js_filter_throw_head : js.

Lemma js_foreach_app {A S} (f : S -> A -> except S) s l1 l2 :
  js_foreach f s (l1 ++ l2) = (s' <- js_foreach f s l1 ;; js_foreach f s' l2).
Proof.
  revert s. induction l1 as [|x l1 IH]; intros s; simpl; [done|].
  destruct (f s x); simpl; [apply IH|done].
Qed.

(** [js_filter] with a callback that always answers [b]. *)
Lemma js_filter_const {A} (l : list A) (b : bool) :
  js_filter (fun _ => Ok b) l = Ok (if b then l else []).
Proof. induction l as [|x l IH]; simpl; [by destruct b|]. rewrite IH. by destruct b. Qed.

(** Two callbacks that agree on every element filter alike. *)
Lemma js_filter_ext {A} (p q : A -> except bool) (l : list A) :
  (forall x, x ∈ l -> p x = q x) -> js_filter p l = js_filter q l.
Proof.
  induction l as [|x l IH]; intros Hpq; simpl; [done|].
  rewrite Hpq by apply list_elem_of_here.
  rewrite IH; [done|]. intros y Hy. apply Hpq. by apply list_elem_of_further.
Qed.

(** Membership in the result of a callback that never throws. *)
Lemma js_filter_pure_elem {A} (p : A -> bool) (l r : list A) (x : A) :
  js_filter (fun y => Ok (p y)) l = Ok r -> (x ∈ r <-> x ∈ l /\ p x = true).
Proof.
  rewrite js_filter_pure. intros [= <-].
  rewrite list_elem_of_In, filter_In, <- list_elem_of_In. done.
Qed.

#[export] Hint Rewrite @js_foreach_app @js_filter_const : js_rw.

(** Membership in [List.filter] of a boolean test. *)
Lemma elem_of_filter_bool {A} (p : A -> bool) (l : list A) (x : A) :
  x ∈ List.filter p l <-> x ∈ l /\ p x = true.
Proof. by rewrite list_elem_of_In, filter_In, <- list_elem_of_In. Qed.

(** [mapM] over a mapped list whose every image succeeds. *)
Lemma mapM_fmap_Some {A B C} (f : B -> option C) (g : A -> B) (h : A -> C) (l : list A) :
  (forall x, f (g x) = Some (h x)) -> mapM f (g <$> l) = Some (h <$> l).
Proof. intros Hf. apply mapM_Some_2. induction l as [|x l IH]; csimpl; constructor; auto. Qed.

(** [mapM] over an [omap]: the images that survive [g] all succeed
    under [f], and [h] is the two in sequence. *)
Lemma mapM_omap_Some {A B C} (f : B -> option C) (g : A -> option B) (h : A -> option C) (l : list A) :
  (forall x y, g x = Some y -> is_Some (f y)) -> (forall x, g x ≫= f = h x) ->
  mapM f (omap g l) = Some (omap h l).
Proof.
  intros Hs Hh. apply mapM_Some_2. induction l as [|x l IH]; [constructor|]. csimpl.
  specialize (Hh x). destruct (g x) as [y|] eqn:Hg; simpl in Hh; rewrite <- Hh; [|done].
  destruct (Hs x y Hg) as [z Hz]. rewrite Hz. by constructor.
Qed.

Lemma trace_app {L S} (step : L -> S -> S -> Prop) es1 es2 s1 s2 s3 :
  trace step es1 s1 s2 -> trace step es2 s2 s3 -> trace step (es1 ++ es2) s1 s3.
Proof. induction 1 as [|e es t1 t2 t3 Hst _ IH]; simpl; [done|]. intros Htr. econstructor; eauto. Qed.

Lemma trace_cons_inv {L S} (step : L -> S -> S -> Prop) e es s s'' :
  trace step (e :: es) s s'' -> exists s', step e s s' /\ trace step es s' s''.
Proof. inversion 1; eauto. Qed.

Lemma trace_nil_inv {L S} (step : L -> S -> S -> Prop) s s' : trace step [] s s' -> s' = s.
Proof. by inversion 1. Qed.

(** Take a trace of known events apart, one step per event. *)
Ltac trace_steps H :=
  repeat match type of H with
  | trace _ (_ :: _) _ _ => let s := fresh "s" in let Hs := fresh "Hst" in
                            apply trace_cons_inv in H as (s & Hs & H)
  | trace _ [] _ _ => apply trace_nil_inv in H; subst
  end.

(** A relation preserved by every step, the abstract state moving as the
    specification says, holds along every trace: the forward simulation
    of an implementation by a functional specification. *)
Section Refinement.
Context {L S A : Type} (step : L -> S -> S -> Prop) (spec : L -> A -> A) (R : A -> S -> Prop).
Hypothesis step_sim : forall e a s s', step e s s' -> R a s -> R (spec e a) s'.

Lemma trace_refines es a s s' :
  trace step es s s' -> R a s -> R (spec_run spec a es) s'.
Proof.
  intros Htr. revert a. induction Htr as [s|e es s1 s2 s3 Hst _ IH]; intros a Hr; [done|].
  apply IH. by eapply step_sim.
Qed.
End Refinement.

(** An invariant of every step holds along every trace. *)
Lemma trace_ind_inv {L S} (step : L -> S -> S -> Prop) (P : S -> Prop) es s s' :
  (forall e s1 s2, step e s1 s2 -> P s1 -> P s2) -> trace step es s s' -> P s -> P s'.
Proof. intros Hinv. induction 1; eauto. Qed.

(** Close a decidable goal about concrete data by evaluating its decision
    procedure. *)
Ltac decide_by_eval := refine (bool_decide_unpack _ _); vm_compute; reflexivity.
