(* ===== verification/JsValue.v ===== *)
(** * JsValue: the values of a data-grid record and the JavaScript conversions

    A record of the data grid ([Datum] of [DataGrid/lib/types/index.d.ts])
    maps field names to [boolean | number | string | null | Date]; reading a
    field it does not have gives [undefined].  This file models those values
    ([value]), numbers with their [NaN] ([jsnum]), records as association
    lists in key-insertion order ([datum]), and the conversions the
    components apply to them: [Number(v)], [String(v)], [Boolean(v)] and
    truthiness, [new Date(v)], [typeof v] and strict equality [===].

    Parsing of strings into numbers and dates and printing of dates are done
    by the JavaScript host, not by this repository: they are the fields of
    the class [JsHost], and every theorem holds for every host. *)

From stdpp Require Import base list strings.
From Stdlib Require Import Ascii ZArith DecimalString.
From S2P Require Import Prelude JsString.

(** ** Numbers

    A JavaScript number is [NaN] or an integer.  The modelled code compares,
    converts and prints numbers; the integers stand for the integral
    doubles, [NaN] keeps its IEEE behaviour: every comparison with it is
    false. *)

Inductive jsnum := NaN | Num (z : Z).

#[export] Instance jsnum_eq_dec : EqDecision jsnum.
Proof. solve_decision. Defined.

Definition num_cmp (op : Z -> Z -> bool) (a b : jsnum) : bool :=
  match a, b with Num x, Num y => op x y | _, _ => false end.

(** [a === b], [a > b], [a < b], [a >= b], [a <= b] on numbers. *)
Definition num_eqb := num_cmp Z.eqb.
Definition num_gtb := num_cmp Z.gtb.
Definition num_ltb := num_cmp Z.ltb.
Definition num_geb := num_cmp Z.geb.
Definition num_leb := num_cmp Z.leb.

Definition isNaN (n : jsnum) : bool := match n with NaN => true | Num _ => false end.

(** [String(n)] of a number: decimal digits with a leading [-]. *)
Definition number_to_string (n : jsnum) : jstr :=
  match n with
  | NaN => str "NaN"
  | Num z => str (NilZero.string_of_int (Z.to_int z))
  end.

(** ** Values *)

Inductive value :=
  | VUndef
  | VNull
  | VBool (b : bool)
  | VNum (n : jsnum)
  | VStr (s : jstr)
  | VDate (ref : nat) (t : jsnum).
(** A [Date] is an object: [ref] is its identity, [t] its time value. *)

#[export] Instance value_eq_dec : EqDecision value.
Proof. solve_decision. Defined.

(** ** The host *)

Class JsHost := {
  host_parse_number : jstr -> jsnum;  (** [Number(s)] of a string *)
  host_parse_date : jstr -> jsnum;    (** time value of [new Date(s)] *)
  host_date_string : jsnum -> jstr    (** [String(d)] of a [Date] *)
}.

Section Conversions.
  Context `{JsHost}.

  (** [Number(v)] *)
Definition to_number (v : value) : jsnum :=
    match v with
    | VUndef => NaN
    | VNull => Num 0
    | VBool b => Num (if b then 1 else 0)
    | VNum n => n
    | VStr s => host_parse_number s
    | VDate _ t => t
    end.

  (** [String(v)] *)
Definition to_string (v : value) : jstr :=
    match v with
    | VUndef => str "undefined"
    | VNull => str "null"
    | VBool true => str "true"
    | VBool false => str "false"
    | VNum n => number_to_string n
    | VStr s => s
    | VDate _ t => host_date_string t
    end.

  (** TimeClip: time values beyond 8.64e15 ms are invalid. *)
Definition time_clip (n : jsnum) : jsnum :=
    match n with
    | Num z => if bool_decide (Z.abs z <= 8640000000000000)%Z then Num z else NaN
    | NaN => NaN
    end.

  (** The time value of [new Date(v)]: a [Date] is copied, a string is
      parsed, anything else goes through [Number]. *)
Definition new_date (v : value) : jsnum :=
    match v with
    | VDate _ t => t
    | VStr s => host_parse_date s
    | _ => time_clip (to_number v)
    end.
End Conversions.

(** [Boolean(v)], the truthiness used by [if], [?:], [||] and [&&]. *)
Definition truthy (v : value) : bool :=
  match v with
  | VUndef | VNull => false
  | VBool b => b
  | VNum NaN => false
  | VNum (Num z) => negb (Z.eqb z 0)
  | VStr s => bool_decide (s <> [])
  | VDate _ _ => true
  end.

(** [a || b] on values: [a] when it is truthy, [b] otherwise. *)
Definition js_or (a b : value) : value := if truthy a then a else b.

(** [a === b]: objects by identity, [NaN] unequal to itself. *)
Definition strict_eq (a b : value) : bool :=
  match a, b with
  | VUndef, VUndef | VNull, VNull => true
  | VBool x, VBool y => Bool.eqb x y
  | VNum x, VNum y => num_eqb x y
  | VStr x, VStr y => bool_decide (x = y)
  | VDate r1 _, VDate r2 _ => Nat.eqb r1 r2
  | _, _ => false
  end.

(** [Object.is(a, b)], which React uses to compare the dependencies of an
    effect: [===], except that [NaN] is itself (the model has no [-0]). *)
Definition object_is (a b : value) : bool :=
  match a, b with VNum NaN, VNum NaN => true | _, _ => strict_eq a b end.

(** [typeof v] *)
Definition typeof (v : value) : jstr :=
  match v with
  | VUndef => str "undefined"
  | VNull | VDate _ _ => str "object"
  | VBool _ => str "boolean"
  | VNum _ => str "number"
  | VStr _ => str "string"
  end.

(** ** Records

    A record is the list of its own properties in insertion order, as
    [Object.keys] and [Object.values] enumerate them. *)

Abbreviation datum := (list (jstr * value)).

(** [record[field]]: [undefined] when the record has no such field. *)
Fixpoint get (r : datum) (k : jstr) : value :=
  match r with
  | [] => VUndef
  | (k', v) :: r' => if bool_decide (k = k') then v else get r' k
  end.

Definition object_keys (r : datum) : list jstr := fst <$> r.
Definition object_values (r : datum) : list value := snd <$> r.

(** The property [k: v] after a spread in an object literal, or an
    assignment [o[k] = v] to a copy: an existing key keeps its place and
    takes the new value, a new key goes last. *)
Fixpoint obj_set (k : jstr) (v : value) (o : datum) : datum :=
  match o with
  | [] => [(k, v)]
  | (k', v') :: o' => if bool_decide (k' = k) then (k, v) :: o' else (k', v') :: obj_set k v o'
  end.

(** A well-formed record has each key once. *)
Definition wf_datum (r : datum) : Prop := NoDup (object_keys r).

(** ** Lemmas *)

Lemma num_cmp_NaN_l op n : num_cmp op NaN n = false.
Proof. reflexivity. Qed.

Lemma num_cmp_NaN_r op n : num_cmp op n NaN = false.
Proof. by destruct n. Qed.

#[export] Hint Rewrite num_cmp_NaN_l num_cmp_NaN_r : js_rw.

Lemma strict_eq_sym a b : strict_eq a b = strict_eq b a.
Proof.
  destruct a as [| |x|[|x]|x|r1 t1], b as [| |y|[|y]|y|r2 t2]; simpl; try done.
  - by destruct x, y.
  - apply Z.eqb_sym.
  - by apply bool_decide_ext.
  - apply Nat.eqb_sym.
Qed.

(** [===] is equality except on [NaN] and on dates, which are compared by
    identity. *)
Lemma strict_eq_true a b :
  strict_eq a b = true ->
  a = b \/ exists r t1 t2, a = VDate r t1 /\ b = VDate r t2.
Proof.
  destruct a as [| |x|[|x]|x|r1 t1], b as [| |y|[|y]|y|r2 t2]; simpl; try discriminate; auto.
  - intros Hb. apply Bool.eqb_prop in Hb. subst. auto.
  - intros Hz. apply Z.eqb_eq in Hz. subst. auto.
  - intros Hs. apply bool_decide_eq_true in Hs. subst. auto.
  - intros Hr. apply Nat.eqb_eq in Hr. subst. right. eauto.
Qed.

Lemma get_app_l r1 r2 k v :
  get r1 k = v -> v <> VUndef -> get (r1 ++ r2) k = v.
Proof.
  induction r1 as [|[k' v'] r1 IH]; simpl; [congruence|].
  case_bool_decide; auto.
Qed.

Lemma get_not_key r k : k ∉ object_keys r -> get r k = VUndef.
Proof.
  induction r as [|[k' v'] r IH]; simpl; [done|].
  unfold object_keys; simpl. rewrite not_elem_of_cons. intros [Hk Hr].
  rewrite bool_decide_false by done. by apply IH.
Qed.

Lemma get_elem r k v : wf_datum r -> (k, v) ∈ r -> get r k = v.
Proof.
  unfold wf_datum, object_keys. induction r as [|[k' v'] r IH]; simpl.
  - intros _ Hin. by apply not_elem_of_nil in Hin.
  - rewrite NoDup_cons. intros [Hk' Hnd] Hin.
    apply elem_of_cons in Hin as [[= -> ->]|Hin].
    + by rewrite bool_decide_true.
    + rewrite bool_decide_false; [by apply IH|].
      intros ->. apply Hk'. apply list_elem_of_fmap. by exists (k', v).
Qed.

Lemma get_obj_set k v o : get (obj_set k v o) k = v.
Proof.
  induction o as [|[k' v'] o IH]; simpl; [by rewrite bool_decide_true|].
  case_bool_decide as Hk; simpl; [by rewrite bool_decide_true|].
  rewrite bool_decide_false by congruence. exact IH.
Qed.

Lemma get_obj_set_other k k' v o : k' <> k -> get (obj_set k v o) k' = get o k'.
Proof.
  intros Hk. induction o as [|[k'' v'] o IH]; simpl; [by rewrite bool_decide_false|].
  case_bool_decide as Hk''; simpl.
  - subst. by rewrite !bool_decide_false.
  - case_bool_decide; [done|exact IH].
Qed.

#[export] Hint Rewrite get_obj_set : js_rw.

Lemma length_object_values r : length (object_values r) = length (object_keys r).
Proof. unfold object_values, object_keys. by rewrite !length_fmap. Qed.

(** Every character [number_to_string] prints is a digit, [-], or one of
    the letters of [NaN]. *)
Definition is_digit (c : ascii) : bool :=
  (48 <=? nat_of_ascii c) && (nat_of_ascii c <=? 57).

Definition number_char (c : ascii) : bool :=
  is_digit c || bool_decide (c ∈ str "-NaN").

Lemma string_of_uint_digits d :
  Forall (fun c => is_digit c = true) (str (NilEmpty.string_of_uint d)).
Proof. induction d; simpl; constructor; done. Qed.

Lemma string_of_uint0_digits d :
  Forall (fun c => is_digit c = true) (str (NilZero.string_of_uint d)).
Proof.
  unfold NilZero.string_of_uint.
  destruct d; try apply string_of_uint_digits. repeat constructor.
Qed.

Lemma number_to_string_chars n :
  Forall (fun c => number_char c = true) (number_to_string n).
Proof.
  assert (Hd : forall d, Forall (fun c => number_char c = true) (str (NilZero.string_of_uint d))).
  { intros d. eapply Forall_impl; [apply string_of_uint0_digits|].
    intros c Hc. unfold number_char. by rewrite Hc. }
  destruct n as [|z]; [repeat constructor|]. unfold number_to_string.
  destruct (Z.to_int z) as [d|d]; [apply Hd|]. constructor; [done|apply Hd].
Qed.

(** ** A host for evaluating examples

    Parses decimal integer literals as numbers and as millisecond time
    values; prints a date as its time value.  It stands for a browser only
    on the inputs the examples use. *)
Definition string_of_jstr (s : jstr) : String.string := String.string_of_list_ascii s.

Definition parse_int (s : jstr) : jsnum :=
  match s with
  | [] => Num 0
  | _ => match NilZero.int_of_string (string_of_jstr s) with
         | Some d => Num (Z.of_int d)
         | None => NaN
         end
  end.

Definition sample_host : JsHost := {|
  host_parse_number := parse_int;
  host_parse_date := parse_int;
  host_date_string := number_to_string
|}.
