(* ===== verification/Filters.v ===== *)
(** * Filters: the data-grid filter engine

    Models [src/src/components/DataGrid/lib/components/Filters/utils.ts]:
    [filterData] and the predicates [applyStringFilter],
    [applyNumberFilter], [applyDateFilter], [applyBooleanFilter] and
    [applyEnumFilter], over the filter objects of
    [DataGrid/lib/types/filters.d.ts].

    A filter object is modelled as it exists at run time: its [type] and
    [constraint] are the strings the [switch] statements compare (the
    constructors [TOtherType] and [OtherConstraint] stand for any other
    string), and its [comparables] property may be missing, in which case
    reading [comparables.value] throws a [TypeError].  [filterData] is
    [async]: its [except] result is the settled promise, [Ok] when it
    fulfils and [Throw] when it rejects. *)

From stdpp Require Import base list strings.
From Stdlib Require Import Ascii ZArith.
From S2P Require Import Prelude JsString JsValue.

(** ** Filter objects *)

Inductive filter_type :=
  | TString | TNumber | TDate | TBoolean | TEnum
  | TOtherType (s : jstr).

Inductive constraint :=
  | Equals | NotEquals | Contains | NotContains | StartsWith | EndsWith
  | GreaterThan | LessThan | GreaterThanOrEqual | LessThanOrEqual
  | Between | NotBetween | In | NotIn | Null | NotNull
  | OtherConstraint (s : jstr).

(** The constraint a run-time string denotes in the [switch] statements
    (the members of the [Constraint] union of [filters.d.ts]). *)
Definition constraint_of_string (s : jstr) : constraint :=
  let table := [(str "equals", Equals); (str "notEquals", NotEquals);
                (str "contains", Contains); (str "notContains", NotContains);
                (str "startsWith", StartsWith); (str "endsWith", EndsWith);
                (str "greaterThan", GreaterThan); (str "lessThan", LessThan);
                (str "greaterThanOrEqual", GreaterThanOrEqual);
                (str "lessThanOrEqual", LessThanOrEqual);
                (str "between", Between); (str "notBetween", NotBetween);
                (str "in", In); (str "notIn", NotIn);
                (str "null", Null); (str "notNull", NotNull)] in
  match list_find (fun p => p.1 = s) table with
  | Some (_, (_, c)) => c
  | None => OtherConstraint s
  end.

(** [comparables]: a property the object does not have reads as
    [undefined]. *)
Record comparables := mk_comparables {
  c_value : value;
  c_from : value;
  c_to : value
}.

Record Filter := mk_filter {
  f_type : filter_type;
  f_constraint : constraint;
  f_field : jstr;
  f_comparables : option comparables;
  f_caseSensitive : value
}.

(** ** The predicates *)

Definition applyStringFilter (c : constraint) (item value : jstr) : bool :=
  match c with
  | Equals => bool_decide (item = value)
  | NotEquals => negb (bool_decide (item = value))
  | Contains => includes item value
  | NotContains => negb (includes item value)
  | StartsWith => startsWith item value
  | EndsWith => endsWith item value
  | In => includes value item
  | NotIn => negb (includes value item)
  | Null => strict_eq (VStr item) VNull
  | NotNull => negb (strict_eq (VStr item) VNull)
  | _ => false
  end.

Definition applyNumberFilter (c : constraint) (item value : jsnum)
    (from to : option jsnum) : bool :=
  match c with
  | Equals => num_eqb item value
  | NotEquals => negb (num_eqb item value)
  | GreaterThan => num_gtb item value
  | LessThan => num_ltb item value
  | GreaterThanOrEqual => num_geb item value
  | LessThanOrEqual => num_leb item value
  | Between =>
      match from, to with
      | Some f, Some t => num_geb item f && num_leb item t
      | _, _ => false
      end
  | Null => strict_eq (VNum item) VNull
  | NotNull => negb (strict_eq (VNum item) VNull)
  | _ => false
  end.

(** Dates are compared through [getTime()] (and [>=]/[<=] on the [Date]
    objects, which compare their time values). *)
Definition applyDateFilter (c : constraint) (item value : jsnum)
    (from to : option jsnum) : bool :=
  match c with
  | Equals => num_eqb item value
  | NotEquals => negb (num_eqb item value)
  | GreaterThan => num_gtb item value
  | LessThan => num_ltb item value
  | GreaterThanOrEqual => num_geb item value
  | LessThanOrEqual => num_leb item value
  | Between =>
      match from, to with
      | Some f, Some t => num_geb item f && num_leb item t
      | _, _ => false
      end
  | Null => false     (* [item === null]: a [Date] object is never [null] *)
  | NotNull => true
  | _ => false
  end.

Definition applyBooleanFilter (c : constraint) (item value : bool) : bool :=
  match c with
  | Equals => Bool.eqb item value
  | NotEquals => negb (Bool.eqb item value)
  | _ => false
  end.

(** [Array.prototype.includes] compares with SameValueZero: like [===]
    except that [NaN] equals [NaN]. *)
Definition same_value_zero (a b : value) : bool :=
  match a, b with
  | VNum NaN, VNum NaN => true
  | _, _ => strict_eq a b
  end.

Definition applyEnumFilter (c : constraint) (item v : value)
    (values : option (list value)) : bool :=
  match c with
  | Equals => strict_eq item v
  | NotEquals => negb (strict_eq item v)
  | In => match values with Some vs => existsb (same_value_zero item) vs | None => false end
  | NotIn => match values with Some vs => negb (existsb (same_value_zero item) vs) | None => false end
  | _ => false
  end.

(** ** [filterData] *)

Section FilterData.
  Context `{JsHost}.

  (** [comparables.value] and its siblings: a [TypeError] when the filter
      has no [comparables]. *)
Definition read_comparables (f : Filter) : except comparables :=
    match f_comparables f with
    | Some c => Ok c
    | None => Throw TypeError
    end.

  (** The callback [dataSource.filter((record) => ...)] of each case of
      the [switch (type)]. *)
Definition filter_record (f : Filter) (caseSensitive : bool) (record : datum)
      : except bool :=
    let field := f_field f in
    match f_type f with
    | TString =>
        let _record := if caseSensitive then to_string (get record field)
                       else toLowerCase (to_string (get record field)) in
        comps <- read_comparables f ;;
        let _value := if caseSensitive then to_string (c_value comps)
                      else toLowerCase (to_string (c_value comps)) in
        Ok (applyStringFilter (f_constraint f) _record _value)
    | TNumber =>
        let _record := to_number (get record field) in
        comps <- read_comparables f ;;
        let _value := to_number (c_value comps) in
        let _from := if truthy (c_from comps) then Some (to_number (c_from comps)) else None in
        let _to := if truthy (c_to comps) then Some (to_number (c_to comps)) else None in
        Ok (applyNumberFilter (f_constraint f) _record _value _from _to)
    | TDate =>
        let _record := new_date (get record field) in
        comps <- read_comparables f ;;
        let _value := new_date (c_value comps) in
        let _from := if truthy (c_from comps) then Some (new_date (c_from comps)) else None in
        let _to := if truthy (c_to comps) then Some (new_date (c_to comps)) else None in
        Ok (applyDateFilter (f_constraint f) _record _value _from _to)
    | TBoolean =>
        let _record := truthy (get record field) in
        comps <- read_comparables f ;;
        Ok (applyBooleanFilter (f_constraint f) _record (truthy (c_value comps)))
    | TEnum =>
        let _record := get record field in
        comps <- read_comparables f ;;
        Ok (applyEnumFilter (f_constraint f) _record (c_value comps) None)
    | TOtherType _ => Ok false
    end.

  (** One iteration of [filters.forEach]: every case re-filters the
      captured [dataSource], not the running [_data]; a [type] no case
      matches leaves [_data] as it is. *)
Definition filterData_step (dataSource _data : list datum) (f : Filter)
      : except (list datum) :=
    let caseSensitive := truthy (f_caseSensitive f) in
    match f_type f with
    | TOtherType _ => Ok _data
    | _ => js_filter (filter_record f caseSensitive) dataSource
    end.

Definition filterData (dataSource : list datum) (filters : list Filter)
      : except (list datum) :=
    js_foreach (filterData_step dataSource) dataSource filters.
End FilterData.

(** A [type] that one of the five cases handles. *)
Definition known_type (t : filter_type) : bool :=
  match t with TOtherType _ => false | _ => true end.

(** ** The repository's test fixture

    The records of [Filters/__test__/utils.test.ts]. *)
Definition test_person (id : Z) (name : String.string) (age : Z) (active : bool) : datum :=
  [(str "id", VNum (Num id)); (str "name", VStr (str name));
   (str "age", VNum (Num age)); (str "active", VBool active)].

Definition test_data : list datum :=
  [test_person 1 "Alice" 25 true; test_person 2 "Bob" 30 false;
   test_person 3 "Charlie" 35 true].

(** A filter of the tests, built with the property the code reads
    ([comparables]) or, as the test file writes it, without it. *)
Definition test_filter (t : filter_type) (c : constraint) (field : String.string)
    (v : value) (with_comparables : bool) : Filter :=
  mk_filter t c (str field)
    (if with_comparables then Some (mk_comparables v VUndef VUndef) else None) VUndef.

(** ** Specification helpers *)

(** The filter whose case [filterData]'s result comes from: the last one
    of a known [type]. *)
Definition last_known (fs : list Filter) : option Filter :=
  last (List.filter (fun f => known_type (f_type f)) fs).

(** What the search constraints of a string filter mean. *)
Definition search_spec (c : constraint) (p s : jstr) : Prop :=
  match c with
  | Contains => infix_of p s
  | StartsWith => p `prefix_of` s
  | EndsWith => p `suffix_of` s
  | _ => False
  end.

(** ** Lemmas *)

Section FilterProofs.
  Context `{JsHost}.

Lemma filterData_step_known ds d f :
    known_type (f_type f) = true ->
    filterData_step ds d f = js_filter (filter_record f (truthy (f_caseSensitive f))) ds.
  Proof. unfold filterData_step. by destruct (f_type f). Qed.

Lemma filterData_single ds f :
    known_type (f_type f) = true ->
    filterData ds [f] = js_filter (filter_record f (truthy (f_caseSensitive f))) ds.
  Proof.
    intros Hk. unfold filterData. simpl. rewrite filterData_step_known by done.
    by destruct (js_filter _ ds).
  Qed.

Lemma filterData_app ds fs1 fs2 :
    filterData ds (fs1 ++ fs2) =
    (d <- filterData ds fs1 ;; js_foreach (filterData_step ds) d fs2).
  Proof. apply js_foreach_app. Qed.

  (** A filter whose callback answers [b] on every record. *)
Lemma filterData_single_const ds f b :
    known_type (f_type f) = true ->
    (forall x, filter_record f (truthy (f_caseSensitive f)) x = Ok b) ->
    filterData ds [f] = Ok (if b then ds else []).
  Proof.
    intros Hk Hb. rewrite filterData_single by done.
    rewrite (js_filter_ext _ (fun _ => Ok b)) by auto. apply js_filter_const.
  Qed.

Lemma filter_record_no_comparables f cs r :
    known_type (f_type f) = true -> f_comparables f = None ->
    filter_record f cs r = Throw TypeError.
  Proof.
    intros Hk Hc. unfold filter_record, read_comparables. rewrite Hc.
    by destruct (f_type f).
  Qed.

Lemma filterData_empty_source fs : filterData [] fs = Ok [].
  Proof.
    unfold filterData. induction fs as [|f fs IH]; [done|]. simpl.
    unfold filterData_step. destruct (f_type f); simpl; apply IH.
  Qed.

  (** The result of [filterData] is the data source when no filter has a
      known [type], and otherwise the data source filtered by the last
      such filter alone. *)
Lemma filterData_last ds fs r :
    filterData ds fs = Ok r ->
    match last_known fs with
    | None => r = ds
    | Some f => js_filter (filter_record f (truthy (f_caseSensitive f))) ds = Ok r
    end.
  Proof.
    revert r. induction fs as [|f fs IH] using rev_ind; intros r Hr.
    - by injection Hr as <-.
    - rewrite filterData_app in Hr. apply bind_eq_Ok in Hr as (d & Hd & Hr). simpl in Hr.
      unfold last_known. rewrite List.filter_app. simpl.
      destruct (known_type (f_type f)) eqn:Hk; simpl.
      + rewrite last_snoc. rewrite filterData_step_known in Hr by done.
        destruct (js_filter _ ds); simpl in Hr; congruence.
      + rewrite app_nil_r. unfold filterData_step in Hr.
        destruct (f_type f); try discriminate. simpl in Hr. injection Hr as <-. by apply IH.
  Qed.
End FilterProofs.

(** ** Properties of [filterData] *)

Section FilterTheorems.
  Context `{JsHost}.

  (** C1: [filterData] does not compose its filters: once the earlier
      filters have run without throwing, appending a filter of a known
      [type] gives the same result as running that filter alone on the
      data source (each case re-filters [dataSource], not [_data]). *)
Theorem filterData_last_filter_wins ds fs f r :
    filterData ds fs = Ok r ->
    known_type (f_type f) = true ->
    filterData ds (fs ++ [f]) = filterData ds [f].
  Proof.
    intros Hfs Hk. rewrite filterData_app, Hfs. simpl.
    rewrite filterData_single, filterData_step_known by done.
    by destruct (js_filter _ ds).
  Qed.

  (** C2: a fulfilled [filterData] returns a sublist of the data source
      (records kept in their order) and every record it returns satisfies
      the last filter of a known [type]; with no such filter it returns
      the data source itself. *)
Theorem filterData_sound ds fs r :
    filterData ds fs = Ok r ->
    sublist r ds /\
    match last_known fs with
    | None => r = ds
    | Some f => forall x, x ∈ r -> filter_record f (truthy (f_caseSensitive f)) x = Ok true
    end.
  Proof.
    intros Hr. pose proof (filterData_last ds fs r Hr) as Hl.
    destruct (last_known fs) as [f|].
    - split; [eapply js_filter_Ok_sublist; eauto|]. intros x Hx.
      eapply js_filter_Ok_elem; eauto.
    - subst. split; [reflexivity|done].
  Qed.

  (** C20: a filter without a [comparables] property (such as the objects
      the column-filter panel and the tests build, which carry
      [parameters] instead) makes [filterData] reject with a [TypeError]
      on any non-empty data source, whatever filters follow it. *)
Theorem filterData_missing_comparables_rejects ds fs1 f fs2 r :
    known_type (f_type f) = true ->
    f_comparables f = None ->
    ds <> [] ->
    filterData ds fs1 = Ok r ->
    filterData ds (fs1 ++ f :: fs2) = Throw TypeError.
  Proof.
    intros Hk Hc Hne Hfs. rewrite filterData_app, Hfs. simpl.
    rewrite filterData_step_known by done.
    destruct ds as [|x ds]; [done|].
    rewrite (js_filter_throw_head _ x ds TypeError); [done|].
    by apply filter_record_no_comparables.
  Qed.

  (** C22: a case-sensitive [contains], [startsWith] or [endsWith] filter
      keeps exactly the records whose field, converted with [String], has
      the comparable value as infix, prefix or suffix. *)
Theorem filterData_string_search_spec ds c field comps cs r :
    c ∈ [Contains; StartsWith; EndsWith] ->
    truthy cs = true ->
    filterData ds [mk_filter TString c field (Some comps) cs] = Ok r ->
    forall x, x ∈ r <->
      x ∈ ds /\ search_spec c (to_string (c_value comps)) (to_string (get x field)).
  Proof.
    intros Hc Hcs Hr x. rewrite filterData_single in Hr by done.
    cbn [f_caseSensitive] in Hr. rewrite Hcs in Hr.
    rewrite (js_filter_ext _ (fun y => Ok (applyStringFilter c
        (to_string (get y field)) (to_string (c_value comps))))) in Hr by done.
    rewrite (js_filter_pure_elem _ _ _ _ Hr).
    rewrite !elem_of_cons, elem_of_nil in Hc.
    destruct Hc as [->|[->|[->|[]]]]; simpl;
      [rewrite includes_spec | rewrite startsWith_spec | rewrite endsWith_spec]; done.
  Qed.

  (** C23: a case-insensitive string filter gives the same result whatever
      the case of its comparable value. *)
Theorem filterData_case_insensitive ds c field s fr t cs :
    truthy cs = false ->
    filterData ds [mk_filter TString c field (Some (mk_comparables (VStr s) fr t)) cs] =
    filterData ds [mk_filter TString c field
                     (Some (mk_comparables (VStr (toUpperCase s)) fr t)) cs].
  Proof.
    intros Hcs. rewrite !filterData_single by done. cbn [f_caseSensitive].
    rewrite Hcs. apply js_filter_ext. intros x _.
    unfold filter_record. simpl. by rewrite toLowerCase_toUpperCase.
  Qed.

  (** The [null] constraint of a string filter never matches and
      [notNull] always does: the record's field has already been turned
      into a string by [String(record[field])], and a string is never
      [=== null] ([String(null)] is ["null"]). *)
Theorem filterData_string_null_constraints ds field comps cs :
    filterData ds [mk_filter TString Null field (Some comps) cs] = Ok [] /\
    filterData ds [mk_filter TString NotNull field (Some comps) cs] = Ok ds.
  Proof.
    split; [apply (filterData_single_const _ _ false) | apply (filterData_single_const _ _ true)];
      try done; intros x; unfold filter_record; simpl;
      by destruct (truthy cs).
  Qed.

  (** A [between] number filter whose lower bound is falsy ([0],
      [NaN], [null], an empty string or missing) keeps no record: the
      code tests [comparables.from ? ... : undefined], so a lower bound of
      [0] counts as absent. *)
Theorem filterData_between_falsy_bound ds field comps cs :
    truthy (c_from comps) = false ->
    filterData ds [mk_filter TNumber Between field (Some comps) cs] = Ok [].
  Proof.
    intros Hf. apply (filterData_single_const _ _ false); [done|].
    intros x. unfold filter_record. simpl. by rewrite Hf.
  Qed.

  (** [in] and [notIn] enum filters keep no record: [filterData]
      never passes [comparables.values] to [applyEnumFilter], whose
      [values] is therefore always [undefined]. *)
Theorem filterData_enum_membership_empty ds c field comps cs :
    c = In \/ c = NotIn ->
    filterData ds [mk_filter TEnum c field (Some comps) cs] = Ok [].
  Proof.
    intros Hc. apply (filterData_single_const _ _ false); [done|].
    intros x. by destruct Hc as [-> | ->].
  Qed.

  (** A number filter whose comparable value converts to [NaN] keeps
      no record under [equals] and the four order comparisons, and keeps
      every record under [notEquals]. *)
Theorem filterData_number_NaN_comparable ds c field comps cs :
    to_number (c_value comps) = NaN ->
    (c ∈ [Equals; GreaterThan; LessThan; GreaterThanOrEqual; LessThanOrEqual] ->
     filterData ds [mk_filter TNumber c field (Some comps) cs] = Ok []) /\
    filterData ds [mk_filter TNumber NotEquals field (Some comps) cs] = Ok ds.
  Proof.
    intros Hn. split.
    - intros Hc. apply (filterData_single_const _ _ false); [done|].
      intros x. unfold filter_record. simpl. rewrite Hn.
      rewrite !elem_of_cons, elem_of_nil in Hc.
      destruct Hc as [->|[->|[->|[->|[->|[]]]]]]; simpl;
        by destruct (to_number (get x field)).
    - apply (filterData_single_const _ _ true); [done|].
      intros x. unfold filter_record. simpl. rewrite Hn. simpl.
      by destruct (to_number (get x field)).
  Qed.
End FilterTheorems.

(** ** The repository's tests, evaluated *)

Section FilterExamples.
  #[local] Existing Instance sample_host.

Definition test_startsWith_C (wc : bool) :=
    test_filter TString StartsWith "name" (VStr (str "C")) wc.
Definition test_notContains_o (wc : bool) :=
    test_filter TString NotContains "name" (VStr (str "o")) wc.

  (** The test "should filter the data based on multiple string
      constraints" expects only Charlie; with the filters built as the
      code reads them, [filterData] returns Alice and Charlie, the result
      of the second filter alone. *)
Example filterData_test_multiple_constraints :
    filterData test_data [test_startsWith_C true; test_notContains_o true] =
      Ok [test_person 1 "Alice" 25 true; test_person 3 "Charlie" 35 true] /\
    filterData test_data [test_startsWith_C true; test_notContains_o true] <>
      Ok [test_person 3 "Charlie" 35 true].
  Proof. split; [vm_compute; reflexivity | vm_compute; discriminate]. Qed.

  (** Every test of [utils.test.ts] that passes filters builds them
      with [parameters] instead of [comparables], so [filterData] rejects
      with a [TypeError]; built with [comparables], the single-filter tests
      give the results the tests expect. *)
Example filterData_tests_as_written :
    filterData test_data [test_filter TString Equals "name" (VStr (str "Alice")) false]
      = Throw TypeError /\
    filterData test_data [test_startsWith_C false; test_notContains_o false]
      = Throw TypeError /\
    filterData test_data [test_filter TNumber GreaterThanOrEqual "age" (VNum (Num 30)) false]
      = Throw TypeError /\
    filterData test_data [test_filter TBoolean Equals "active" (VBool true) false]
      = Throw TypeError /\
    filterData test_data [test_filter TString Equals "name" (VStr (str "Alice")) true]
      = Ok [test_person 1 "Alice" 25 true] /\
    filterData test_data [test_filter TNumber GreaterThanOrEqual "age" (VNum (Num 30)) true]
      = Ok [test_person 2 "Bob" 30 false; test_person 3 "Charlie" 35 true] /\
    filterData test_data [test_filter TBoolean Equals "active" (VBool true) true]
      = Ok [test_person 1 "Alice" 25 true; test_person 3 "Charlie" 35 true].
  Proof. repeat split; vm_compute; reflexivity. Qed.

  (** ** Witnesses *)

Lemma filterData_last_filter_wins_witness :
    filterData test_data [test_startsWith_C true] = Ok [test_person 3 "Charlie" 35 true] /\
    filterData test_data ([test_startsWith_C true] ++ [test_notContains_o true]) =
      filterData test_data [test_notContains_o true].
  Proof.
    split; [vm_compute; reflexivity|].
    apply (filterData_last_filter_wins _ _ _ [test_person 3 "Charlie" 35 true]);
      vm_compute; reflexivity.
  Defined.

Lemma filterData_sound_witness :
    filterData test_data [test_notContains_o true] =
      Ok [test_person 1 "Alice" 25 true; test_person 3 "Charlie" 35 true] /\
    sublist [test_person 1 "Alice" 25 true; test_person 3 "Charlie" 35 true] test_data.
  Proof.
    assert (Hr : filterData test_data [test_notContains_o true] =
      Ok [test_person 1 "Alice" 25 true; test_person 3 "Charlie" 35 true])
      by (vm_compute; reflexivity).
    split; [exact Hr|]. exact (proj1 (filterData_sound _ _ _ Hr)).
  Defined.

Lemma filterData_missing_comparables_rejects_witness :
    test_data <> [] /\
    filterData test_data ([test_startsWith_C true] ++ [test_notContains_o false]) = Throw TypeError.
  Proof.
    split; [discriminate|].
    apply (filterData_missing_comparables_rejects _ _ _ _ [test_person 3 "Charlie" 35 true]);
      try discriminate; vm_compute; reflexivity.
  Defined.

Lemma filterData_string_search_spec_witness :
    filterData test_data [mk_filter TString StartsWith (str "name")
        (Some (mk_comparables (VStr (str "C")) VUndef VUndef)) (VBool true)] =
      Ok [test_person 3 "Charlie" 35 true] /\
    (test_person 3 "Charlie" 35 true ∈ [test_person 3 "Charlie" 35 true] <->
     test_person 3 "Charlie" 35 true ∈ test_data /\
     str "C" `prefix_of` str "Charlie").
  Proof.
    assert (Hr : filterData test_data [mk_filter TString StartsWith (str "name")
        (Some (mk_comparables (VStr (str "C")) VUndef VUndef)) (VBool true)] =
      Ok [test_person 3 "Charlie" 35 true]) by (vm_compute; reflexivity).
    split; [exact Hr|].
    refine (filterData_string_search_spec _ _ _ _ _ _ _ _ Hr _);
      [by repeat constructor | reflexivity].
  Defined.
Lemma filterData_case_insensitive_witness :
    truthy VUndef = false /\
    filterData test_data [mk_filter TString Equals (str "name")
        (Some (mk_comparables (VStr (str "alice")) VUndef VUndef)) VUndef] =
    filterData test_data [mk_filter TString Equals (str "name")
        (Some (mk_comparables (VStr (toUpperCase (str "alice"))) VUndef VUndef)) VUndef].
  Proof. split; [reflexivity|]. apply filterData_case_insensitive. reflexivity. Defined.

Lemma filterData_between_falsy_bound_witness :
    truthy (VNum (Num 0)) = false /\
    filterData test_data [mk_filter TNumber Between (str "age")
        (Some (mk_comparables VUndef (VNum (Num 0)) (VNum (Num 100)))) VUndef] = Ok [].
  Proof.
    split; [reflexivity|].
    apply (filterData_between_falsy_bound _ _
             (mk_comparables VUndef (VNum (Num 0)) (VNum (Num 100)))).
    reflexivity.
  Defined.

Lemma filterData_enum_membership_empty_witness :
    (In = In \/ In = NotIn) /\
    filterData test_data [mk_filter TEnum In (str "name")
        (Some (mk_comparables (VStr (str "Bob")) VUndef VUndef)) VUndef] = Ok [].
  Proof. split; [by left|]. apply filterData_enum_membership_empty. by left. Defined.

Lemma filterData_number_NaN_comparable_witness :
    to_number (VStr (str "abc")) = NaN /\
    filterData test_data [mk_filter TNumber GreaterThan (str "age")
        (Some (mk_comparables (VStr (str "abc")) VUndef VUndef)) VUndef] = Ok [].
  Proof.
    assert (Hn : to_number (VStr (str "abc")) = NaN) by (vm_compute; reflexivity).
    split; [exact Hn|].
    apply (proj1 (filterData_number_NaN_comparable test_data GreaterThan (str "age")
             (mk_comparables (VStr (str "abc")) VUndef VUndef) VUndef Hn)).
    by repeat constructor.
  Defined.
End FilterExamples.
