(* ===== verification/Columns.v ===== *)
(** * Columns: column definitions and the lists the grid derives from them

    A column of the data grid is a TanStack [ColumnDef] with the [meta]
    object this library reads ([filterType], [hidden], [pin], [tag],
    [manageable], [searchable], [locked], [filterLabel]), together with the
    [id] the table resolved for it.  This file models:
    - [searchableColumns], the keys of the global search
      ([Filters/GlobalFilter.tsx], the [reduce] of [SearchInput]);
    - [column_tags] and [manageableColumns] of [ColumnManager.tsx];
    - [isNumber] of [DataGrid/lib/utils.ts] and the filter-type detection of
      [ColumnFilters.tsx] that uses it.
    [Array.prototype.sort] with the code's comparator is the section
    variable [js_sort]: ECMAScript only promises a permutation when the
    comparator is inconsistent, which this one is (it never answers 0). *)

From stdpp Require Import base list strings.
From Stdlib Require Import Ascii ZArith.
From S2P Require Import Prelude JsString JsValue.

Record column_meta := mk_meta {
  m_filterType : value;
  m_hidden : value;
  m_pin : value;
  m_tag : value;
  m_manageable : value;
  m_searchable : value;
  m_locked : value;
  m_filterLabel : value
}.

Definition empty_meta : column_meta :=
  mk_meta VUndef VUndef VUndef VUndef VUndef VUndef VUndef VUndef.

Record column := mk_column {
  col_id : jstr;              (** [column.id], resolved by the table *)
  col_def_id : value;         (** [columnDef.id] *)
  col_accessorKey : value;    (** [columnDef.accessorKey] *)
  col_header : value;         (** [columnDef.header] *)
  col_meta : option column_meta
}.

(** [column.columnDef.meta?.[k]] *)
Definition meta_get (c : column) (k : column_meta -> value) : value :=
  match col_meta c with Some m => k m | None => VUndef end.

(** ** Global search keys ([GlobalFilter.tsx]) *)

(** One step of the [reduce]: the accessor key is pushed first, before
    [meta.searchable] is looked at. *)
Definition searchable_step (result : list value) (c : column) : list value :=
  let result := if truthy (col_accessorKey c) then result ++ [col_accessorKey c] else result in
  match col_meta c with
  | Some m =>
      if negb (truthy (m_searchable m)) then result
      else if truthy (m_searchable m) && truthy (col_def_id c)
           then result ++ [col_def_id c] else result
  | None => result
  end.

Definition searchableColumns (columns : list column) : list value :=
  foldl searchable_step [] columns.

(** ** Column manager ([ColumnManager.tsx]) *)

(** [self.indexOf(x)]: the first index holding a value [=== x]. *)
Fixpoint indexOf (l : list value) (x : value) : option nat :=
  match l with
  | [] => None
  | y :: l' => if strict_eq y x then Some 0 else S <$> indexOf l' x
  end.

(** [.filter((tag, index, self) => self.indexOf(tag) === index)] *)
Definition dedup_by_index (l : list value) : list value :=
  (fun p => p.2) <$>
    List.filter (fun p => bool_decide (indexOf l p.2 = Some p.1)) (imap pair l).

Definition column_tags (columns : list column) : list value :=
  dedup_by_index
    (List.filter (fun t => negb (strict_eq t VUndef)) ((fun c => meta_get c m_tag) <$> columns)).

Section Manageable.
  Context `{JsHost}.
  Variable js_sort : (column -> column -> Z) -> list column -> list column.

  (** The comparator of the [.sort]: [-1] when [a]'s tag, as a string, is
      greater than [b]'s, otherwise [1]. *)
Definition tag_cmp (a b : column) : Z :=
    if jstr_ltb (to_string (meta_get b m_tag)) (to_string (meta_get a m_tag))
    then (-1)%Z else 1%Z.

  (** [manageableColumns]: the columns whose [meta.manageable !== false],
      sorted by tag, whose header contains the search text, ignoring case. *)
Definition manageableColumns (searchText : jstr) (columns : list column) : list column :=
    List.filter
      (fun c => includes (toLowerCase (to_string (col_header c))) (toLowerCase searchText))
      (js_sort tag_cmp
         (List.filter (fun c => negb (strict_eq (meta_get c m_manageable) (VBool false))) columns)).
End Manageable.

(** ** Filter-type detection ([utils.ts], [ColumnFilters.tsx]) *)

Section Detection.
  Context `{JsHost}.

  (** [isNumber(value)]: [!isNaN(Number(value))]. *)
Definition isNumber (v : value) : bool := negb (isNaN (to_number v)).

  (** The column the radio selection [selected] designates: [column.id] or
      [columnDef.accessorKey] equal to it. *)
Definition find_selected (columns : list column) (selected : jstr) : option column :=
    List.find (fun c => bool_decide (col_id c = selected) ||
                              strict_eq (col_accessorKey c) (VStr selected)) columns.

  (** The [type] state the effect on [selected] computes: the column's
      [meta.filterType] when truthy, else ['number'] when the field of the
      first visible record passes [isNumber], else its [typeof]. *)
Definition detect_type (columns : list column) (visibleData : list datum)
      (selected : jstr) : value :=
    let filterType := match find_selected columns selected with
                      | Some c => meta_get c m_filterType
                      | None => VUndef
                      end in
    if truthy filterType then filterType
    else
      let v := match visibleData with r :: _ => get r selected | [] => VUndef end in
      if isNumber v then VStr (str "number") else VStr (typeof v).
End Detection.

(** ** Lemmas *)

(** The keys one column contributes, in the order the step pushes them. *)
Definition new_keys (c : column) : list value :=
  (if truthy (col_accessorKey c) then [col_accessorKey c] else []) ++
  match col_meta c with
  | Some m => if truthy (m_searchable m) && truthy (col_def_id c) then [col_def_id c] else []
  | None => []
  end.

Lemma searchable_step_app acc c : searchable_step acc c = acc ++ new_keys c.
Proof.
  unfold searchable_step, new_keys.
  destruct (truthy (col_accessorKey c)), (col_meta c) as [m|];
    try destruct (truthy (m_searchable m)); try destruct (truthy (col_def_id c));
    simpl; rewrite ?app_nil_r, <- ?app_assoc; reflexivity.
Qed.

(** What one column adds to the search keys. *)
Definition column_keys (c : column) (v : value) : Prop :=
  (truthy (col_accessorKey c) = true /\ v = col_accessorKey c) \/
  match col_meta c with
  | Some m => truthy (m_searchable m) = true /\ truthy (col_def_id c) = true /\ v = col_def_id c
  | None => False
  end.

Lemma new_keys_elem c v : v ∈ new_keys c <-> column_keys c v.
Proof.
  unfold new_keys, column_keys. rewrite elem_of_app.
  destruct (truthy (col_accessorKey c)), (col_meta c) as [m|];
    try destruct (truthy (m_searchable m)); try destruct (truthy (col_def_id c));
    simpl; rewrite ?list_elem_of_singleton, ?elem_of_nil; intuition discriminate.
Qed.

Lemma searchable_step_elem acc c v :
  v ∈ searchable_step acc c <-> v ∈ acc \/ column_keys c v.
Proof. by rewrite searchable_step_app, elem_of_app, new_keys_elem. Qed.

Lemma searchable_foldl_elem acc cols v :
  v ∈ foldl searchable_step acc cols <-> v ∈ acc \/ exists c, c ∈ cols /\ column_keys c v.
Proof.
  revert acc. induction cols as [|c cols IH]; intros acc; simpl.
  - split; [by left|]. intros [?|(c & Hc & _)]; [done|]. by apply not_elem_of_nil in Hc.
  - rewrite IH, searchable_step_elem. setoid_rewrite elem_of_cons. naive_solver.
Qed.

(** ** Properties *)

(** The global search keys are the truthy accessor keys of all
    columns, and the truthy [columnDef.id] of the columns whose
    [meta.searchable] is truthy; in particular [meta.searchable: false]
    does not remove a column with an accessor key from the search. *)
Theorem searchableColumns_spec cols v :
  v ∈ searchableColumns cols <-> exists c, c ∈ cols /\ column_keys c v.
Proof.
  unfold searchableColumns. rewrite searchable_foldl_elem.
  split; [intros [Hv|?]; [by apply not_elem_of_nil in Hv|done] | by right].
Qed.

Section ManageableProofs.
  Context `{JsHost}.
  Variable js_sort : (column -> column -> Z) -> list column -> list column.
  Hypothesis js_sort_perm : forall cmp l, Permutation (js_sort cmp l) l.

  (** The column manager lists exactly the columns whose
      [meta.manageable] is not [false] and whose header, as a string,
      contains the search text ignoring case, whatever order the engine's
      sort leaves them in. *)
Theorem manageableColumns_spec searchText cols c :
    c ∈ manageableColumns js_sort searchText cols <->
    c ∈ cols /\ strict_eq (meta_get c m_manageable) (VBool false) = false /\
    includes (toLowerCase (to_string (col_header c))) (toLowerCase searchText) = true.
  Proof.
    unfold manageableColumns. rewrite !list_elem_of_In, filter_In. split.
    - intros [Hin Hinc]. apply (Permutation_in c (js_sort_perm _ _)) in Hin.
      apply filter_In in Hin as [Hin Hm]. apply negb_true_iff in Hm. auto.
    - intros (Hin & Hm & Hinc). split; [|done].
      apply (Permutation_in c (Permutation_sym (js_sort_perm _ _))).
      apply filter_In. by rewrite Hm.
  Qed.
End ManageableProofs.

Section DetectionProofs.
  Context `{JsHost}.

  (** Without a [meta.filterType], the filter-type detection
      classifies a column as ['number'] whenever the first visible record
      holds a boolean or [null] in it: [isNumber] accepts every value whose
      [Number] conversion is not [NaN], and [Number(true)] is [1],
      [Number(null)] is [0]. *)
Theorem detect_type_boolean_null cols vis selected r rest :
    truthy (match find_selected cols selected with
            | Some c => meta_get c m_filterType | None => VUndef end) = false ->
    vis = r :: rest ->
    (exists b, get r selected = VBool b) \/ get r selected = VNull ->
    detect_type cols vis selected = VStr (str "number").
  Proof.
    intros Hft -> Hv. unfold detect_type. rewrite Hft.
    destruct Hv as [[b ->] | ->]; reflexivity.
  Qed.
End DetectionProofs.

(** ** Examples and witnesses *)

Section ColumnExamples.
  #[local] Existing Instance sample_host.

  (** A column with [meta: { searchable: false }] and an accessor key. *)
Definition email_column : column :=
    mk_column (str "email") VUndef (VStr (str "email")) (VStr (str "Email"))
      (Some (mk_meta VUndef VUndef VUndef VUndef VUndef (VBool false) VUndef VUndef)).

Example searchableColumns_ignores_searchable_false :
    searchableColumns [email_column] = [VStr (str "email")].
  Proof. reflexivity. Qed.

Definition no_sort (cmp : column -> column -> Z) (l : list column) : list column := l.

Lemma manageableColumns_spec_witness :
    (forall cmp l, Permutation (no_sort cmp l) l) /\
    (email_column ∈ manageableColumns no_sort (str "MAIL") [email_column] <->
     email_column ∈ [email_column] /\
     strict_eq (meta_get email_column m_manageable) (VBool false) = false /\
     includes (toLowerCase (to_string (col_header email_column))) (toLowerCase (str "MAIL")) = true).
  Proof.
    assert (Hp : forall cmp l, Permutation (no_sort cmp l) l) by (intros; reflexivity).
    split; [exact Hp|]. exact (manageableColumns_spec _ Hp _ _ _).
  Defined.

Lemma detect_type_boolean_null_witness :
    truthy (match find_selected [] (str "active") with
            | Some c => meta_get c m_filterType | None => VUndef end) = false /\
    detect_type [] [[(str "active", VBool true)]] (str "active") = VStr (str "number").
  Proof.
    split; [reflexivity|].
    apply (detect_type_boolean_null _ _ _ [(str "active", VBool true)] []); [reflexivity|reflexivity|].
    left. exists true. reflexivity.
  Defined.
End ColumnExamples.
