(* ===== verification/ColumnFilters.v ===== *)
(** * ColumnFilters: the filter panel of the data grid as a state machine

    Models [src/src/components/DataGrid/lib/components/Filters/ColumnFilters.tsx]
    together with the two pieces of [DataGrid]'s state it writes
    ([visibleData] and the global search text, [lib/index.tsx]).

    The state ([cf_state]) holds the panel's [open], [selected], [type] and
    [filters] hooks, the grid's [visibleData] and [globalSearch].  Filter
    objects are compared by identity in [removeFilter] ([item !== filter]),
    so each one is stored with a reference ([nat]) allocated when it is
    created.  The handlers are [toggle_open] (the Filters button),
    [select_column] (a radio button, followed by the effect on
    [selected]), [apply_string_filter] (the Apply button of [StringFilter],
    followed by the effect on [filters]) and [remove_filter] (the X of a
    filter chip, followed by the same effect).  The effect on [filters]
    awaits [filterData]; the promise is settled before the next event is
    handled, and a rejection leaves [visibleData] unchanged (nothing
    catches it).  [cf_step] is the step relation of these events and
    [cf_reachable] the states reachable after mount. *)

From stdpp Require Import base list strings relations.
From Stdlib Require Import Ascii ZArith.
From S2P Require Import Prelude JsString JsValue Filters Columns.

Record cf_state := mk_cf {
  cf_open : bool;
  cf_selected : option jstr;
  cf_type : value;
  cf_filters : list (nat * Filter);
  cf_next_ref : nat;
  cf_visibleData : list datum;
  cf_searchText : jstr
}.

Definition set_open (b : bool) (s : cf_state) : cf_state :=
  mk_cf b (cf_selected s) (cf_type s) (cf_filters s) (cf_next_ref s)
    (cf_visibleData s) (cf_searchText s).

Definition set_filters (fs : list (nat * Filter)) (next : nat) (s : cf_state) : cf_state :=
  mk_cf (cf_open s) (cf_selected s) (cf_type s) fs next (cf_visibleData s) (cf_searchText s).

Definition set_visible (d : list datum) (s : cf_state) : cf_state :=
  mk_cf (cf_open s) (cf_selected s) (cf_type s) (cf_filters s) (cf_next_ref s) d (cf_searchText s).

Definition set_search (t : jstr) (s : cf_state) : cf_state :=
  mk_cf (cf_open s) (cf_selected s) (cf_type s) (cf_filters s) (cf_next_ref s)
    (cf_visibleData s) t.

(** [addFilter]: [[...prev, filter]], the new object with a fresh identity. *)
Definition addFilter (f : Filter) (s : cf_state) : cf_state :=
  set_filters (cf_filters s ++ [(cf_next_ref s, f)]) (S (cf_next_ref s)) s.

(** [removeFilter]: [prev.filter((item) => item !== filter)]. *)
Definition removeFilter (ref : nat) (s : cf_state) : cf_state :=
  set_filters (List.filter (fun p => negb (Nat.eqb p.1 ref)) (cf_filters s)) (cf_next_ref s) s.

Section Handlers.
  Context `{JsHost}.
  Variable dataSource : list datum.
  Variable columns : list column.

  (** The effect on [filters]: with no filter the grid shows the data
      source; otherwise the search text is cleared and [visibleData] takes
      the result of [filterData] when its promise fulfils. *)
Definition filters_effect (s : cf_state) : cf_state :=
    match cf_filters s with
    | [] => set_visible dataSource s
    | fs =>
        let s' := set_search [] s in
        match filterData dataSource (snd <$> fs) with
        | Ok d => set_visible d s'
        | Throw _ => s'
        end
    end.

  (** The radio button of a column: [String(accessorKey)], or
      [String(columnDef.id)] when that is ["undefined"]. *)
Definition radio_select (c : column) : jstr :=
    let sel := to_string (col_accessorKey c) in
    if bool_decide (sel = str "undefined") then to_string (col_def_id c) else sel.

  (** [setSelected], then the effect on [selected], which runs when
      [selected] is truthy. *)
Definition select_column (c : column) (s : cf_state) : cf_state :=
    let sel := radio_select c in
    let ty := if bool_decide (sel <> []) then detect_type columns (cf_visibleData s) sel
              else cf_type s in
    mk_cf (cf_open s) (Some sel) ty (cf_filters s) (cf_next_ref s)
      (cf_visibleData s) (cf_searchText s).

  (** The object the Apply button of [StringFilter] builds: the constraint
      is the selected option's value and the input goes under
      [parameters], so the object has no [comparables]. *)
Definition StringFilter_filter (field select _input : jstr) (caseSensitive : bool) : Filter :=
    mk_filter TString (constraint_of_string select) field None (VBool caseSensitive).

  (** Apply: [addFilter(...)], [setOpen(false)], then the effect. *)
Definition apply_string_filter (select input : jstr) (cs : bool) (s : cf_state) : cf_state :=
    let field := match cf_selected s with Some f => f | None => str "null" end in
    filters_effect (set_open false (addFilter (StringFilter_filter field select input cs) s)).

Definition remove_filter (ref : nat) (s : cf_state) : cf_state :=
    filters_effect (removeFilter ref s).

Definition toggle_open (s : cf_state) : cf_state := set_open (negb (cf_open s)) s.

  (** The state after mount: every hook at its initial value, then the
      effect on [filters] has shown the data source. *)
Definition cf_init : cf_state :=
    filters_effect (mk_cf false None (VStr (str "undefined")) [] 0 [] []).

  (** The events the panel reacts to, each enabled when its control is
      rendered: the radio buttons and the Apply button only while the
      panel is open, Apply only when the detected type is ['string'], the
      X only on a filter of the list. *)
Inductive cf_step : cf_state -> cf_state -> Prop :=
    | step_toggle s : cf_step s (toggle_open s)
    | step_select s c :
        cf_open s = true -> c ∈ columns -> cf_step s (select_column c s)
    | step_apply s select input cs :
        cf_open s = true -> cf_type s = VStr (str "string") ->
        cf_step s (apply_string_filter select input cs s)
    | step_remove s ref :
        ref ∈ (fst <$> cf_filters s) -> cf_step s (remove_filter ref s).

Definition cf_reachable (s : cf_state) : Prop := rtc cf_step cf_init s.
End Handlers.

(** The effect on [[dataSource]] when the prop changes to [ds']
    ([if (dataSource)] always holds for an array): with no filter the grid
    shows the new source; with filters the [else] branch is empty. *)
Definition dataSource_effect (ds' : list datum) (s : cf_state) : cf_state :=
  match cf_filters s with [] => set_visible ds' s | _ => s end.

(** ** What the panel renders *)

(** A value as a React child: strings and numbers as text, [undefined],
    [null] and booleans as nothing. *)
Definition jsx_text `{JsHost} (v : value) : jstr :=
  match v with VStr s => s | VNum _ => to_string v | _ => [] end.

Record cf_view := mk_cf_view {
  cv_badge : option nat;                  (** [{filters.length > 0 && ...}] *)
  cv_chips : list (jstr * nat);           (** each filter's [field] and its X *)
  cv_panel : option (list (jstr * bool) * bool)
    (** while [open]: the label and [checked] of each visible column's
        radio, and whether [StringFilter] is shown *)
}.

Section View.
  Context `{JsHost}.

  (** The label of a column in "Filter by": a searchable column shows its
      [filterLabel] or nothing, any other its [filterLabel] or [header]. *)
Definition filter_header (c : column) : value :=
    if truthy (meta_get c m_searchable) then js_or (meta_get c m_filterLabel) (VStr [])
    else js_or (meta_get c m_filterLabel) (col_header c).

  (** [checked={selected === String(accessorKey || columnDef.id)}] *)
Definition radio_checked (selected : option jstr) (c : column) : bool :=
    match selected with
    | Some sel => bool_decide (sel = to_string (js_or (col_accessorKey c) (col_def_id c)))
    | None => false
    end.

  (** The render; [is_visible] is the table's [column.getIsVisible()]. *)
Definition ColumnFilters_view (is_visible : column -> bool) (columns : list column) (s : cf_state) : cf_view :=
    mk_cf_view
      (if bool_decide (0 < length (cf_filters s)) then Some (length (cf_filters s)) else None)
      ((fun p => (f_field p.2, p.1)) <$> cf_filters s)
      (if cf_open s
       then Some (omap (fun c => if is_visible c
                                 then Some (jsx_text (filter_header c), radio_checked (cf_selected s) c)
                                 else None) columns,
                  bool_decide (cf_type s = VStr (str "string")))
       else None).
End View.

(** The options of the [StringFilter] select, by their [value]. *)
Definition string_filter_options : list jstr :=
  [str "contains"; str "does not contain"; str "is"; str "is not";
   str "starts with"; str "ends with"; str "is empty"; str "is not empty"].

(** ** The invariant of the panel *)

(** The filters the panel creates: string filters without [comparables]. *)
Definition ui_filter (f : Filter) : Prop := f_type f = TString /\ f_comparables f = None.

Definition cf_inv (ds : list datum) (s : cf_state) : Prop :=
  cf_visibleData s = ds /\ Forall (fun p => ui_filter p.2) (cf_filters s).

Section Invariant.
  Context `{JsHost}.

Lemma filterData_ui_filters ds fs :
    fs <> [] -> Forall ui_filter fs ->
    filterData ds fs = match ds with [] => Ok [] | _ => Throw TypeError end.
  Proof.
    intros Hne Hall. destruct ds as [|x ds']; [apply filterData_empty_source|].
    destruct fs as [|f fs]; [done|]. inversion Hall as [|? ? [Ht Hc] _]; subst.
    apply (filterData_missing_comparables_rejects _ [] f fs (x :: ds')); try done.
    by rewrite Ht.
  Qed.

Lemma filters_effect_inv ds s :
    cf_inv ds s -> cf_inv ds (filters_effect ds s).
  Proof.
    intros [Hv Hall]. unfold filters_effect.
    destruct (cf_filters s) as [|p ps] eqn:Hf; [split; [done|simpl; rewrite Hf; constructor]|].
    rewrite filterData_ui_filters.
    - destruct ds; split; simpl; rewrite ?Hf; done.
    - done.
    - apply Forall_fmap. exact Hall.
  Qed.

Lemma cf_step_inv ds cols s s' :
    cf_step ds cols s s' -> cf_inv ds s -> cf_inv ds s'.
  Proof.
    intros Hstep [Hv Hall]. destruct Hstep as [s|s c _ _|s sel inp cs _ _|s ref _].
    - by split.
    - by split.
    - apply filters_effect_inv. split; [done|]. simpl.
      apply Forall_app. split; [done|]. repeat constructor.
    - apply filters_effect_inv. split; [done|]. simpl.
      apply Forall_forall. intros p Hp. apply list_elem_of_In, filter_In in Hp as [Hp _].
      rewrite Forall_forall in Hall. apply Hall. by apply list_elem_of_In.
  Qed.

Lemma cf_init_inv ds : cf_inv ds (cf_init ds).
  Proof. by split. Qed.

Lemma cf_rtc_inv ds cols s s' :
    rtc (cf_step ds cols) s s' -> cf_inv ds s -> cf_inv ds s'.
  Proof.
    induction 1 as [|x y z Hxy _ IH]; [done|].
    intros Hx. apply IH. by eapply cf_step_inv.
  Qed.

  (** C3: the column filters never change what the grid shows: in every
      state the panel can reach, whatever columns are selected and
      filters applied or removed, [visibleData] is the data source.  Every
      filter the Apply button adds has no [comparables], so [filterData]
      rejects on a non-empty data source and [setVisibleData] never runs
      with a filtered list. *)
Theorem cf_visible_is_dataSource ds cols s :
    cf_reachable ds cols s -> cf_visibleData s = ds.
  Proof.
    intros Hr. apply (cf_rtc_inv ds cols (cf_init ds) s Hr (cf_init_inv ds)).
  Qed.
  (** While a filter is listed, a new data source is not shown: the
      grid keeps the rows of the source the panel was mounted with. *)
Lemma dataSource_change_stale ds cols s ds' :
    cf_reachable ds cols s -> cf_filters s <> [] ->
    cf_visibleData (dataSource_effect ds' s) = ds.
  Proof.
    intros Hr Hf. destruct (cf_rtc_inv ds cols (cf_init ds) s Hr (cf_init_inv ds)) as [Hv _].
    unfold dataSource_effect. by destruct (cf_filters s).
  Qed.
End Invariant.

(** Of the eight options of the string filter's select, only
    ["contains"] names a constraint [applyStringFilter] handles; the other
    seven ("does not contain", "is", "is not", "starts with", "ends with",
    "is empty", "is not empty") fall to its [default] and never match. *)
Theorem string_filter_options_unhandled sel item v :
  sel ∈ string_filter_options -> sel <> str "contains" ->
  applyStringFilter (constraint_of_string sel) item v = false.
Proof.
  unfold string_filter_options. rewrite !elem_of_cons, elem_of_nil.
  intros Hsel Hne.
  destruct Hsel as [->|[->|[->|[->|[->|[->|[->|[->|[]]]]]]]]];
    [done| reflexivity ..].
Qed.

(** ** The radio buttons and labels of the panel *)

Section RadioProofs.
  Context `{JsHost}.

  (** C31: a click on a column's radio selects what its [onChange]
      computes, [String(accessorKey)] or, when that is ["undefined"],
      [String(columnDef.id)], while [checked] compares with
      [String(accessorKey || columnDef.id)]: the clicked radio shows as
      checked when the accessor key is a truthy value other than
      ["undefined"] or is absent, but not when it is [""] or [null] and
      the column's id prints differently. *)
Theorem cf_radio_after_select columns c s :
    let checked := radio_checked (cf_selected (select_column columns c s)) c in
    (truthy (col_accessorKey c) = true -> to_string (col_accessorKey c) <> str "undefined" -> checked = true) /\
    (col_accessorKey c = VUndef -> checked = true) /\
    (col_accessorKey c = VStr [] \/ col_accessorKey c = VNull ->
     to_string (col_def_id c) <> to_string (col_accessorKey c) -> checked = false).
  Proof.
    cbn zeta. unfold select_column, radio_checked, radio_select, js_or; cbn [cf_selected].
    split_and!.
    - intros Ht Hu. rewrite Ht, (bool_decide_false (to_string _ = _)) by done.
      by rewrite bool_decide_true.
    - intros ->. rewrite (bool_decide_true (to_string _ = _)) by done. by rewrite bool_decide_true.
    - intros [-> | ->] Hid; cbn [truthy to_string] in *;
        rewrite (bool_decide_false (_ = str "undefined")) by done; by rewrite bool_decide_false.
  Qed.

  (** A searchable column without a [filterLabel] is listed with an empty
      label; hidden columns are not listed. *)
Lemma cf_view_searchable_label vis columns s c :
    cf_open s = true -> c ∈ columns -> vis c = true ->
    truthy (meta_get c m_searchable) = true -> truthy (meta_get c m_filterLabel) = false ->
    exists rows, cv_panel (ColumnFilters_view vis columns s) = Some (rows, bool_decide (cf_type s = VStr (str "string"))) /\
      ([], radio_checked (cf_selected s) c) ∈ rows.
  Proof.
    intros Ho Hc Hv Hs Hl. unfold ColumnFilters_view. rewrite Ho. eexists. split; [reflexivity|].
    apply list_elem_of_omap. exists c. split; [done|]. rewrite Hv. unfold filter_header, js_or.
    by rewrite Hs, Hl.
  Qed.
End RadioProofs.

(** ** Witnesses *)

Section ColumnFilterExamples.
  #[local] Existing Instance sample_host.

Definition name_column : column :=
    mk_column (str "name") VUndef (VStr (str "name")) (VStr (str "Name")) None.

  (** Open the panel, choose the name column, apply "is" "Bob". *)
Definition trace_state : cf_state :=
    apply_string_filter test_data (str "is") (str "Bob") false
      (select_column [name_column] name_column (toggle_open (cf_init test_data))).

Lemma trace_state_reachable : cf_reachable test_data [name_column] trace_state.
  Proof.
    unfold cf_reachable, trace_state.
    eapply rtc_l; [apply step_toggle|].
    eapply rtc_l; [apply step_select; [reflexivity | apply list_elem_of_here]|].
    eapply rtc_l; [apply step_apply; [reflexivity | vm_compute; reflexivity]|].
    apply rtc_refl.
  Qed.

Lemma cf_visible_is_dataSource_witness :
    cf_reachable test_data [name_column] trace_state /\
    length (cf_filters trace_state) = 1 /\
    cf_visibleData trace_state = test_data.
  Proof.
    split; [exact trace_state_reachable|]. split; [vm_compute; reflexivity|].
    exact (cf_visible_is_dataSource _ _ _ trace_state_reachable).
  Defined.

Lemma string_filter_options_unhandled_witness :
    str "starts with" ∈ string_filter_options /\ str "starts with" <> str "contains" /\
    applyStringFilter (constraint_of_string (str "starts with")) (str "charlie") (str "c") = false.
  Proof.
    assert (Hin : str "starts with" ∈ string_filter_options) by (vm_compute; by repeat constructor).
    assert (Hne : str "starts with" <> str "contains") by discriminate.
    split; [exact Hin|]. split; [exact Hne|].
    exact (string_filter_options_unhandled _ _ _ Hin Hne).
  Defined.
  (** A column keyed by [""] with the id ["name"]: selected, never shown as checked. *)
Definition empty_key_column : column :=
    mk_column (str "name") (VStr (str "name")) (VStr []) (VStr (str "Name")) None.

Lemma cf_radio_after_select_witness :
    radio_checked (cf_selected (select_column [empty_key_column] empty_key_column (cf_init test_data)))
      empty_key_column = false.
  Proof.
    destruct (cf_radio_after_select [empty_key_column] empty_key_column (cf_init test_data)) as (_ & _ & H3).
    apply H3; [left; reflexivity | discriminate].
  Defined.
End ColumnFilterExamples.
