(* ===== verification/FilterPanel.v ===== *)
(** * FilterPanel: the filter panel with its [StringFilter] child

    Models [StringFilter] of
    [src/src/components/DataGrid/lib/components/Filters/ColumnFilters.tsx]
    (lines 215-288) as the child component it is: its own hook
    [caseSensitive] ([useState(false)]), its uncontrolled [<select>] and
    [<input>], read through refs when Apply is clicked, and the
    Case Sensitive checkbox that flips [caseSensitive].

    [ColumnFilters] renders [StringFilter] while the panel is open and the
    detected type is ['string']; React keeps the child's state while it
    stays mounted (another string column may be selected) and drops it
    when it unmounts, which Apply does by closing the panel.  The state of
    the panel is the [cf_state] of [ColumnFilters] and, while the child is
    mounted, the child's state.  Every step of the composed panel is a
    step of [cf_step] or leaves the panel's state alone
    ([panel_step_cf]), so what is proved of [cf_step] holds of it. *)

From stdpp Require Import base list strings relations.
From Stdlib Require Import Ascii ZArith.
From S2P Require Import Prelude JsString JsValue Filters Columns ColumnFilters.

(** The mounted [StringFilter]: the value of its [<select>] (the first
    option until one is chosen), of its [<input>], and its hook. *)
Record sfilter_state := mk_sfs { sfs_select : jstr; sfs_input : jstr; sfs_caseSensitive : bool }.

Definition StringFilter_init : sfilter_state := mk_sfs (str "contains") [] false.

Record panel := mk_panel { pn_cf : cf_state; pn_sf : option sfilter_state }.

(** [{type === 'string' && <StringFilter ... />}] inside the open panel. *)
Definition StringFilter_mounted (s : cf_state) : bool :=
  cf_open s && bool_decide (cf_type s = VStr (str "string")).

(** Reconciliation after the panel's state changes: a child that stays
    mounted keeps its state, a new one starts afresh, an unmounted one is
    gone. *)
Definition reconcile (s : cf_state) (o : option sfilter_state) : option sfilter_state :=
  if StringFilter_mounted s then Some (default StringFilter_init o) else None.

Definition after (s : cf_state) (p : panel) : panel := mk_panel s (reconcile s (pn_sf p)).

(** The other filter components render a fixed text; the lines that
    would render them for the other types are commented out, so the panel
    shows no control for a column that is not of type ['string']. *)
Definition NumberFilter : jstr := str "NUMBER".
Definition BooleanFilter : jstr := str "BOOLEAN".
Definition DateFilter : jstr := str "DATE".
Definition NoFilterAvailable : jstr := str "No filter available".

Inductive panel_event :=
  | PToggle | PSelect (c : column) | PChoose (sel : jstr) | PInput (t : jstr)
  | PCaseSensitive | PApply | PRemove (ref : nat).

Section Panel.
Context `{JsHost}.
Variable dataSource : list datum.
Variable columns : list column.

Definition panel_init : panel := mk_panel (cf_init dataSource) None.

(** The Case Sensitive checkbox: [setCaseSensitive(!caseSensitive)]. *)
Definition toggle_caseSensitive (st : sfilter_state) : sfilter_state :=
  mk_sfs (sfs_select st) (sfs_input st) (negb (sfs_caseSensitive st)).

(** The panel's controls as in [cf_step], and the child's: an option of
    the [<select>], a text in the [<input>], the checkbox, and Apply,
    whose [onClick] reads the refs and [caseSensitive]. *)
Inductive panel_step : panel_event -> panel -> panel -> Prop :=
  | ps_toggle p : panel_step PToggle p (after (toggle_open (pn_cf p)) p)
  | ps_select p c :
      cf_open (pn_cf p) = true -> c ∈ columns ->
      panel_step (PSelect c) p (after (select_column columns c (pn_cf p)) p)
  | ps_choose p st sel :
      pn_sf p = Some st -> sel ∈ string_filter_options ->
      panel_step (PChoose sel) p (mk_panel (pn_cf p) (Some (mk_sfs sel (sfs_input st) (sfs_caseSensitive st))))
  | ps_input p st t :
      pn_sf p = Some st ->
      panel_step (PInput t) p (mk_panel (pn_cf p) (Some (mk_sfs (sfs_select st) t (sfs_caseSensitive st))))
  | ps_case p st :
      pn_sf p = Some st -> panel_step PCaseSensitive p (mk_panel (pn_cf p) (Some (toggle_caseSensitive st)))
  | ps_apply p st :
      pn_sf p = Some st ->
      panel_step PApply p
        (after (apply_string_filter dataSource (sfs_select st) (sfs_input st) (sfs_caseSensitive st) (pn_cf p)) p)
  | ps_remove p ref :
      ref ∈ (fst <$> cf_filters (pn_cf p)) ->
      panel_step (PRemove ref) p (after (remove_filter dataSource ref (pn_cf p)) p).

Definition panel_reachable (p : panel) : Prop :=
  rtc (fun p p' => exists e, panel_step e p p') panel_init p.

(** The child is mounted exactly when [ColumnFilters] renders it. *)
Definition panel_inv (p : panel) : Prop :=
  is_Some (pn_sf p) <-> StringFilter_mounted (pn_cf p) = true.

End Panel.

(** ** Lemmas *)

Section Proofs.
Context `{JsHost}.
Variable dataSource : list datum.
Variable columns : list column.

(** The effect on [filters] leaves the panel's controls alone. *)
Lemma filters_effect_controls s :
  cf_open (filters_effect dataSource s) = cf_open s /\ cf_type (filters_effect dataSource s) = cf_type s /\
  cf_filters (filters_effect dataSource s) = cf_filters s /\ cf_next_ref (filters_effect dataSource s) = cf_next_ref s.
Proof. unfold filters_effect. by repeat case_match. Qed.

Lemma after_inv s p : panel_inv (after s p).
Proof.
  unfold panel_inv, after, reconcile; simpl.
  destruct (StringFilter_mounted s); split; try done; by intros [? ?].
Qed.

Lemma panel_init_inv : panel_inv (panel_init dataSource).
Proof.
  unfold panel_inv, panel_init; cbn [pn_sf pn_cf]. split; [by intros [? ?]|].
  unfold StringFilter_mounted, cf_init. by rewrite (proj1 (filters_effect_controls _)).
Qed.

Lemma panel_step_inv e p p' : panel_step dataSource columns e p p' -> panel_inv p -> panel_inv p'.
Proof.
  destruct 1 as [p|p c|p st sel Hs|p st t Hs|p st Hs|p st Hs|p ref]; intros Hi;
    try apply after_inv; unfold panel_inv in *; simpl; rewrite <- Hi, Hs; split; eauto.
Qed.

(** A mounted child means an open panel on a string column. *)
Lemma mounted_open p st :
  panel_inv p -> pn_sf p = Some st -> cf_open (pn_cf p) = true /\ cf_type (pn_cf p) = VStr (str "string").
Proof.
  intros [Hi _] Hs. specialize (Hi (ltac:(rewrite Hs; by eexists))).
  unfold StringFilter_mounted in Hi. apply andb_true_iff in Hi as [Ho Ht]. by apply bool_decide_eq_true in Ht.
Qed.

(** Every step of the composed panel is a step of [ColumnFilters] or
    leaves its state alone. *)
Lemma panel_step_cf e p p' :
  panel_step dataSource columns e p p' -> panel_inv p ->
  cf_step dataSource columns (pn_cf p) (pn_cf p') \/ pn_cf p' = pn_cf p.
Proof.
  destruct 1 as [p|p c Ho Hc|p st sel Hs|p st t Hs|p st Hs|p st Hs|p ref Hr]; intros Hi; simpl; auto.
  - left. by constructor.
  - left. by constructor.
  - left. destruct (mounted_open p st Hi Hs). by constructor.
  - left. by constructor.
Qed.

Lemma panel_reachable_cf p :
  panel_reachable dataSource columns p -> panel_inv p /\ cf_reachable dataSource columns (pn_cf p).
Proof.
  intros Hreach. refine (rtc_ind_r (fun p => panel_inv p /\ cf_reachable dataSource columns (pn_cf p)) _ _ _ p Hreach);
    [split; [apply panel_init_inv|constructor]|].
  intros p2 p3 _ [e Hst] [Hi Hr]. split; [by eapply panel_step_inv|].
  destruct (panel_step_cf e p2 p3 Hst Hi) as [Hc| ->]; [|done].
  by eapply rtc_r.
Qed.

End Proofs.

(** ** Properties *)

Section Properties.
Context `{JsHost}.
Variable dataSource : list datum.
Variable columns : list column.

(** C15: Apply adds the filter built from the [StringFilter] child's
    [<select>], [<input>] and [caseSensitive], closes the panel and so
    unmounts the child: when the panel is opened again, the child starts
    afresh, with ["contains"], an empty input and Case Sensitive
    unchecked, whatever was set before. *)
Theorem panel_apply_resets p st p' :
  panel_inv p -> pn_sf p = Some st -> panel_step dataSource columns PApply p p' ->
  cf_filters (pn_cf p') =
    cf_filters (pn_cf p) ++
      [(cf_next_ref (pn_cf p),
        StringFilter_filter (match cf_selected (pn_cf p) with Some f => f | None => str "null" end)
          (sfs_select st) (sfs_input st) (sfs_caseSensitive st))] /\
  pn_sf p' = None /\ pn_sf (after (toggle_open (pn_cf p')) p') = Some StringFilter_init.
Proof.
  intros Hi Hs Hst. inversion Hst as [| | | | |p0 st0 Hs0|]; subst. rewrite Hs in Hs0. injection Hs0 as <-.
  destruct (mounted_open p st Hi Hs) as [_ Ht].
  unfold after, apply_string_filter, reconcile, StringFilter_mounted; cbn [pn_cf pn_sf].
  set (s0 := set_open false (addFilter _ (pn_cf p))).
  destruct (filters_effect_controls dataSource s0) as (Ho & Hty & Hf & _).
  unfold toggle_open. cbn [cf_open cf_type set_open]. rewrite Ho, Hty, Hf.
  unfold s0; cbn. by rewrite Ht, bool_decide_true.
Qed.


End Properties.

(** ** Examples *)

Section PanelExample.
#[local] Existing Instance sample_host.

(** Open the panel, choose the name column, tick Case Sensitive, type
    ["Bob"]; then Apply. *)
Definition pe_open : panel := after (toggle_open (pn_cf (panel_init test_data))) (panel_init test_data).
Definition pe_selected : panel := after (select_column [name_column] name_column (pn_cf pe_open)) pe_open.
Definition pe_ticked : panel := mk_panel (pn_cf pe_selected) (Some (toggle_caseSensitive StringFilter_init)).
Definition pe_typed : panel := mk_panel (pn_cf pe_ticked) (Some (mk_sfs (str "contains") (str "Bob") true)).
Definition pe_applied : panel :=
  after (apply_string_filter test_data (str "contains") (str "Bob") true (pn_cf pe_typed)) pe_typed.

Lemma pe_typed_reachable : panel_reachable test_data [name_column] pe_typed.
Proof.
  eapply rtc_l; [exists PToggle; apply ps_toggle|].
  eapply rtc_l; [exists (PSelect name_column); apply ps_select; [reflexivity|apply list_elem_of_here]|].
  eapply rtc_l; [exists PCaseSensitive; apply (ps_case _ _ _ StringFilter_init); vm_compute; reflexivity|].
  eapply rtc_l; [exists (PInput (str "Bob")); apply (ps_input _ _ _ (toggle_caseSensitive StringFilter_init)); reflexivity|].
  apply rtc_refl.
Qed.

Lemma panel_apply_resets_witness :
  cf_filters (pn_cf pe_applied) =
    cf_filters (pn_cf pe_typed) ++
      [(cf_next_ref (pn_cf pe_typed),
        StringFilter_filter (match cf_selected (pn_cf pe_typed) with Some f => f | None => str "null" end)
          (str "contains") (str "Bob") true)] /\
  pn_sf pe_applied = None /\ pn_sf (after (toggle_open (pn_cf pe_applied)) pe_applied) = Some StringFilter_init.
Proof.
  apply (panel_apply_resets test_data [name_column] pe_typed (mk_sfs (str "contains") (str "Bob") true) pe_applied).
  - exact (proj1 (panel_reachable_cf test_data [name_column] pe_typed pe_typed_reachable)).
  - reflexivity.
  - exact (ps_apply test_data [name_column] pe_typed (mk_sfs (str "contains") (str "Bob") true) eq_refl).
Defined.


(** The filter carries the ticked box; the panel opened again starts
    afresh. *)
Example pe_reopened :
  (f_caseSensitive <$> (snd <$> cf_filters (pn_cf pe_applied))) = [VBool true] /\
  pn_sf (after (toggle_open (pn_cf pe_applied)) pe_applied) = Some StringFilter_init.
Proof. split; vm_compute; reflexivity. Qed.

End PanelExample.
