(* ===== verification/CsvExport.v ===== *)
(** * CsvExport: the CSV text [exportCSV] builds

    Models [exportCSV] of [src/src/components/DataGrid/lib/utils.ts] up to
    the [Blob] it hands to [downloadBlob] (the download itself is browser
    I/O and is not modelled):
    - the raw branch: the header is [Object.keys(rawDataSource[0])], each
      row is [Object.values(row)] with [null] printed empty and every comma
      replaced by a space;
    - the formatted branch: the header is the ids of the table's header
      groups, each cell is the static markup the renderer produced for it
      with [/<[^>]*>?/gm] removed; the markup is an input here, since
      rendering belongs to React;
    - the assembly [[header].concat(rows).join('\n')]: [join] prints an
      array element by [Array.prototype.toString], i.e. its own
      [join(',')], recursively, so all header groups land on one line.
    The guard of [DataGrid] ([exportToCSV] without [tableName] throws) is
    [export_guard]. *)

From stdpp Require Import base list strings.
From Stdlib Require Import Ascii ZArith.
From S2P Require Import Prelude JsString JsValue.

Definition comma : ascii := ","%char.
Definition newline : ascii := "010"%char.

(** ** Building the text *)

Section Building.
  Context `{JsHost}.

  (** One raw cell: [value === null ? '' : String(value).replace(/,/g, ' ')]. *)
Definition raw_cell (v : value) : jstr :=
    if strict_eq v VNull then [] else replace_char comma " "%char (to_string v).

Definition raw_row (r : datum) : list jstr := raw_cell <$> object_values r.

  (** [header = [Object.keys(rawDataSource[0])]]: reading the keys of
      [undefined] throws when the data source is empty. *)
Definition raw_header (rawDataSource : list datum) : except (list (list jstr)) :=
    match rawDataSource with
    | r :: _ => Ok [object_keys r]
    | [] => Throw TypeError
    end.

  (** [[header].concat(rows).join('\n')]: the header element is an array of
      arrays and prints as all its strings joined by commas. *)
Definition assemble (header : list (list jstr)) (rows : list (list jstr)) : jstr :=
    join [newline] (join [comma] (join [comma] <$> header) :: (join [comma] <$> rows)).

Definition exportCSV_raw (rawDataSource : list datum) : except jstr :=
    header <- raw_header rawDataSource ;;
    Ok (assemble header (raw_row <$> rawDataSource)).
End Building.

(** [s.replace(/<[^>]*>?/gm, '')]: from each [<], the match runs over every
    character that is not [>] and takes the [>] if there is one. *)
Fixpoint strip_tags_in (s : jstr) : jstr :=
  match s with
  | [] => []
  | c :: s' => if bool_decide (c = ">"%char) then strip_tags s' else strip_tags_in s'
  end
with strip_tags (s : jstr) : jstr :=
  match s with
  | [] => []
  | c :: s' => if bool_decide (c = "<"%char) then strip_tags_in s' else c :: strip_tags s'
  end.

(** The formatted branch, from the header ids and the rendered markup. *)
Definition exportCSV_formatted (headerGroups : list (list jstr))
    (renderedRows : list (list jstr)) : jstr :=
  assemble headerGroups ((fun row : list jstr => strip_tags <$> row) <$> renderedRows).

(** [if (exportToCSV && !tableName) throw new Error(...)] *)
Definition export_guard (exportToCSV : bool) (tableName : value) : except unit :=
  if exportToCSV && negb (truthy tableName)
  then Throw (Error (str "Export to CSV requires table name property"))
  else Ok tt.

(** ** Reading the text back *)

(** What a reader of the file does: lines on newlines, cells on commas. *)
Definition parse_csv (contents : jstr) : list (list jstr) :=
  split comma <$> split newline contents.

(** ** Lemmas *)

Lemma comma_newline : comma <> newline.
Proof. discriminate. Qed.

Section CsvLemmas.
  Context `{JsHost}.

Lemma raw_cell_no_comma v : comma ∉ raw_cell v.
  Proof.
    unfold raw_cell. destruct (strict_eq v VNull); [apply not_elem_of_nil|].
    apply replace_char_not_elem. discriminate.
  Qed.

Lemma raw_cell_no_newline v : newline ∉ to_string v -> newline ∉ raw_cell v.
  Proof.
    unfold raw_cell. intros Hv. destruct (strict_eq v VNull); [apply not_elem_of_nil|].
    intros Hc. apply replace_char_elem_inv in Hc as [Hc|Hc]; [discriminate|done].
  Qed.

Lemma length_raw_row r : length (raw_row r) = length (object_values r).
  Proof. apply length_fmap. Qed.

  (** A line whose cells hold neither separator splits back into them. *)
Lemma split_line cells :
    cells <> [] -> Forall (fun w => comma ∉ w) cells ->
    split comma (join [comma] cells) = cells.
  Proof. apply split_join. Qed.

Lemma line_no_newline cells :
    Forall (fun w => newline ∉ w) cells -> newline ∉ join [comma] cells.
  Proof.
    intros Hc. apply join_not_elem; [|done].
    rewrite list_elem_of_singleton. intros Heq. by apply comma_newline.
  Qed.
End CsvLemmas.

Lemma strip_tags_no_lt s : "<"%char ∉ strip_tags s /\ "<"%char ∉ strip_tags_in s.
Proof.
  induction s as [|c s [IH1 IH2]]; simpl; [split; apply not_elem_of_nil|].
  split; case_bool_decide as Hc; try done.
  rewrite elem_of_cons. intros [Heq|?]; [congruence|]. by apply IH1.
Qed.

(** ** Properties *)

Section CsvTheorems.
  Context `{JsHost}.

  (** C17: the raw CSV reads back: splitting the text on newlines and each
      line on commas gives the keys of the first record, then, for every
      record, its values with [null] empty and commas turned into spaces,
      provided the keys hold no comma or newline, no value prints with a
      newline, and no record is empty. *)
Theorem exportCSV_raw_roundtrip r0 rest :
    object_keys r0 <> [] ->
    Forall (fun k => (comma ∉ k) /\ (newline ∉ k)) (object_keys r0) ->
    Forall (fun r => object_values r <> []) (r0 :: rest) ->
    Forall (fun r => Forall (fun v => newline ∉ to_string v) (object_values r)) (r0 :: rest) ->
    match exportCSV_raw (r0 :: rest) with
    | Ok csv => parse_csv csv = object_keys r0 :: (raw_row <$> r0 :: rest)
    | Throw _ => False
    end.
  Proof.
    intros Hk Hkeys Hne Hnl. unfold exportCSV_raw, raw_header, ebind, assemble, parse_csv.
    change (join [comma] (join [comma] <$> [object_keys r0])) with (join [comma] (object_keys r0)).
    set (rows := raw_row <$> r0 :: rest).
    assert (Hrows : Forall (fun w => newline ∉ w) (join [comma] <$> rows)).
    { apply Forall_fmap, Forall_fmap. eapply Forall_impl; [exact Hnl|].
      intros r Hr. simpl. apply line_no_newline. apply Forall_fmap.
      eapply Forall_impl; [exact Hr|]. intros v. apply raw_cell_no_newline. }
    rewrite split_join.
    - rewrite fmap_cons. f_equal.
      + apply split_line; [done|]. eapply Forall_impl; [exact Hkeys|]. naive_solver.
      + rewrite <- list_fmap_compose. rewrite <- (list_fmap_id rows) at 2.
        apply Forall_fmap_ext_1. subst rows. apply Forall_fmap.
        eapply Forall_impl; [exact Hne|]. intros r Hr. simpl. apply split_line.
        * intros He. apply Hr. apply length_zero_iff_nil.
          rewrite <- length_raw_row, He. done.
        * apply Forall_forall. intros w Hw. apply list_elem_of_fmap in Hw as (v & -> & _).
          apply raw_cell_no_comma.
    - done.
    - constructor; [|exact Hrows]. simpl. apply line_no_newline.
      eapply Forall_impl; [exact Hkeys|]. naive_solver.
  Qed.

  (** C18: the raw export throws a [TypeError] exactly when the data source
      is empty ([Object.keys(rawDataSource[0])] reads the keys of
      [undefined]); the grid's Export button is shown for an empty grid
      too. *)
Theorem exportCSV_raw_error ds :
    exportCSV_raw ds = Throw TypeError <-> ds = [].
  Proof.
    destruct ds as [|r ds]; [done|]. unfold exportCSV_raw, raw_header, ebind.
    split; [discriminate | intros [=]].
  Qed.
End CsvTheorems.

Lemma lines_no_char c rows :
  Forall (Forall (fun w => c ∉ w)) rows -> c <> comma ->
  Forall (fun w => c ∉ w) (join [comma] <$> rows).
Proof.
  intros Hr Hc. apply Forall_fmap. eapply Forall_impl; [exact Hr|].
  intros row Hrow. simpl. apply join_not_elem; [|done].
  by rewrite list_elem_of_singleton.
Qed.

(** C19: the formatted export contains no [<] when the header ids contain
    none: every [<] of the rendered markup starts a match of
    [/<[^>]*>?/gm] and is removed with it. *)
Theorem exportCSV_formatted_no_tags headerGroups renderedRows :
  Forall (Forall (fun h => "<"%char ∉ h)) headerGroups ->
  "<"%char ∉ exportCSV_formatted headerGroups renderedRows.
Proof.
  intros Hh. unfold exportCSV_formatted, assemble.
  apply join_not_elem; [by rewrite list_elem_of_singleton|].
  constructor.
  - apply join_not_elem; [by rewrite list_elem_of_singleton|].
    by apply lines_no_char.
  - apply lines_no_char; [|discriminate].
    apply Forall_fmap, Forall_forall. intros row _. simpl.
    apply Forall_fmap, Forall_forall. intros w _. apply strip_tags_no_lt.
Qed.

(** ** Examples and witnesses *)

Section CsvExamples.
  #[local] Existing Instance sample_host.

Definition note_record (note : jstr) : datum :=
    [(str "id", VNum (Num 1)); (str "note", VStr note)].

  (** Neither branch escapes its separators: a raw value holding a
      newline splits its record over two lines of the file, and a rendered
      cell holding a comma (the formatted branch does not replace commas)
      becomes two cells. *)
Example exportCSV_unescaped_separators :
    (match exportCSV_raw [note_record (str "a" ++ [newline] ++ str "b")] with
     | Ok csv => length (parse_csv csv) = 3
     | Throw _ => False
     end) /\
    parse_csv (exportCSV_formatted [[str "id"; str "amount"]] [[str "1"; str "<b>1,000</b>"]])
      = [[str "id"; str "amount"]; [str "1"; str "1"; str "000"]].
  Proof. split; vm_compute; reflexivity. Qed.

Lemma exportCSV_raw_roundtrip_witness :
    match exportCSV_raw [note_record (str "x,y")] with
    | Ok csv => parse_csv csv = [[str "id"; str "note"]; [str "1"; str "x y"]]
    | Throw _ => False
    end.
  Proof.
    apply (exportCSV_raw_roundtrip (note_record (str "x,y")) []);
      decide_by_eval.
  Defined.

Lemma exportCSV_formatted_no_tags_witness :
    Forall (Forall (fun h => "<"%char ∉ h)) [[str "id"; str "amount"]] /\
    "<"%char ∉ exportCSV_formatted [[str "id"; str "amount"]] [[str "1"; str "<b>1,000</b>"]].
  Proof.
    assert (Hh : Forall (Forall (fun h => "<"%char ∉ h)) [[str "id"; str "amount"]])
      by decide_by_eval.
    split; [exact Hh|]. exact (exportCSV_formatted_no_tags _ _ Hh).
  Defined.
End CsvExamples.
