(* ===== verification/Colors.v ===== *)
(** * Colors: the colour utilities of the design system

    Models [src/src/components/utils/commonUtils.ts]: [setupColors] (the
    validating hex-colour parser the theme uses), [getRGBColor],
    [getAccessibleColor] and [classNames], with [parseInt(s, 16)] as the
    ECMAScript specification defines it (leading white space, a sign, an
    optional [0x] prefix, then the longest run of hexadecimal digits; [NaN]
    when there is none), and [generateTheme] of [src/src/hooks/useTheme.tsx]
    with the CSS variables it sets on the document's style ([Theme] holds
    the context that hands its result to the components). *)

From stdpp Require Import base list strings.
From Stdlib Require Import Ascii ZArith.
From S2P Require Import Prelude JsString JsValue.

(** ** [parseInt(s, 16)] *)

Definition hex_digit_value (c : ascii) : option Z :=
  let n := nat_of_ascii c in
  if (48 <=? n) && (n <=? 57) then Some (Z.of_nat (n - 48))
  else if (65 <=? n) && (n <=? 70) then Some (Z.of_nat (n - 55))
  else if (97 <=? n) && (n <=? 102) then Some (Z.of_nat (n - 87))
  else None.

(** White space and line terminators of the ASCII/Latin-1 range. *)
Definition is_js_space (c : ascii) : bool :=
  let n := nat_of_ascii c in
  bool_decide (n ∈ [9; 10; 11; 12; 13; 32; 160]).

Fixpoint trim_start (s : jstr) : jstr :=
  match s with
  | c :: s' => if is_js_space c then trim_start s' else s
  | [] => []
  end.

(** The longest prefix of hexadecimal digits, read as a number: the
    accumulator and whether any digit was read. *)
Fixpoint hex_prefix (s : jstr) (acc : Z) (any : bool) : option Z :=
  match s with
  | c :: s' =>
      match hex_digit_value c with
      | Some d => hex_prefix s' (16 * acc + d) true
      | None => if any then Some acc else None
      end
  | [] => if any then Some acc else None
  end.

(** The [0x] or [0X] prefix radix 16 allows. *)
Definition strip_hex_prefix (s : jstr) : jstr :=
  match s with
  | c :: x :: s' => if bool_decide (c = "0"%char /\ (x = "x"%char \/ x = "X"%char)) then s' else s
  | _ => s
  end.

(** The sign: [-1] after a [-], [1] otherwise; a [+] or [-] is dropped. *)
Definition read_sign (s : jstr) : Z * jstr :=
  match s with
  | c :: s' =>
      if bool_decide (c = "-"%char) then ((-1)%Z, s')
      else if bool_decide (c = "+"%char) then (1%Z, s')
      else (1%Z, s)
  | [] => (1%Z, [])
  end.

Definition parseInt16 (s : jstr) : jsnum :=
  let '(sign, s) := read_sign (trim_start s) in
  match hex_prefix (strip_hex_prefix s) 0 false with
  | Some z => Num (sign * z)
  | None => NaN
  end.

(** ** [setupColors] *)

(** [/^#([A-Fa-f0-9]{6})$/.test(color)] *)
Definition is_hex_digit (c : ascii) : bool := bool_decide (is_Some (hex_digit_value c)).

Definition hex_color_regex (s : jstr) : bool :=
  match s with
  | h :: t => bool_decide (h = "#"%char) && bool_decide (length t = 6) && forallb is_hex_digit t
  | [] => false
  end.

Definition setupColors (color : value) : except jstr :=
  match color with
  | VStr s =>
      if negb (bool_decide (length s = 7)) then Throw (Error (str "Color must be 7 characters long"))
      else if negb (hex_color_regex s) then
        Throw (Error (str "Color must be hexadecimal, color is: " ++ s ++ str ", " ++ slice s 1 (length s)))
      else
        let red := parseInt16 (slice s 1 3) in
        let green := parseInt16 (slice s 3 5) in
        let blue := parseInt16 (slice s 5 7) in
        Ok (number_to_string red ++ str " " ++ number_to_string green ++ str " " ++ number_to_string blue)
  | _ => Throw (Error (str "Color must be a string"))
  end.

(** ** [getRGBColor] and [getAccessibleColor] *)

(** JavaScript's [slice(start, end)]: empty when [end <= start]. *)
Definition js_slice (s : jstr) (start stop : nat) : jstr := slice s start stop.

Definition remove_hashes (hex : jstr) : jstr := List.filter (fun c => negb (bool_decide (c = "#"%char))) hex.

Definition getRGBColor (hex type : jstr) : jstr :=
  let color := remove_hashes hex in
  let r := parseInt16 (js_slice color 0 2) in
  let g := parseInt16 (js_slice color 2 2) in
  let b := parseInt16 (js_slice color 4 2) in
  str "--color-" ++ type ++ str ": " ++ number_to_string r ++ str ", " ++
    number_to_string g ++ str ", " ++ number_to_string b ++ str ";".

(** Number arithmetic with [NaN] absorbing. *)
Definition num_add (a b : jsnum) : jsnum :=
  match a, b with Num x, Num y => Num (x + y) | _, _ => NaN end.
Definition num_mul_const (a : jsnum) (k : Z) : jsnum :=
  match a with Num x => Num (x * k) | NaN => NaN end.

(** [yiq >= 128] for [yiq = sum / 1000]: dividing by [1000] keeps the
    order, so the test is [sum >= 128000], and false when [sum] is [NaN]. *)
Definition getAccessibleColor (hex : jstr) : jstr :=
  let color := remove_hashes hex in
  let r := parseInt16 (js_slice color 0 2) in
  let g := parseInt16 (js_slice color 2 2) in
  let b := parseInt16 (js_slice color 4 2) in
  let sum := num_add (num_add (num_mul_const r 299) (num_mul_const g 587)) (num_mul_const b 114) in
  if num_geb sum (Num 128000) then str "#000000" else str "#FFFFFF".

(** [classes.filter(Boolean).join(' ')] *)
Definition classNames (classes : list jstr) : jstr :=
  join (str " ") (List.filter (fun c => bool_decide (c <> [])) classes).

(** ** [generateTheme] *)

Record theme := mk_theme {
  primary : list (nat * jstr);
  secondary : list (nat * jstr);
  accent : list (nat * jstr)
}.

(** The inline style of [document.documentElement]: [setProperty]
    replaces a variable's value, the last write first. *)
Definition style := list (jstr * jstr).

Definition setProperty (k v : jstr) (st : style) : style :=
  (k, v) :: List.filter (fun p => negb (bool_decide (p.1 = k))) st.

Definition theme_get (l : list (nat * jstr)) (n : nat) : jstr :=
  match list_find (fun p => p.1 = n) l with Some (_, (_, v)) => v | None => str "undefined" end.

(** [generateTheme]: the palette passed through [setupColors] (the
    [primary], [secondary] and [accent] arguments are not read), then the
    nine CSS variables written on the document's style, in the code's
    order. *)
Definition generateTheme (st : style) : except (theme * style) :=
  p500 <- setupColors (VStr (str "#1A3AE5")) ;;
  p400 <- setupColors (VStr (str "#4961E2")) ;;
  p300 <- setupColors (VStr (str "#8C9CF1")) ;;
  p200 <- setupColors (VStr (str "#C5CDF8")) ;;
  p100 <- setupColors (VStr (str "#E9ECFD")) ;;
  p50 <- setupColors (VStr (str "#F3F5FD")) ;;
  s500 <- setupColors (VStr (str "#39499b")) ;;
  a500 <- setupColors (VStr (str "#c3f35c")) ;;
  a400 <- setupColors (VStr (str "#77bc1f")) ;;
  let t := mk_theme [(500, p500); (400, p400); (300, p300); (200, p200); (100, p100); (50, p50)]
                    [(500, s500)] [(500, a500); (400, a400)] in
  let st := setProperty (str "--primary-50") (theme_get (primary t) 50) st in
  let st := setProperty (str "--primary-100") (theme_get (primary t) 100) st in
  let st := setProperty (str "--primary-200") (theme_get (primary t) 200) st in
  let st := setProperty (str "--primary-300") (theme_get (primary t) 300) st in
  let st := setProperty (str "--primary-400") (theme_get (primary t) 400) st in
  let st := setProperty (str "--primary-500") (theme_get (primary t) 500) st in
  let st := setProperty (str "--secondary-500") (theme_get (secondary t) 500) st in
  let st := setProperty (str "--accent-400") (theme_get (accent t) 400) st in
  let st := setProperty (str "--accent-500") (theme_get (accent t) 500) st in
  Ok (t, st).

(** ** Lemmas *)

(** The number a run of hexadecimal digits denotes, read after [acc]. *)
Definition hex_value (s : jstr) (acc : Z) : Z :=
  foldl (fun acc c => 16 * acc + default 0 (hex_digit_value c))%Z acc s.

(** A pair of hexadecimal digits as the byte it denotes. *)
Definition hex_pair (c1 c2 : ascii) : option Z :=
  match hex_digit_value c1, hex_digit_value c2 with
  | Some d1, Some d2 => Some (16 * d1 + d2)%Z
  | _, _ => None
  end.

Lemma hex_digit_facts c d :
  hex_digit_value c = Some d ->
  is_js_space c = false /\ c <> "-"%char /\ c <> "+"%char /\ c <> "x"%char /\
  c <> "X"%char /\ (0 <= d < 16)%Z.
Proof.
  destruct c as [[] [] [] [] [] [] [] []]; vm_compute; intros H; try discriminate;
    injection H as <-; repeat split; (reflexivity || discriminate || lia).
Qed.

Lemma hex_prefix_digits s acc any :
  Forall (fun c => is_Some (hex_digit_value c)) s ->
  hex_prefix s acc any = if any || bool_decide (s <> []) then Some (hex_value s acc) else None.
Proof.
  revert acc any. induction s as [|c s IH]; intros acc any Hs; simpl.
  - by destruct any.
  - inversion Hs as [|? ? [d Hd] Hs']; subst. rewrite Hd, IH by done.
    by rewrite orb_true_l, orb_true_r.
Qed.

Lemma parseInt16_digits s :
  s <> [] -> Forall (fun c => is_Some (hex_digit_value c)) s -> parseInt16 s = Num (hex_value s 0).
Proof.
  destruct s as [|a s]; [done|]. intros _ Hs.
  inversion Hs as [|? ? [da Ha] Hs']; subst.
  destruct (hex_digit_facts _ _ Ha) as (Hsp & Hm & Hp & _).
  unfold parseInt16. simpl trim_start. rewrite Hsp. simpl read_sign.
  rewrite !bool_decide_false by done.
  assert (Hstrip : strip_hex_prefix (a :: s) = a :: s).
  { destruct s as [|x s]; [done|]. simpl.
    inversion Hs' as [|? ? [dx Hx] _]; subst.
    destruct (hex_digit_facts _ _ Hx) as (_ & _ & _ & Hx1 & Hx2 & _).
    rewrite bool_decide_false; naive_solver. }
  rewrite Hstrip, hex_prefix_digits by done. simpl. f_equal. lia.
Qed.

Lemma hex_pair_parse c1 c2 r : hex_pair c1 c2 = Some r -> parseInt16 [c1; c2] = Num r.
Proof.
  unfold hex_pair. destruct (hex_digit_value c1) as [d1|] eqn:H1; [|done].
  destruct (hex_digit_value c2) as [d2|] eqn:H2; [|done]. intros [= <-].
  rewrite parseInt16_digits; [|done|by repeat constructor; eexists].
  unfold hex_value. simpl. rewrite H1, H2. simpl. f_equal; lia.
Qed.

Lemma hex_pair_digits c1 c2 :
  is_hex_digit c1 && is_hex_digit c2 = true -> exists r, hex_pair c1 c2 = Some r.
Proof.
  unfold is_hex_digit, hex_pair. rewrite andb_true_iff, !bool_decide_eq_true.
  intros [[d1 ->] [d2 ->]]. eauto.
Qed.

Lemma hex_pair_bounds c1 c2 r : hex_pair c1 c2 = Some r -> (0 <= r < 256)%Z.
Proof.
  unfold hex_pair. destruct (hex_digit_value c1) as [d1|] eqn:H1; [|done].
  destruct (hex_digit_value c2) as [d2|] eqn:H2; [|done]. intros [= <-].
  apply hex_digit_facts in H1, H2. lia.
Qed.

Lemma hex_pair_is_hex c1 c2 r :
  hex_pair c1 c2 = Some r -> is_hex_digit c1 = true /\ is_hex_digit c2 = true.
Proof.
  unfold hex_pair, is_hex_digit. rewrite !bool_decide_eq_true.
  destruct (hex_digit_value c1), (hex_digit_value c2); naive_solver.
Qed.

(** The success value of [setupColors]: [`${red} ${green} ${blue}`]. *)
Definition rgb_triplet (r g b : Z) : jstr :=
  number_to_string (Num r) ++ str " " ++ number_to_string (Num g) ++ str " " ++
  number_to_string (Num b).

(** ** Properties *)

(** C14: [setupColors] returns exactly on a string [#] followed by six
    hexadecimal digits (either case), and then returns the three bytes the
    digit pairs denote, in decimal, separated by spaces; on every other
    argument (not a string, not seven characters, or not matching the
    pattern) it throws. *)
Theorem setupColors_ok v out :
  setupColors v = Ok out <->
  exists c1 c2 c3 c4 c5 c6 r g b,
    v = VStr ["#"%char; c1; c2; c3; c4; c5; c6] /\
    hex_pair c1 c2 = Some r /\ hex_pair c3 c4 = Some g /\ hex_pair c5 c6 = Some b /\
    out = rgb_triplet r g b.
Proof.
  split.
  - intros H. destruct v as [| |?|?|s|? ?]; try discriminate H.
    unfold setupColors in H. case_bool_decide as Hl; [|discriminate H].
    destruct (hex_color_regex s) eqn:Hr; [|discriminate H].
    destruct s as [|h [|c1 [|c2 [|c3 [|c4 [|c5 [|c6 [|? ?]]]]]]]]; try discriminate Hl.
    simpl in Hr. rewrite !andb_true_iff, bool_decide_eq_true in Hr.
    destruct Hr as [[-> _] [H1 [H2 [H3 [H4 [H5 [H6 _]]]]]]].
    destruct (hex_pair_digits c1 c2) as [r Hr']; [by rewrite H1, H2|].
    destruct (hex_pair_digits c3 c4) as [g Hg]; [by rewrite H3, H4|].
    destruct (hex_pair_digits c5 c6) as [b Hb]; [by rewrite H5, H6|].
    exists c1, c2, c3, c4, c5, c6, r, g, b. repeat split; try done.
    unfold slice in H. simpl in H. rewrite (hex_pair_parse _ _ _ Hr'), (hex_pair_parse _ _ _ Hg),
      (hex_pair_parse _ _ _ Hb) in H. by injection H as <-.
  - intros (c1 & c2 & c3 & c4 & c5 & c6 & r & g & b & -> & Hr & Hg & Hb & ->).
    destruct (hex_pair_is_hex _ _ _ Hr) as [H1 H2].
    destruct (hex_pair_is_hex _ _ _ Hg) as [H3 H4].
    destruct (hex_pair_is_hex _ _ _ Hb) as [H5 H6].
    unfold setupColors, hex_color_regex, slice. simpl.
    rewrite H1, H2, H3, H4, H5, H6. simpl.
    by rewrite (hex_pair_parse _ _ _ Hr), (hex_pair_parse _ _ _ Hg), (hex_pair_parse _ _ _ Hb).
Qed.

(** A hexadecimal digit printed upper-case, and a colour printed as
    [#rrggbb]: the inverse [setupColors] is checked against. *)
Definition hex_char (d : Z) : ascii := nth (Z.to_nat d) (str "0123456789ABCDEF") "0"%char.

Definition hex_color (r g b : Z) : jstr :=
  ["#"%char; hex_char (r / 16); hex_char (r mod 16); hex_char (g / 16);
   hex_char (g mod 16); hex_char (b / 16); hex_char (b mod 16)].

Lemma hex_digit_value_hex_char d : (0 <= d < 16)%Z -> hex_digit_value (hex_char d) = Some d.
Proof.
  intros Hd. rewrite <- (Z2Nat.id d) at 2 by lia. unfold hex_char.
  assert (Hn : (Z.to_nat d < 16)%nat) by lia. generalize (Z.to_nat d) Hn. clear.
  intros n Hn. do 16 (destruct n as [|n]; [reflexivity|]). lia.
Qed.

Lemma hex_pair_hex_char r :
  (0 <= r < 256)%Z -> hex_pair (hex_char (r / 16)) (hex_char (r mod 16)) = Some r.
Proof.
  intros Hr. unfold hex_pair.
  rewrite !hex_digit_value_hex_char by (Z.div_mod_to_equations; lia).
  f_equal. Z.div_mod_to_equations. lia.
Qed.

(** Printing three bytes as [#rrggbb] and passing the colour to
    [setupColors] gives back the three bytes in decimal. *)
Theorem setupColors_roundtrip r g b :
  (0 <= r < 256)%Z -> (0 <= g < 256)%Z -> (0 <= b < 256)%Z ->
  setupColors (VStr (hex_color r g b)) = Ok (rgb_triplet r g b).
Proof.
  intros Hr Hg Hb. apply setupColors_ok.
  do 6 eexists. exists r, g, b. split; [reflexivity|].
  by rewrite !hex_pair_hex_char.
Qed.

Lemma num_add_NaN_r a : num_add a NaN = NaN.
Proof. by destruct a. Qed.

(** [color.slice(2, 2)] and [color.slice(4, 2)] are empty whatever the
    colour: the end comes before or at the start. *)
Lemma js_slice_empty s a b : (b <= a)%nat -> js_slice s a b = [].
Proof. intros Hab. unfold js_slice, slice. by replace (b - a)%nat with 0%nat by lia. Qed.

(** C16: [getAccessibleColor] answers ['#FFFFFF'] for every colour: the
    green and blue channels read [slice(2, 2)] and [slice(4, 2)], both
    empty, so they are [NaN], [yiq] is [NaN] and [yiq >= 128] is false. *)
Theorem getAccessibleColor_always_white hex : getAccessibleColor hex = str "#FFFFFF".
Proof.
  unfold getAccessibleColor. cbv zeta. rewrite (js_slice_empty (remove_hashes hex) 2 2) by lia.
  rewrite (js_slice_empty (remove_hashes hex) 4 2) by lia.
  cbn [parseInt16 trim_start read_sign strip_hex_prefix hex_prefix num_mul_const].
  by rewrite num_add_NaN_r.
Qed.

(** [getRGBColor] prints the red channel of the colour and [NaN] for
    green and blue, for every colour: the same empty slices. *)
Theorem getRGBColor_NaN hex type :
  getRGBColor hex type =
  str "--color-" ++ type ++ str ": " ++
    number_to_string (parseInt16 (take 2 (remove_hashes hex))) ++ str ", NaN, NaN;".
Proof.
  unfold getRGBColor. cbv zeta. rewrite (js_slice_empty (remove_hashes hex) 2 2) by lia.
  rewrite (js_slice_empty (remove_hashes hex) 4 2) by lia.
  reflexivity.
Qed.

(** ** [classNames] *)

Lemma filter_nonempty_not_nil (classes : list jstr) :
  Exists (fun c => c <> []) classes ->
  List.filter (fun c => bool_decide (c <> [])) classes <> [].
Proof.
  induction 1 as [c cs Hc|c cs _ IH]; simpl.
  - by rewrite bool_decide_true.
  - by case_bool_decide.
Qed.

(** [classNames] reads back: when no class name holds a space and one
    of them is not empty, splitting the result on spaces gives the
    non-empty names in their order ([filter(Boolean)] drops the empty
    ones). *)
Theorem classNames_split classes :
  Forall (fun c => " "%char ∉ c) classes ->
  Exists (fun c => c <> []) classes ->
  split " "%char (classNames classes) = List.filter (fun c => bool_decide (c <> [])) classes.
Proof.
  intros Hsp Hne. unfold classNames. apply split_join.
  - by apply filter_nonempty_not_nil.
  - apply Forall_forall. intros c Hc. apply list_elem_of_In, filter_In in Hc as [Hc _].
    rewrite Forall_forall in Hsp. apply Hsp. by apply list_elem_of_In.
Qed.

(** ** The style [generateTheme] leaves *)

(** [style.getPropertyValue(k)]: the value of the last write of [k]. *)
Definition style_get (k : jstr) (st : style) : option jstr :=
  snd <$> List.find (fun p => bool_decide (p.1 = k)) st.

Lemma style_get_setProperty_eq k v st : style_get k (setProperty k v st) = Some v.
Proof. unfold style_get, setProperty. simpl. by rewrite bool_decide_true. Qed.

Lemma find_filter_other k k' (st : style) :
  k <> k' ->
  List.find (fun p => bool_decide (p.1 = k)) (List.filter (fun p => negb (bool_decide (p.1 = k'))) st) =
  List.find (fun p => bool_decide (p.1 = k)) st.
Proof.
  intros Hne. induction st as [|[k0 v0] st IH]; [done|]. simpl.
  repeat case_bool_decide; simpl; rewrite ?bool_decide_true, ?bool_decide_false by congruence;
    congruence.
Qed.

Lemma style_get_setProperty_ne k k' v st :
  k <> k' -> style_get k (setProperty k' v st) = style_get k st.
Proof.
  intros Hne. unfold style_get, setProperty. simpl.
  rewrite bool_decide_false by congruence. by rewrite find_filter_other.
Qed.

Ltac style_simpl :=
  repeat (rewrite style_get_setProperty_eq ||
          (rewrite style_get_setProperty_ne by discriminate)).

(** The palette of [generateTheme], as the triplets [setupColors] gives. *)
Definition palette_theme : theme :=
  mk_theme [(500, rgb_triplet 26 58 229); (400, rgb_triplet 73 97 226);
            (300, rgb_triplet 140 156 241); (200, rgb_triplet 197 205 248);
            (100, rgb_triplet 233 236 253); (50, rgb_triplet 243 245 253)]
           [(500, rgb_triplet 57 73 155)]
           [(500, rgb_triplet 195 243 92); (400, rgb_triplet 119 188 31)].

Definition palette_css : list (jstr * jstr) :=
  [(str "--primary-50", rgb_triplet 243 245 253); (str "--primary-100", rgb_triplet 233 236 253);
   (str "--primary-200", rgb_triplet 197 205 248); (str "--primary-300", rgb_triplet 140 156 241);
   (str "--primary-400", rgb_triplet 73 97 226); (str "--primary-500", rgb_triplet 26 58 229);
   (str "--secondary-500", rgb_triplet 57 73 155); (str "--accent-400", rgb_triplet 119 188 31);
   (str "--accent-500", rgb_triplet 195 243 92)].

Lemma generateTheme_eq st :
  generateTheme st =
  Ok (palette_theme,
      foldl (fun st '(k, v) => setProperty k v st) st palette_css).
Proof. vm_compute. reflexivity. Qed.

(** From any style of the document, [generateTheme] returns and
    leaves each of the nine CSS variables [--primary-50] ...
    [--accent-500] set to the space-separated decimal triplet of its
    colour (["26 58 229"] for [#1A3AE5]), and the theme it returns holds
    these triplets, not the hex strings the default [ThemeContext] holds. *)
Theorem generateTheme_sets_variables st :
  match generateTheme st with
  | Ok (t, st') => t = palette_theme /\ Forall (fun p => style_get p.1 st' = Some p.2) palette_css
  | Throw _ => False
  end.
Proof.
  rewrite generateTheme_eq. split; [done|].
  cbn [foldl palette_css]. repeat constructor; simpl; style_simpl; reflexivity.
Qed.

(** ** Witnesses *)

Lemma setupColors_roundtrip_witness :
  (0 <= 26 < 256)%Z /\ (0 <= 58 < 256)%Z /\ (0 <= 229 < 256)%Z /\
  setupColors (VStr (hex_color 26 58 229)) = Ok (rgb_triplet 26 58 229).
Proof.
  assert (Hr : (0 <= 26 < 256)%Z) by lia. assert (Hg : (0 <= 58 < 256)%Z) by lia.
  assert (Hb : (0 <= 229 < 256)%Z) by lia.
  split; [exact Hr|]. split; [exact Hg|]. split; [exact Hb|].
  exact (setupColors_roundtrip _ _ _ Hr Hg Hb).
Defined.

Lemma classNames_split_witness :
  split " "%char (classNames [str "btn"; []; str "btn-primary"]) = [str "btn"; str "btn-primary"].
Proof.
  apply (classNames_split [str "btn"; []; str "btn-primary"]); decide_by_eval.
Defined.
