(* ===== verification/Tailwind.v ===== *)
(** * Tailwind: the typography plugin of [src/src/components/utils/tailwindPlugin.ts]

    The plugin's function receives Tailwind's plugin API and makes one
    call, [addComponents(typography)]; the model is the list of component
    rules it adds, each a class selector with its CSS declarations, as
    strings.  [rem_value] reads a length in [rem] as hundredths, to
    compare the sizes the rules set. *)

From stdpp Require Import base list strings.
From Stdlib Require Import Ascii ZArith.
From S2P Require Import Prelude JsString JsValue.

Open Scope Z_scope.

Definition css_rule := (jstr * list (jstr * jstr))%type.

(** [const typography = {...}] *)
Definition typography : list css_rule :=
  [(str ".header-1", [(str "fontSize", str "20rem"); (str "fontWeight", str "800");
                      (str "lineHeight", str "4.5rem"); (str "fontFamily", str "work-sans")]);
   (str ".header-2", [(str "fontSize", str "2.5rem"); (str "fontWeight", str "800");
                      (str "lineHeight", str "3.5rem")]);
   (str ".header-3", [(str "fontSize", str "2rem"); (str "fontWeight", str "800");
                      (str "lineHeight", str "2.5rem")]);
   (str ".header-4", [(str "fontSize", str "1.5rem"); (str "fontWeight", str "700");
                      (str "lineHeight", str "2rem")]);
   (str ".body-1", [(str "fontSize", str "1.25rem"); (str "fontWeight", str "800");
                    (str "lineHeight", str "1.75rem"); (str "fontFamily", str "Inter")])].

(** The plugin: the component rules of its one call of [addComponents]. *)
Definition fenrir_plugin : list (list css_rule) := [typography].

(** ** Reading the sizes *)

Definition digit_val (c : ascii) : option Z :=
  if is_digit c then Some (Z.of_nat (nat_of_ascii c) - 48) else None.

(** Digits read after [acc]; [None] on any other character. *)
Fixpoint read_digits (s : jstr) (acc : Z) : option Z :=
  match s with
  | [] => Some acc
  | c :: s' => match digit_val c with Some d => read_digits s' (10 * acc + d) | None => None end
  end.

(** ["<int>rem"] or ["<int>.<frac>rem"] with at most two fraction digits,
    in hundredths of a rem. *)
Definition rem_value (s : jstr) : option Z :=
  if endsWith s (str "rem") then
    let n := take (length s - 3) s in
    match split "." n with
    | [i] => (fun v => 100 * v) <$> read_digits i 0
    | [i; f] => if bool_decide (1 <= length f <= 2)%nat
                then match read_digits i 0, read_digits f 0 with
                     | Some a, Some b => Some (100 * a + b * 10 ^ (2 - Z.of_nat (length f)))
                     | _, _ => None
                     end
                else None
    | _ => None
    end
  else None.

(** A declaration of a rule. *)
Definition decl (r : css_rule) (k : jstr) : option jstr :=
  snd <$> List.find (fun p => bool_decide (p.1 = k)) r.2.

(** ** Properties *)

(** Every rule but [.header-1] sets a font size no larger than its line
    height; [.header-1] sets [20rem] on a [4.5rem] line, eight times the
    font size of [.header-2]. *)
Lemma typography_header1_overflows :
  (forall r, r ∈ typography -> r.1 <> str ".header-1" ->
     exists f l, (decl r (str "fontSize") ≫= rem_value) = Some f /\
                 (decl r (str "lineHeight") ≫= rem_value) = Some l /\ f <= l) /\
  (decl (str ".header-1", [(str "fontSize", str "20rem"); (str "fontWeight", str "800");
                           (str "lineHeight", str "4.5rem"); (str "fontFamily", str "work-sans")])
        (str "fontSize") ≫= rem_value) = Some 2000 /\
  (decl (str ".header-1", [(str "fontSize", str "20rem"); (str "fontWeight", str "800");
                           (str "lineHeight", str "4.5rem"); (str "fontFamily", str "work-sans")])
        (str "lineHeight") ≫= rem_value) = Some 450 /\
  head typography = Some (str ".header-1", [(str "fontSize", str "20rem"); (str "fontWeight", str "800");
                           (str "lineHeight", str "4.5rem"); (str "fontFamily", str "work-sans")]).
Proof.
  split; [|split_and!; vm_compute; reflexivity].
  intros r Hr Hne. apply list_elem_of_In in Hr.
  destruct Hr as [<-|[<-|[<-|[<-|[<-|[]]]]]]; [by destruct Hne|..];
    do 2 eexists; (split; [vm_compute; reflexivity|split; [vm_compute; reflexivity|lia]]).
Qed.
