(* ===== verification/Theme.v ===== *)
(** * Theme: the theme context of [src/src/hooks/useTheme.tsx]

    [ThemeContext] is created with a default value (the palette as hex
    strings); [ThemeProvider] provides [generateTheme({})] (of [Colors]),
    computed once by [useMemo] when the provider first renders, which
    also writes the CSS variables on the document's style; [useTheme]
    reads the nearest provider's value, or the default outside any
    provider ([None] below). *)

From stdpp Require Import base list strings.
From Stdlib Require Import Ascii ZArith.
From S2P Require Import Prelude JsString JsValue Colors.

(** [React.createContext<PrimitiveTheme>({...})] *)
Definition ThemeContext_default : theme :=
  mk_theme [(500, str "#1A3AE5"); (400, str "#4961E2"); (300, str "#8C9CF1");
            (200, str "#C5CDF8"); (100, str "#E9ECFD"); (50, str "#F3F5FD")]
           [(500, str "#39499b")]
           [(500, str "#c3f35c"); (400, str "#77bc1f")].

(** [useTheme()]: [React.useContext(ThemeContext)] under the provider
    whose value is given, if any. *)
Definition useTheme (provider : option theme) : theme := default ThemeContext_default provider.

(** The first render of [ThemeProvider]: [useMemo(() => generateTheme({}), [])]
    on the document's style; the value it provides and the style it
    leaves.  Later renders reuse the memoised value. *)
Definition ThemeProvider (st : style) : except (theme * style) := generateTheme st.

(** The theme a component reads, under a [ThemeProvider] mounted on the
    style [st] or outside any. *)
Definition theme_in (under_provider : bool) (st : style) : except theme :=
  if under_provider then p <- ThemeProvider st ;; Ok (useTheme (Some p.1)) else Ok (useTheme None).

(** ** Properties *)

(** The two themes a component can read hold different colour formats:
    outside a provider [primary[500]] is the hex string ["#1A3AE5"], a
    CSS colour; under [ThemeProvider] it is the triplet ["26 58 229"],
    which is only a colour inside [rgb(...)]; every one of the nine
    entries differs. *)
Lemma theme_formats_differ st :
  theme_in false st = Ok ThemeContext_default /\
  theme_in true st = Ok palette_theme /\
  theme_get (primary ThemeContext_default) 500 = str "#1A3AE5" /\
  theme_get (primary palette_theme) 500 = str "26 58 229" /\
  Forall (fun n => theme_get (primary ThemeContext_default) n <> theme_get (primary palette_theme) n)
    [500; 400; 300; 200; 100; 50] /\
  theme_get (secondary ThemeContext_default) 500 <> theme_get (secondary palette_theme) 500 /\
  Forall (fun n => theme_get (accent ThemeContext_default) n <> theme_get (accent palette_theme) n) [500; 400].
Proof.
  unfold theme_in, ThemeProvider. rewrite generateTheme_eq. split_and!; try done.
  all: repeat constructor; vm_compute; discriminate.
Qed.
