(* ===== verification/Pagination.v ===== *)
(** * Pagination: the page navigation of the data grid

    Models [src/src/components/DataGrid/lib/components/Pagination.tsx]
    and the page-size select of [DataGrid] ([lib/index.tsx]).

    The component talks to the TanStack table through a few calls; the
    class [TableApi] lists them and [TableLaws] states what the component
    relies on.  The instance [tanstack_table] gives TanStack's own
    definitions ([getPageCount] is [Math.ceil(rows / pageSize)],
    [setPageIndex] clamps below at [0], [getCanPreviousPage] is
    [pageIndex > 0]) and discharges the laws.

    The component's state is its two hooks [sliceLeft] and [sliceRight]
    and the table.  [pg_event] lists its buttons; [enabled] is the
    negation of each button's [disabled] prop in the branch the component
    renders; [handle] runs the click handler.  [pg_step] is a click on an
    enabled button; [grid_step] adds a change of the page-size select. *)

From stdpp Require Import base list relations.
From Stdlib Require Import ZArith Wellfounded.Inclusion Wf_nat.
From S2P Require Import Prelude.

Open Scope Z_scope.

(** ** The table interface *)

Class TableApi (T : Type) := {
  getRowCount : T -> Z;          (** [table.getCoreRowModel().rows.length] *)
  getPageSize : T -> Z;          (** [table.getState().pagination.pageSize] *)
  getPageIndex : T -> Z;         (** [table.getState().pagination.pageIndex] *)
  getPageCount : T -> Z;
  getCanPreviousPage : T -> bool;
  setPageIndex : Z -> T -> T;
  setPageSize : Z -> T -> T      (** [setPagination({...pagination, pageSize})] *)
}.

Class TableLaws (T : Type) `{TableApi T} := {
  rowCount_nonneg t : 0 <= getRowCount t;
  pageCount_ceil t : getPageCount t = (getRowCount t + getPageSize t - 1) / getPageSize t;
  canPrevious_spec t : getCanPreviousPage t = bool_decide (0 < getPageIndex t);
  setPageIndex_index i t : getPageIndex (setPageIndex i t) = Z.max 0 i;
  setPageIndex_rows i t : getRowCount (setPageIndex i t) = getRowCount t;
  setPageIndex_size i t : getPageSize (setPageIndex i t) = getPageSize t;
  setPageSize_index v t : getPageIndex (setPageSize v t) = getPageIndex t;
  setPageSize_rows v t : getRowCount (setPageSize v t) = getRowCount t;
  setPageSize_size v t : getPageSize (setPageSize v t) = v
}.

(** ** TanStack's table *)

Record tstate := mk_tstate {
  ts_rows : nat;
  ts_pageSize : Z;
  ts_pageIndex : Z
}.

#[export] Instance tanstack_api : TableApi tstate := {
  getRowCount t := Z.of_nat (ts_rows t);
  getPageSize := ts_pageSize;
  getPageIndex := ts_pageIndex;
  getPageCount t := (Z.of_nat (ts_rows t) + ts_pageSize t - 1) / ts_pageSize t;
  getCanPreviousPage t := bool_decide (0 < ts_pageIndex t);
  setPageIndex i t := mk_tstate (ts_rows t) (ts_pageSize t) (Z.max 0 i);
  setPageSize v t := mk_tstate (ts_rows t) v (ts_pageIndex t)
}.

#[export] Instance tanstack_table : TableLaws tstate.
Proof. split; intros; simpl; lia || reflexivity. Qed.

(** ** The component *)

(** The length of [[...Array(n)].slice(start, end)]. *)
Definition slice_length (n start stop : Z) : Z :=
  let rel k := if k <? 0 then Z.max (n + k) 0 else Z.min k n in
  Z.max (rel stop - rel start) 0.

(** [Math.round(rows / pageSize)]: [floor(rows / pageSize + 1/2)]. *)
Definition round_pages (rows size : Z) : Z := (2 * rows + size) / (2 * size).

Section Component.
  Context {T : Type} `{TableApi T}.

Record pg_state := mk_pg {
    sliceLeft : Z;
    sliceRight : Z;
    table : T
  }.

Definition button_count (t : T) : Z := round_pages (getRowCount t) (getPageSize t).

Definition handleSliceRight (s : pg_state) : pg_state :=
    mk_pg (sliceLeft s + 10) (sliceRight s + 10) (setPageIndex (sliceLeft s + 10) (table s)).

Definition handleSliceLeft (s : pg_state) : pg_state :=
    mk_pg (sliceLeft s - 10) (sliceRight s - 10) (setPageIndex (sliceRight s - 1 - 10) (table s)).

Definition handleFirstPage (s : pg_state) : pg_state :=
    mk_pg 0 10 (setPageIndex 0 (table s)).

Definition handleLastPage (s : pg_state) : pg_state :=
    mk_pg (getPageCount (table s) - 10) (getPageCount (table s))
      (setPageIndex (getPageCount (table s) - 1) (table s)).

  (** The numbered button [index]: [table.setPageIndex(index + sliceLeft)]. *)
Definition clickPage (index : Z) (s : pg_state) : pg_state :=
    mk_pg (sliceLeft s) (sliceRight s) (setPageIndex (index + sliceLeft s) (table s)).

Inductive pg_event := FirstPage | SliceLeft | PageButton (index : Z) | SliceRight | LastPage.

Definition handle (s : pg_state) (e : pg_event) : pg_state :=
    match e with
    | FirstPage => handleFirstPage s
    | SliceLeft => handleSliceLeft s
    | PageButton i => clickPage i s
    | SliceRight => handleSliceRight s
    | LastPage => handleLastPage s
    end.

  (** The buttons rendered and not [disabled], in the branch
      [table.getPageCount() > 1] or the other one. *)
Definition enabled (s : pg_state) (e : pg_event) : bool :=
    let t := table s in
    let many := 1 <? getPageCount t in
    match e with
    | FirstPage => many && getCanPreviousPage t
    | SliceLeft => negb (getPageIndex t - 10 <? 0)
    | PageButton i =>
        many && (0 <=? i) && (i <? slice_length (button_count t) (sliceLeft s) (sliceRight s))
    | SliceRight => many && negb (getPageCount t <? getPageIndex t + 1 + 10)
    | LastPage => false
    end.

Inductive pg_step : pg_state -> pg_state -> Prop :=
    | step_click s e : enabled s e = true -> pg_step s (handle s e).

  (** The grid adds the page-size select: [10], [20] or [100]. *)
Inductive grid_step : pg_state -> pg_state -> Prop :=
    | grid_click s s' : pg_step s s' -> grid_step s s'
    | grid_page_size s v : v ∈ [10; 20; 100] ->
        grid_step s (mk_pg (sliceLeft s) (sliceRight s) (setPageSize v (table s))).

  (** The state after mount, on a table at page [0]. *)
Definition pg_init (t : T) : pg_state := mk_pg 0 10 t.
End Component.

Arguments pg_state T : clear implicits.

(** ** Arithmetic of the page counts *)

(** [Math.ceil(rows / pageSize)], what [getPageCount] computes. *)
Definition ceil_pages (rows size : Z) : Z := (rows + size - 1) / size.

Lemma round_ceil_pages rows size :
  0 <= rows -> 0 < size ->
  0 <= round_pages rows size /\ ceil_pages rows size - 1 <= round_pages rows size <= ceil_pages rows size.
Proof. intros Hr Hs. unfold round_pages, ceil_pages. Z.div_mod_to_equations. nia. Qed.

Lemma slice_length_window n sl i :
  0 <= sl -> 0 <= n -> 0 <= i < slice_length n sl (sl + 10) -> i + sl < n /\ i < 10.
Proof. unfold slice_length. intros Hsl Hn. repeat case_match; lia. Qed.

(** ** The invariant *)

Section Invariant.
  Context {T : Type} `{TableLaws T}.
  Variable rows size : Z.
  Hypothesis size_pos : 0 < size.

Definition pg_inv (s : pg_state T) : Prop :=
    let i := getPageIndex (table s) in
    let sl := sliceLeft s in
    getRowCount (table s) = rows /\ getPageSize (table s) = size /\
    sliceRight s = sl + 10 /\ 0 <= sl /\ sl mod 10 = 0 /\ sl <= i < sl + 10 /\
    sl <= round_pages rows size /\ (sl = 0 \/ sl < ceil_pages rows size) /\
    (i < round_pages rows size \/ i = sl).

Lemma pg_init_inv t :
    getRowCount t = rows -> getPageSize t = size -> getPageIndex t = 0 -> pg_inv (pg_init t).
  Proof.
    intros Hr Hs Hi. pose proof (rowCount_nonneg t).
    destruct (round_ceil_pages rows size) as [? ?]; [lia|done|].
    unfold pg_inv, pg_init. simpl. rewrite Hi. repeat split; auto with lia.
  Qed.

Ltac table_simpl :=
    cbn [handle handleFirstPage handleSliceLeft handleSliceRight handleLastPage clickPage
         sliceLeft sliceRight table enabled button_count] in *;
    rewrite ?setPageIndex_index, ?setPageIndex_rows, ?setPageIndex_size, ?pageCount_ceil,
      ?canPrevious_spec in *.

Lemma pg_step_inv s s' : pg_inv s -> pg_step s s' -> pg_inv s'.
  Proof.
    intros Hinv Hstep. destruct Hstep as [s e Hen].
    destruct Hinv as (Hr & Hs & Hright & Hsl & Hmod & Hwin & Hround & Hceil & Hidx).
    pose proof (rowCount_nonneg (table s)).
    destruct (round_ceil_pages rows size) as [Hr0 Hrc]; [lia|done|].
    unfold pg_inv. destruct e as [| |j| |]; table_simpl; rewrite ?Hr, ?Hs in *;
      rewrite ?andb_true_iff, ?negb_true_iff, ?Z.ltb_lt, ?Z.ltb_ge, ?Z.leb_le in Hen.
    - repeat split; auto with lia.
    - (* [handleSliceLeft]: enabled from page 10 on, so the window starts at 10 or more *)
      assert (10 <= sliceLeft s) by (revert Hmod; Z.div_mod_to_equations; lia).
      repeat split; try lia. rewrite Zminus_mod, Hmod. reflexivity.
    - destruct Hen as [[_ Hj] Hjn]. unfold button_count in Hjn. rewrite Hright, Hr, Hs in Hjn.
      destruct (slice_length_window _ _ _ Hsl Hr0 (conj Hj Hjn)).
      repeat split; lia.
    - destruct Hen as [Hmany Hn]. unfold ceil_pages in *.
      repeat split; try lia. rewrite Zplus_mod, Hmod. reflexivity.
    - discriminate.
  Qed.

Lemma pg_rtc_inv s s' : rtc pg_step s s' -> pg_inv s -> pg_inv s'.
  Proof. induction 1; eauto using pg_step_inv. Qed.
End Invariant.

Definition pg_reachable {T} `{TableApi T} (t : T) (s : pg_state T) : Prop :=
  rtc pg_step (pg_init t) s.

(** A click of the enabled right chevron ([>]) in a reachable state, as
    an order: [right_step t s2 s1] when the click takes [s1] to [s2]. *)
Definition right_step {T} `{TableApi T} (t : T) (s2 s1 : pg_state T) : Prop :=
  pg_reachable t s1 /\ enabled s1 SliceRight = true /\ s2 = handleSliceRight s1.

(** What is left of the pages to the right of the window. *)
Definition pages_right {T} `{TableApi T} (t : T) (s : pg_state T) : nat :=
  Z.to_nat (ceil_pages (getRowCount t) (getPageSize t) - sliceLeft s).

(** ** Properties *)

Section Properties.
  Context {T : Type} `{TableLaws T}.

Lemma pg_reachable_inv t s :
    0 < getPageSize t -> getPageIndex t = 0 -> pg_reachable t s ->
    pg_inv (getRowCount t) (getPageSize t) s.
  Proof.
    intros Hsz Hi Hr. eapply (pg_rtc_inv _ _ Hsz); [exact Hr|]. by apply pg_init_inv.
  Qed.

  (** C4: on a table that starts at page [0], whatever buttons are
      clicked, the ten numbered buttons the component shows start at a
      multiple of ten, [sliceRight] stays [sliceLeft + 10], and the current
      page lies in that window. *)
Theorem pagination_window t s :
    0 < getPageSize t -> getPageIndex t = 0 -> pg_reachable t s ->
    sliceRight s = sliceLeft s + 10 /\ 0 <= sliceLeft s /\ sliceLeft s mod 10 = 0 /\
    sliceLeft s <= getPageIndex (table s) < sliceRight s.
  Proof.
    intros Hsz Hi Hr.
    destruct (pg_reachable_inv t s Hsz Hi Hr) as (_ & _ & Hright & Hsl & Hmod & Hwin & _).
    rewrite Hright. auto.
  Qed.

  (** C5: the buttons only select pages that exist: in every reachable
      state the page index is [0] or below [getPageCount()]. *)
Theorem pagination_page_exists t s :
    0 < getPageSize t -> getPageIndex t = 0 -> pg_reachable t s ->
    getPageIndex (table s) = 0 \/ getPageIndex (table s) < getPageCount (table s).
  Proof.
    intros Hsz Hi Hr. pose proof (rowCount_nonneg t).
    destruct (pg_reachable_inv t s Hsz Hi Hr) as (Hrows & Hsize & _ & _ & _ & Hwin & _ & Hceil & Hidx).
    destruct (round_ceil_pages (getRowCount t) (getPageSize t)) as [_ Hrc]; [done|done|].
    rewrite pageCount_ceil, Hrows, Hsize. unfold ceil_pages in *. lia.
  Qed.

  (** C6: the last page can be unreachable.  The numbered buttons number
      [Math.round(rows / pageSize)], one fewer than [getPageCount()] when
      the last page is less than half full; the right chevron only jumps
      to a multiple of ten and the last-page button is always disabled.
      So when [Math.round] falls short of the page count and is not a
      multiple of ten (21 rows at 10 per page), the last page is never
      shown. *)
Theorem pagination_last_page_unreachable t s :
    0 < getPageSize t -> getPageIndex t = 0 ->
    round_pages (getRowCount t) (getPageSize t) < ceil_pages (getRowCount t) (getPageSize t) ->
    round_pages (getRowCount t) (getPageSize t) mod 10 <> 0 ->
    pg_reachable t s ->
    getPageIndex (table s) < getPageCount (table s) - 1.
  Proof.
    intros Hsz Hi Hlt Hmod10 Hr. pose proof (rowCount_nonneg t).
    destruct (pg_reachable_inv t s Hsz Hi Hr) as (Hrows & Hsize & _ & _ & Hmod & Hwin & Hround & _ & Hidx).
    destruct (round_ceil_pages (getRowCount t) (getPageSize t)) as [_ Hrc]; [done|done|].
    rewrite pageCount_ceil, Hrows, Hsize. fold (ceil_pages (getRowCount t) (getPageSize t)).
    destruct Hidx as [Hidx|Hidx]; [lia|].
    assert (sliceLeft s <> round_pages (getRowCount t) (getPageSize t)) by congruence.
    lia.
  Qed.
  (** C29: the right chevron cannot be clicked forever: clicks of the
      enabled [>] button from the states the component reaches form a
      well-founded order, each one moving the window ten pages closer to
      [getPageCount()], after which the button is disabled. *)
Theorem pagination_right_terminates t :
    0 < getPageSize t -> getPageIndex t = 0 -> well_founded (right_step t).
  Proof.
    intros Hsz Hi. apply (wf_incl _ _ (ltof _ (pages_right t))); [|apply well_founded_ltof].
    intros s2 s1 (Hr & Hen & ->). pose proof (rowCount_nonneg t).
    destruct (pg_reachable_inv t s1 Hsz Hi Hr) as (Hrows & Hsize & _ & Hsl & _ & Hwin & _).
    unfold ltof, pages_right. cbn [enabled handleSliceRight sliceLeft] in *.
    rewrite pageCount_ceil, Hrows, Hsize, andb_true_iff, negb_true_iff, Z.ltb_ge in Hen.
    unfold ceil_pages in *. lia.
  Qed.
End Properties.

(** ** Examples and witnesses *)

(** 21 rows at 10 per page: three pages, two numbered buttons. *)
Definition table21 : tstate := mk_tstate 21 10 0.

Definition after_page_2 : pg_state tstate := handle (pg_init table21) (PageButton 1).

Lemma after_page_2_reachable : pg_reachable table21 after_page_2.
Proof. eapply rtc_l; [apply (step_click _ (PageButton 1)); reflexivity|]. apply rtc_refl. Qed.

Lemma pagination_window_witness :
  sliceRight after_page_2 = sliceLeft after_page_2 + 10 /\ 0 <= sliceLeft after_page_2 /\
  sliceLeft after_page_2 mod 10 = 0 /\
  sliceLeft after_page_2 <= getPageIndex (table after_page_2) < sliceRight after_page_2.
Proof.
  apply (pagination_window table21); [simpl; lia | reflexivity | exact after_page_2_reachable].
Defined.

Lemma pagination_page_exists_witness :
  getPageIndex (table after_page_2) = 0 \/
  getPageIndex (table after_page_2) < getPageCount (table after_page_2).
Proof.
  apply (pagination_page_exists table21); [simpl; lia | reflexivity | exact after_page_2_reachable].
Defined.

Lemma pagination_last_page_unreachable_witness :
  getPageIndex (table after_page_2) < getPageCount (table after_page_2) - 1.
Proof.
  apply (pagination_last_page_unreachable table21);
    [simpl; lia | reflexivity | vm_compute; reflexivity | vm_compute; discriminate
    | exact after_page_2_reachable].
Defined.

Lemma pagination_right_terminates_witness : well_founded (right_step table21).
Proof. apply pagination_right_terminates; [simpl; lia | reflexivity]. Defined.

(** The page-size select does not reset the page: on 60 rows at 10
    per page, clicking page 6 and then choosing 100 rows per page leaves
    the table on page index 5 of a single page, and the grid shows no
    row. *)
Example page_size_change_out_of_range :
  exists s, rtc grid_step (pg_init (mk_tstate 60 10 0)) s /\
    getPageCount (table s) = 1 /\ getPageIndex (table s) = 5.
Proof.
  eexists. split.
  - eapply rtc_l; [apply grid_click, (step_click _ (PageButton 5)); reflexivity|].
    eapply rtc_l; [apply (grid_page_size _ 100); decide_by_eval|].
    apply rtc_refl.
  - split; reflexivity.
Qed.
