(* ===== verification/Formatters.v ===== *)
(** * Formatters: the cell formatters of the data grid

    Models [src/src/components/DataGrid/lib/formatters.ts]: [capitalCase],
    [formatEIN], [formatCurrency] and its helper [nFormatter].  The two
    number-to-text conversions of the engine they call,
    [Intl.NumberFormat('en-US', {style: 'currency', currency: 'USD'}).format]
    and [Number.prototype.toFixed] of a quotient, are section variables:
    the theorems hold whatever text they produce.  [formatDate],
    [toDateString] and the date helpers read the clock and call dayjs and
    are not modelled. *)

From stdpp Require Import base list strings sorting.
From Stdlib Require Import Ascii ZArith.
From S2P Require Import Prelude JsString JsValue.

(** ** [capitalCase] *)

(** [s.charAt(0).toUpperCase() + s.slice(1)] *)
Definition capitalize_word (w : jstr) : jstr := toUpperCase (charAt w 0) ++ slice_from w 1.

(** [(str = '') => str.split(' ').map(...).join(' ')]; [None] is an
    omitted argument, which takes the default [''].  *)
Definition capitalCase (s : option jstr) : jstr :=
  let s := default [] s in
  join (str " ") (capitalize_word <$> split " "%char s).

(** The one-pass reference: upper-case the first character and every
    character after a space. *)
Fixpoint cap_pass (start : bool) (s : jstr) : jstr :=
  match s with
  | [] => []
  | c :: s' => (if start then upper_char c else c) :: cap_pass (bool_decide (c = " "%char)) s'
  end.

(** ** [formatEIN] *)

(** [if (!ein) return ''; return `${ein.slice(0, 2)}-${ein.slice(2)}`]
    for [ein] a string, [null] or [undefined]. *)
Definition formatEIN (ein : value) : jstr :=
  if negb (truthy ein) then []
  else match ein with
       | VStr s => slice s 0 2 ++ str "-" ++ slice_from s 2
       | _ => []
       end.

(** ** [formatCurrency] and [nFormatter] *)

(** [/\.0+$|(\.[0-9]*[1-9])0+$/] replaced by ['$1'] at its first match.
    A match starts at a [.]; after it, the first alternative needs one or
    more zeros up to the end (and is replaced by nothing), the second
    digits ending in zeros with a non-zero digit among them (and keeps
    the dot and the digits up to the last non-zero one). *)
Definition is_digit_char (c : ascii) : bool :=
  let n := nat_of_ascii c in (48 <=? n) && (n <=? 57).

Fixpoint drop_trailing_zeros (rev_s : jstr) : jstr :=
  match rev_s with
  | c :: s' => if bool_decide (c = "0"%char) then drop_trailing_zeros s' else rev_s
  | [] => []
  end.

Definition strip_zeros (s : jstr) : jstr := reverse (drop_trailing_zeros (reverse s)).

Definition zeros_match_at (rest : jstr) : option jstr :=
  if bool_decide (rest <> []) && forallb (fun c => bool_decide (c = "0"%char)) rest then Some []
  else if forallb is_digit_char rest && bool_decide (last rest = Some "0"%char) &&
          existsb (fun c => negb (bool_decide (c = "0"%char))) rest
  then Some ("."%char :: strip_zeros rest)
  else None.

Fixpoint replace_trailing_zeros (s : jstr) : jstr :=
  match s with
  | [] => []
  | c :: s' =>
      if bool_decide (c = "."%char) then
        match zeros_match_at s' with
        | Some r => r
        | None => c :: replace_trailing_zeros s'
        end
      else c :: replace_trailing_zeros s'
  end.

(** [lookup]: the thresholds and their symbols. *)
Definition lookup : list (Z * jstr) :=
  [(1, []); (10^3, str "k"); (10^6, str "M"); (10^9, str "G"); (10^12, str "T");
   (10^15, str "P"); (10^18, str "E")]%Z.

Section Currency.
  (** [(num / value).toFixed(digits)] and the [Intl] currency format. *)
  Variable toFixed_div : jsnum -> Z -> value -> jstr.
  Variable intl_usd : value -> jstr.
  Context `{JsHost}.

Definition nFormatter (num : jsnum) (digits : value) : jstr :=
    match List.find (fun item => num_geb num (Num item.1)) (reverse lookup) with
    | Some item => replace_trailing_zeros (toFixed_div num item.1 digits) ++ item.2
    | None => str "0"
    end.

  (** [options] is [None] when omitted; [options.digits] is read only when
      it is given. *)
Definition formatCurrency (number : value) (options : option value) : jstr :=
    if negb (truthy number) then str "$0.00"
    else if isNaN (to_number number) then str "$0.00"
    else match options with
         | Some digits =>
             if truthy digits then str "$" ++ nFormatter (to_number number) digits
             else intl_usd number
         | None => intl_usd number
         end.
End Currency.

(** ** Lemmas *)

Lemma capitalize_word_cons c w : capitalize_word (c :: w) = upper_char c :: w.
Proof. reflexivity. Qed.

Lemma upper_char_space c : upper_char c = " "%char <-> c = " "%char.
Proof.
  destruct c as [[] [] [] [] [] [] [] []]; vm_compute;
    split; intros Hc; (reflexivity || discriminate Hc).
Qed.

(** The words of [s] capitalised and joined back, the first word
    capitalised only when [b]. *)
Lemma cap_pass_split (b : bool) (s : jstr) :
  match split " "%char s with
  | w :: ws => join [" "%char] ((if b then capitalize_word w else w) :: (capitalize_word <$> ws))
               = cap_pass b s
  | [] => False
  end.
Proof.
  revert b. induction s as [|d s IH]; intros b; [by destruct b|]. cbn [split cap_pass].
  specialize (IH (bool_decide (d = " "%char))).
  destruct (split " "%char s) as [|w ws] eqn:Hs; [done|].
  case_bool_decide as Hd.
  - subst d. replace (if b then capitalize_word [] else []) with (@nil ascii) by (by destruct b).
    rewrite join_sep_head by (rewrite fmap_cons; done). rewrite fmap_cons, IH.
    by destruct b.
  - rewrite <- IH. destruct b; [rewrite capitalize_word_cons|]; apply join_cons_head.
Qed.

Lemma length_cap_pass b s : length (cap_pass b s) = length s.
Proof. revert b. induction s; intros b; simpl; auto. Qed.

Lemma toLowerCase_cap_pass b s : toLowerCase (cap_pass b s) = toLowerCase s.
Proof.
  revert b. induction s as [|c s IH]; intros b; [done|]. cbn [cap_pass].
  unfold toLowerCase in *. rewrite !fmap_cons, IH. destruct b; [by rewrite lower_upper_char|done].
Qed.

Lemma cap_pass_idem b s : cap_pass b (cap_pass b s) = cap_pass b s.
Proof.
  revert b. induction s as [|c s IH]; intros b; [done|]. cbn [cap_pass].
  destruct b.
  - rewrite upper_char_idem. f_equal.
    replace (bool_decide (upper_char c = " "%char)) with (bool_decide (c = " "%char)); [apply IH|].
    apply bool_decide_ext. symmetry. apply upper_char_space.
  - by rewrite IH.
Qed.

(** ** Properties *)

(** C24: [capitalCase] is the one-pass capitaliser: the first character
    and every character after a space upper-cased, the rest unchanged;
    the split, map and join compute exactly that. *)
Theorem capitalCase_spec s : capitalCase (Some s) = cap_pass true s.
Proof.
  unfold capitalCase. simpl default. change (str " ") with [" "%char].
  pose proof (cap_pass_split true s) as Hs.
  destruct (split " "%char s) as [|w ws]; [done|]. by rewrite fmap_cons.
Qed.

(** [capitalCase] only changes letter case: it keeps the length and
    the lower-case form of its argument, and applying it twice is
    applying it once. *)
Theorem capitalCase_case_only s :
  length (capitalCase (Some s)) = length s /\
  toLowerCase (capitalCase (Some s)) = toLowerCase s /\
  capitalCase (Some (capitalCase (Some s))) = capitalCase (Some s).
Proof.
  rewrite !capitalCase_spec. split; [apply length_cap_pass|].
  split; [apply toLowerCase_cap_pass | apply cap_pass_idem].
Qed.

(** C25: [formatEIN] inserts a dash after the first two characters and
    nothing else: on a string of two characters or more, the result is one
    longer, has [-] at index 2, and removing it gives the string back. *)
Theorem formatEIN_roundtrip s :
  2 <= length s ->
  let r := formatEIN (VStr s) in
  length r = S (length s) /\ r !! 2 = Some "-"%char /\ take 2 r ++ drop 3 r = s.
Proof.
  intros Hlen. destruct s as [|a [|b s]]; simpl in Hlen; [lia|lia|].
  unfold formatEIN. simpl. auto.
Qed.

(** The entry [List.find] picks in a list sorted by decreasing threshold:
    the largest threshold not above [n]. *)
Lemma find_largest_threshold (n : Z) (l : list (Z * jstr)) v sym :
  StronglySorted (fun a b => (b.1 < a.1)%Z) l ->
  (v, sym) ∈ l -> (v <= n)%Z ->
  (forall v' sym', (v', sym') ∈ l -> (v' <= n)%Z -> (v' <= v)%Z) ->
  List.find (fun item => num_geb (Num n) (Num item.1)) l = Some (v, sym).
Proof.
  induction 1 as [|[v0 s0] l Hsorted IH Hall]; intros Hin Hv Hmax;
    [by apply not_elem_of_nil in Hin|].
  simpl. unfold num_geb, num_cmp. simpl.
  apply elem_of_cons in Hin as [[= -> ->]|Hin].
  - by rewrite (proj2 (Z.geb_le _ _) Hv).
  - rewrite Forall_forall in Hall. pose proof (Hall _ Hin) as Hlt.
    simpl in Hlt. destruct (Z.geb_spec n v0) as [Hge|Hlt'].
    + specialize (Hmax v0 s0 (list_elem_of_here _ _) ltac:(lia)). lia.
    + apply IH; [done|done|]. intros v' sym' Hin'. apply (Hmax v' sym'). by apply elem_of_cons; right.
Qed.

Lemma reverse_lookup_sorted : StronglySorted (fun a b => (b.1 < a.1)%Z) (reverse lookup).
Proof. decide_by_eval. Qed.

Lemma find_below_thresholds (n : Z) (l : list (Z * jstr)) :
  Forall (fun p => (n < p.1)%Z) l ->
  List.find (fun item => num_geb (Num n) (Num item.1)) l = None.
Proof.
  induction 1 as [|[v s] l Hv _ IH]; [done|]. simpl in *.
  unfold num_geb, num_cmp. simpl. destruct (Z.geb_spec n v); [lia|done].
Qed.

Lemma lookup_thresholds_pos : Forall (fun p : Z * jstr => (1 <= p.1)%Z) (reverse lookup).
Proof. decide_by_eval. Qed.

Section CurrencyProofs.
  Variable toFixed_div : jsnum -> Z -> value -> jstr.
  Variable intl_usd : value -> jstr.
  Context `{JsHost}.

  (** [nFormatter] divides by the largest threshold of [lookup] (1,
      1e3, ..., 1e18) that is not above the number and appends its symbol
      ([''], [k], [M], [G], [T], [P], [E]), after trimming the trailing
      zeros of the quotient's [toFixed]. *)
Theorem nFormatter_largest_threshold n d v sym :
    (v, sym) ∈ lookup -> (v <= n)%Z ->
    (forall v' sym', (v', sym') ∈ lookup -> (v' <= n)%Z -> (v' <= v)%Z) ->
    nFormatter toFixed_div (Num n) d = replace_trailing_zeros (toFixed_div (Num n) v d) ++ sym.
  Proof.
    intros Hin Hv Hmax. unfold nFormatter.
    rewrite (find_largest_threshold n (reverse lookup) v sym); [done|apply reverse_lookup_sorted| | done |].
    - by rewrite elem_of_reverse.
    - intros v' sym' Hin'. apply Hmax with sym'. by rewrite <- elem_of_reverse.
  Qed.

  (** C27: with [options.digits] set, a negative amount prints as ["$0"]:
      [nFormatter] finds no threshold at or below it, since the smallest
      is [1], and returns ['0']. *)
Theorem formatCurrency_negative n digits :
    (n < 0)%Z -> truthy digits = true ->
    formatCurrency toFixed_div intl_usd (VNum (Num n)) (Some digits) = str "$0".
  Proof.
    intros Hn Hd. unfold formatCurrency. simpl.
    rewrite (proj2 (Z.eqb_neq n 0)) by lia. simpl. rewrite Hd.
    unfold nFormatter. rewrite find_below_thresholds; [done|].
    eapply Forall_impl; [exact lookup_thresholds_pos|]. simpl. lia.
  Qed.

  (** The guards of [formatCurrency]: a falsy amount ([0], [''],
      [null], [undefined], [NaN]) or one whose [Number] conversion is
      [NaN] prints as ["$0.00"], whatever the options. *)
Theorem formatCurrency_guards v opts :
    truthy v = false \/ isNaN (to_number v) = true ->
    formatCurrency toFixed_div intl_usd v opts = str "$0.00".
  Proof.
    unfold formatCurrency. intros [Hv|Hv]; rewrite Hv; [done|].
    by destruct (truthy v).
  Qed.
End CurrencyProofs.

(** ** Examples and witnesses *)

Section FormatterExamples.
  #[local] Existing Instance sample_host.

  (** An engine whose [toFixed] of the quotient printed ["1.50"]. *)
Definition fixed_1_50 (n : jsnum) (v : Z) (d : value) : jstr := str "1.50".
Definition no_intl (v : value) : jstr := [].

Lemma formatEIN_roundtrip_witness :
    formatEIN (VStr (str "123456789")) = str "12-3456789" /\
    take 2 (formatEIN (VStr (str "123456789"))) ++ drop 3 (formatEIN (VStr (str "123456789")))
      = str "123456789".
  Proof.
    split; [reflexivity|].
    apply (formatEIN_roundtrip (str "123456789")). simpl. lia.
  Defined.

Lemma nFormatter_largest_threshold_witness :
    nFormatter fixed_1_50 (Num 1500) (VNum (Num 2)) = str "1.5k".
  Proof.
    rewrite (nFormatter_largest_threshold fixed_1_50 1500 (VNum (Num 2)) (10^3)%Z (str "k")).
    - vm_compute. reflexivity.
    - decide_by_eval.
    - vm_compute. discriminate.
    - assert (Hall : Forall (fun p : Z * jstr => (p.1 <= 1500)%Z -> (p.1 <= 10^3)%Z) lookup)
        by (repeat constructor; simpl; lia).
      intros v' sym' Hin. rewrite Forall_forall in Hall. exact (Hall (v', sym') Hin).
  Defined.

Lemma formatCurrency_negative_witness :
    formatCurrency fixed_1_50 no_intl (VNum (Num (-1500))) (Some (VNum (Num 1))) = str "$0".
  Proof. apply formatCurrency_negative; [lia | reflexivity]. Defined.

Lemma formatCurrency_guards_witness :
    formatCurrency fixed_1_50 no_intl (VStr (str "abc")) None = str "$0.00".
  Proof. apply formatCurrency_guards. right. vm_compute. reflexivity. Defined.
End FormatterExamples.
