(* ===== verification/Input.v ===== *)
(** * Input: the text field and its password toggle

    Models [src/src/components/Input/index.tsx]: the component [Input]
    (its props, its three hooks, the handler [handlePasswordVisibility],
    and the element tree it renders) and the Formik wrapper [InputField]
    (the props it derives from the form's [values], [touched] and
    [errors]).

    [Input] keeps [showPassword] and [_type] in [useState] and
    [isPassword] in a [useMemo] with no dependencies: all three are fixed
    by the props of the first render and only the eye button changes
    them.  A later render with other props is a [Rerender] step that
    leaves them alone.  The password toggle refines the one-bit
    specification [PasswordSpec]: the abstraction is [showPassword]. *)

From stdpp Require Import base list strings relations.
From Stdlib Require Import Ascii ZArith.
From S2P Require Import Prelude JsString JsValue.

(** ** Props and state *)

(** The normalised [_currentState]. *)
Inductive current_state := CSuccess | CError | CDefault.

#[export] Instance current_state_eq_dec : EqDecision current_state.
Proof. solve_decision. Defined.

Record input_props := mk_input_props {
  ip_label : option jstr;
  ip_helperText : value;          (** rendered as a child of [<p>] *)
  ip_type : jstr;
  ip_tooltipText : option jstr;
  ip_maxchars : option jsnum;
  ip_icon : option jstr;          (** destructured and never rendered *)
  ip_wStateIcon : bool;
  ip_currentState : option jstr;
  ip_value : value                (** [input.value], from the spread rest *)
}.

Record input_state := mk_input_state {
  showPassword : bool;
  _type : jstr;
  isPassword : bool
}.

(** The [useMemo] on [currentState]. *)
Definition _currentState (currentState : option jstr) : current_state :=
  match currentState with
  | Some s =>
      if bool_decide (s = str "success") then CSuccess
      else if bool_decide (s = str "error") then CError
      else CDefault
  | None => CDefault
  end.

(** The hooks at the first render: [useState(false)], [useState(type)],
    [useMemo(() => type === 'password', [])]. *)
Definition input_init (p : input_props) : input_state :=
  mk_input_state false (ip_type p) (bool_decide (ip_type p = str "password")).

Definition handlePasswordVisibility (s : input_state) : input_state :=
  mk_input_state (negb (showPassword s))
    (if bool_decide (_type s = str "password") then str "text" else str "password")
    (isPassword s).

(** The events: a click on the eye button, which is rendered when
    [isPassword]; a render with new props, which keeps the hooks. *)
Inductive input_event := ClickEye | Render (p : input_props).

Inductive input_step : input_event -> input_state * input_props -> input_state * input_props -> Prop :=
  | step_toggle s p :
      isPassword s = true -> input_step ClickEye (s, p) (handlePasswordVisibility s, p)
  | step_rerender s p p' : input_step (Render p') (s, p) (s, p').

(** ** Render *)

Inductive eye_icon := HiEye | HiEyeSlash.
Inductive state_icon := HiOutlineCheckCircle | HiOutlineXCircle.

Record input_view := mk_input_view {
  iv_label : option jstr;
  iv_tooltip : option jstr;         (** the [ToolTip] and its content *)
  iv_class : jstr;                  (** [className] of the [<input>] *)
  iv_type : jstr;                   (** [type] of the [<input>] *)
  iv_toggle : option eye_icon;      (** the eye button and its icon *)
  iv_state_icon : option state_icon;
  iv_helper_class : jstr;
  iv_helperText : value;
  iv_counter : jstr                 (** the text of the second [<p>] *)
}.

Definition input_class (cs : current_state) : jstr :=
  tpl_and (bool_decide (cs <> CDefault))
    (if bool_decide (cs = CSuccess) then str "border-success" else str "border-error") ++
  str " block w-full min-w-[228px] px-4 py-4 border rounded-md shadow-sm border-dark-200 focus:border-dark-300 focus:ring-dark-300 shadow-all   sm:text-sm".

Definition helper_class (cs : current_state) : jstr :=
  tpl_and (bool_decide (cs = CError)) (str "text-error") ++
  str " flex items-center justify-between text-body-3 text-dark-500 opacity-60 ".

(** [{tooltipText && ...}]: nothing for an empty text. *)
Definition tooltip (t : option jstr) : option jstr :=
  match t with
  | Some s => if bool_decide (s <> []) then Some s else None
  | None => None
  end.

(** [input.value?.['length']] as a child: the length of a string, nothing
    for the other values, which have no [length]. *)
Definition value_length (v : value) : jstr :=
  match v with
  | VStr s => number_to_string (Num (Z.of_nat (length s)))
  | _ => []
  end.

(** [{maxchars && (<>{length}/{maxchars}</>)}]: a falsy number is itself
    rendered, so [0] shows as ["0"] and [NaN] as ["NaN"]. *)
Definition counter (maxchars : option jsnum) (v : value) : jstr :=
  match maxchars with
  | None => []
  | Some n =>
      if truthy (VNum n) then value_length v ++ str "/" ++ number_to_string n
      else number_to_string n
  end.

Definition Input (s : input_state) (p : input_props) : input_view :=
  let cs := _currentState (ip_currentState p) in
  {| iv_label := ip_label p;
     iv_tooltip := tooltip (ip_tooltipText p);
     iv_class := input_class cs;
     iv_type := _type s;
     iv_toggle := if isPassword s then Some (if showPassword s then HiEyeSlash else HiEye) else None;
     iv_state_icon :=
       if ip_wStateIcon p && bool_decide (cs <> CDefault)
       then Some (if bool_decide (cs = CSuccess) then HiOutlineCheckCircle else HiOutlineXCircle)
       else None;
     iv_helper_class := helper_class cs;
     iv_helperText := ip_helperText p;
     iv_counter := counter (ip_maxchars p) (ip_value p) |}.

(** ** The Formik wrapper [InputField] *)

Record form := mk_form { values : datum; touched : datum; errors : datum }.

Record field_props := mk_field_props {
  fp_name : option jstr;
  fp_label : option jstr;
  fp_helperText : option jstr;
  fp_type : jstr;
  fp_tooltipText : option jstr;
  fp_maxchars : option jsnum;
  fp_icon : option jstr;
  fp_wStateIcon : bool
}.

(** [name || ''] *)
Definition field_key (name : option jstr) : jstr := default [] name.

Definition field_currentState (f : form) (k : jstr) : jstr :=
  if negb (truthy (get (touched f) k)) then str "default"
  else if truthy (get (errors f) k) then str "error" else str "success".

Definition opt_str (o : option jstr) : value :=
  match o with Some s => VStr s | None => VUndef end.

(** The props [InputField] gives [Input]: Formik's [field] (the value of
    the field), the rest, then [label], [helperText], [type] and
    [currentState]. *)
Definition InputField_props (f : form) (fp : field_props) : input_props :=
  let k := field_key (fp_name fp) in
  {| ip_label := fp_label fp;
     ip_helperText := js_or (js_or (get (errors f) k) (opt_str (fp_helperText fp))) (VStr []);
     ip_type := fp_type fp;
     ip_tooltipText := fp_tooltipText fp;
     ip_maxchars := fp_maxchars fp;
     ip_icon := fp_icon fp;
     ip_wStateIcon := fp_wStateIcon fp;
     ip_currentState := Some (field_currentState f k);
     ip_value := get (values f) k |}.

(** ** The specification of the password toggle

    A password field has one bit of state, whether the password is shown;
    the eye button flips it, and anything else leaves it.  The field
    shows its text exactly when the bit is set, and the icon offers the
    other state. *)
Module PasswordSpec.

Definition state := bool.

Definition init : state := false.

Definition step (e : input_event) (b : state) : state :=
  match e with ClickEye => negb b | Render _ => b end.

Definition view (b : state) : jstr * option eye_icon :=
  (if b then str "text" else str "password", Some (if b then HiEyeSlash else HiEye)).

End PasswordSpec.

(** The part of the rendered field the specification speaks of. *)
Definition toggle_view (v : input_view) : jstr * option eye_icon := (iv_type v, iv_toggle v).

(** The abstraction: the bit is [showPassword], and [_type] and
    [isPassword] agree with it. *)
Definition password_rel (b : PasswordSpec.state) (s : input_state) : Prop :=
  isPassword s = true /\ showPassword s = b /\
  _type s = (if b then str "text" else str "password").

(** ** Lemmas *)

Lemma password_rel_init p :
  ip_type p = str "password" -> password_rel PasswordSpec.init (input_init p).
Proof. intros Ht. unfold input_init, password_rel. rewrite Ht. by rewrite bool_decide_true. Qed.

Lemma password_rel_toggle b s :
  password_rel b s -> password_rel (negb b) (handlePasswordVisibility s).
Proof.
  intros (Hp & Hs & Ht). unfold password_rel, handlePasswordVisibility; simpl.
  rewrite Hp, Hs, Ht. by destruct b.
Qed.

(** Each step of the component is matched by the step of the
    specification on the same event. *)
Lemma input_step_simulation e b sp sp' :
  input_step e sp sp' -> password_rel b sp.1 -> password_rel (PasswordSpec.step e b) sp'.1.
Proof. destruct 1; simpl; [apply password_rel_toggle|done]. Qed.

Lemma toggle_view_rel b s p :
  password_rel b s -> toggle_view (Input s p) = PasswordSpec.view b.
Proof. intros (Hp & Hs & Ht). unfold toggle_view, Input; simpl. rewrite Hp, Hs, Ht. by destruct b. Qed.

(** Without a password type at mount, the hooks never change. *)
Lemma input_trace_not_password es sp sp' :
  trace input_step es sp sp' -> isPassword sp.1 = false -> sp'.1 = sp.1.
Proof.
  induction 1 as [|e es sp1 sp2 sp3 Hst _ IH]; [done|]. intros Hp.
  destruct Hst; simpl in *; [congruence|]. by apply IH.
Qed.

(** [Input] reads nothing of the [icon] prop. *)
Lemma Input_ignores_icon s p i :
  Input s p = Input s {| ip_label := ip_label p; ip_helperText := ip_helperText p;
    ip_type := ip_type p; ip_tooltipText := ip_tooltipText p; ip_maxchars := ip_maxchars p;
    ip_icon := i; ip_wStateIcon := ip_wStateIcon p; ip_currentState := ip_currentState p;
    ip_value := ip_value p |}.
Proof. reflexivity. Qed.

Lemma field_currentState_cases f k :
  _currentState (Some (field_currentState f k)) =
  if truthy (get (touched f) k) then (if truthy (get (errors f) k) then CError else CSuccess)
  else CDefault.
Proof. unfold field_currentState. by destruct (truthy (get (touched f) k)), (truthy (get (errors f) k)). Qed.

Lemma input_class_false_iff cs :
  bool_decide (str "false" ∈ split " " (input_class cs)) = bool_decide (cs = CDefault).
Proof. destruct cs; vm_compute; reflexivity. Qed.

Lemma helper_class_false_iff cs :
  bool_decide (str "false" ∈ split " " (helper_class cs)) = bool_decide (cs <> CError).
Proof. destruct cs; vm_compute; reflexivity. Qed.

(** [maxchars={0}] renders the text ["0"] in place of the counter. *)
Example counter_zero v : counter (Some (Num 0)) v = str "0".
Proof. reflexivity. Qed.

(** ** Examples *)

Definition sample_field (type : jstr) : input_props :=
  mk_input_props (Some (str "Password")) (VStr []) type None (Some (Num 20)) None true None
    (VStr (str "hunter2")).

(** ** Properties of the field *)

(** C7: the password toggle refines [PasswordSpec]: after a first render
    with type ['password'] and any sequence of clicks on the eye button
    and renders with other props (a new [type] prop included), the
    field's type and its eye icon are those the specification gives after
    the same events: ['text'] and the slashed eye after an odd number of
    clicks, ['password'] and the eye after an even number. *)
Theorem input_password_refinement p0 es s p :
  ip_type p0 = str "password" ->
  trace input_step es (input_init p0, p0) (s, p) ->
  toggle_view (Input s p) = PasswordSpec.view (spec_run PasswordSpec.step PasswordSpec.init es).
Proof.
  intros Ht Htr. apply toggle_view_rel.
  refine (trace_refines input_step PasswordSpec.step (fun b sp => password_rel b sp.1) _ es _ _ (s, p) Htr _).
  - intros e b sp sp' Hst Hr. by eapply input_step_simulation.
  - by apply password_rel_init.
Qed.

Lemma input_password_refinement_witness :
  toggle_view (Input (handlePasswordVisibility (input_init (sample_field (str "password"))))
                     (sample_field (str "email"))) = (str "text", Some HiEyeSlash).
Proof.
  rewrite (input_password_refinement (sample_field (str "password"))
             [ClickEye; Render (sample_field (str "email"))]
             (handlePasswordVisibility (input_init (sample_field (str "password")))) (sample_field (str "email")));
    [reflexivity|reflexivity|].
  econstructor; [constructor; reflexivity|]. econstructor; [constructor|]. constructor.
Defined.

(** The [type] prop is read once: after a first render with another
    type than ['password'], whatever events follow and whatever [type]
    later renders pass, the [<input>] keeps the first type and no eye
    button is rendered. *)
Theorem input_type_frozen p0 es s p :
  ip_type p0 <> str "password" ->
  trace input_step es (input_init p0, p0) (s, p) ->
  iv_type (Input s p) = ip_type p0 /\ iv_toggle (Input s p) = None.
Proof.
  intros Ht Htr. apply input_trace_not_password in Htr; [|by apply bool_decide_false].
  simpl in Htr. subst s.
  split; [done|]. simpl. by rewrite bool_decide_false.
Qed.

Lemma input_type_frozen_witness :
  iv_type (Input (input_init (sample_field (str "email"))) (sample_field (str "password"))) = str "email" /\
  iv_toggle (Input (input_init (sample_field (str "email"))) (sample_field (str "password"))) = None.
Proof.
  apply (input_type_frozen (sample_field (str "email")) [Render (sample_field (str "password"))]
           (input_init (sample_field (str "email"))) (sample_field (str "password"))).
  - decide_by_eval.
  - econstructor; [constructor|]. constructor.
Defined.

(** The template literals of the two class names interpolate a
    boolean: the [<input>] carries the class ["false"] exactly when the
    state is the default one, and the helper line exactly when the state
    is not an error. *)
Theorem input_class_false s p :
  (str "false" ∈ split " " (iv_class (Input s p)) <-> _currentState (ip_currentState p) = CDefault) /\
  (str "false" ∈ split " " (iv_helper_class (Input s p)) <-> _currentState (ip_currentState p) <> CError).
Proof.
  simpl. rewrite <- (bool_decide_eq_true (str "false" ∈ split " " (input_class _))),
    <- (bool_decide_eq_true (str "false" ∈ split " " (helper_class _))).
  rewrite input_class_false_iff, helper_class_false_iff. by rewrite !bool_decide_eq_true.
Qed.

(** [InputField] shows a field's error message as the helper text
    whether or not the field was touched, but gives it the error state
    (red border and text, the cross icon) only once touched; untouched, the
    field has the default state. *)
Theorem InputField_error_display f fp s e :
  get (errors f) (field_key (fp_name fp)) = VStr e -> e <> [] ->
  iv_helperText (Input s (InputField_props f fp)) = VStr e /\
  _currentState (ip_currentState (InputField_props f fp)) =
    (if truthy (get (touched f) (field_key (fp_name fp))) then CError else CDefault).
Proof.
  intros He Hne. unfold Input, InputField_props; cbn [iv_helperText ip_currentState ip_helperText].
  rewrite field_currentState_cases, He. unfold js_or. cbn [truthy].
  rewrite !bool_decide_true by done. cbn [truthy]. rewrite bool_decide_true by done.
  split; [done|]. by destruct (truthy _).
Qed.

Lemma InputField_error_display_witness :
  iv_helperText (Input (input_init (sample_field (str "password")))
    (InputField_props (mk_form [] [] [(str "email", VStr (str "Required"))])
       (mk_field_props (Some (str "email")) None None (str "email") None None None true))) = VStr (str "Required") /\
  _currentState (ip_currentState
    (InputField_props (mk_form [] [] [(str "email", VStr (str "Required"))])
       (mk_field_props (Some (str "email")) None None (str "email") None None None true))) = CDefault.
Proof. apply InputField_error_display; [reflexivity|discriminate]. Defined.
