(* ===== verification/ComboBox.v ===== *)
(** * ComboBox: the Formik search-and-pick field

    Models [FilterCombobox] of [src/src/components/ComboBox/index.tsx]: its
    Formik field ([input.value], written by [helpers.setValue]), its three
    [useState] hooks ([searchTerm], [selected], [filteredData]), its two
    effects and the list it renders.

    The options are objects; option [i] is the [i]-th element of the
    [options] prop, which is fixed, and [option[selectKey]] is its key, a
    value.  An array literal may have holes ([[a, , b]]): [options] holds
    [None] there; [filter] and [map] skip holes, [length] counts them.  The field holds a value or an option object ([fval]).

    React semantics, made explicit: a handler updates the state and the
    component renders; the effects whose dependencies changed since they
    last ran (compared with [Object.is]) then run, in the order they are
    declared, and the component renders again.  The effects are the step
    [Effects], enabled while some dependency has changed; a click or a
    keystroke is handled once the effects have run ([settled]).  Every
    state of a trace is rendered, the intermediate ones included. *)

From stdpp Require Import base list strings.
From Stdlib Require Import Ascii ZArith.
From S2P Require Import Prelude JsString JsValue.

(** The value of the Formik field: a JavaScript value, or option [i]. *)
Inductive fval := FPrim (v : value) | FOpt (i : nat).

Definition fval_truthy (f : fval) : bool :=
  match f with FPrim v => truthy v | FOpt _ => true end.

(** [Object.is] on the field's values: objects by identity. *)
Definition fval_is (a b : fval) : bool :=
  match a, b with
  | FOpt i, FOpt j => Nat.eqb i j
  | FPrim v, FPrim w => object_is v w
  | _, _ => false
  end.

(** [input.value || null] *)
Definition or_null (f : fval) : fval := if fval_truthy f then f else FPrim VNull.

Record cb_state := mk_cb {
  cb_value : fval;                 (** [input.value] of [useField(name)] *)
  searchTerm : jstr;
  selected : fval;
  filteredData : list nat;
  dep_search : option jstr;        (** [searchTerm] when the first effect last ran *)
  dep_value : option fval          (** [input.value] when the second effect last ran *)
}.

(** A dependency has changed since the effect last ran (or it never ran). *)
Definition dep_changed {A} (same : A -> A -> bool) (dep : option A) (x : A) : bool :=
  match dep with Some d => negb (same d x) | None => true end.

Definition jstr_is (a b : jstr) : bool := bool_decide (a = b).

Definition settled (s : cb_state) : bool :=
  negb (dep_changed jstr_is (dep_search s) (searchTerm s)) &&
  negb (dep_changed fval_is (dep_value s) (cb_value s)).

Inductive cb_event := TypeText (t : jstr) | ClickClear | ClickOption (i : nat) | Effects.

#[export] Instance cb_event_eq_dec : EqDecision cb_event.
Proof. solve_decision. Defined.

Section ComboBox.
Context `{JsHost}.

(** [option[selectKey]] of each option, in order; [None] for a hole. *)
Variable options : list (option value).

Definition option_key (i : nat) : value :=
  match options !! i with Some (Some v) => v | _ => VUndef end.

(** Index [i] holds an element, not a hole. *)
Definition present (i : nat) : bool :=
  match options !! i with Some (Some _) => true | _ => false end.

(** [String(option[selectKey]).toLowerCase().includes(searchTerm.toLowerCase())] *)
Definition matches (t : jstr) (i : nat) : bool :=
  includes (toLowerCase (to_string (option_key i))) (toLowerCase t).

(** [options.filter(...)] *)
Definition filter_options (t : jstr) : list nat :=
  List.filter (fun i => present i && matches t i) (seq 0 (length options)).

(** The first render: [useState('')], [useState(null)],
    [useState(options)]; no effect has run. *)
Definition cb_init (v0 : fval) : cb_state :=
  mk_cb v0 [] (FPrim VNull) (seq 0 (length options)) None None.

(** The effect on [[searchTerm, options]]. *)
Definition search_effect (s : cb_state) : cb_state :=
  mk_cb (cb_value s) (searchTerm s) (selected s)
    (if bool_decide (searchTerm s <> []) then filter_options (searchTerm s) else filteredData s)
    (Some (searchTerm s)) (dep_value s).

(** The effect on [[input.value]]: [setSelected(input.value || null)]. *)
Definition value_effect (s : cb_state) : cb_state :=
  mk_cb (cb_value s) (searchTerm s) (or_null (cb_value s)) (filteredData s)
    (dep_search s) (Some (cb_value s)).

(** The effects whose dependencies changed, in declaration order. *)
Definition run_effects (s : cb_state) : cb_state :=
  let s1 := if dep_changed jstr_is (dep_search s) (searchTerm s) then search_effect s else s in
  if dep_changed fval_is (dep_value s1) (cb_value s1) then value_effect s1 else s1.

(** The [<input>]'s [onChange]: [setSearchTerm(e.target.value)]. *)
Definition onChange (t : jstr) (s : cb_state) : cb_state :=
  mk_cb (cb_value s) t (selected s) (filteredData s) (dep_search s) (dep_value s).

(** The CLEAR button: [helpers.setValue(null); setSearchTerm('')]. *)
Definition onClear (s : cb_state) : cb_state :=
  mk_cb (FPrim VNull) [] (selected s) (filteredData s) (dep_search s) (dep_value s).

(** An option's button: [helpers.setValue(option)]. *)
Definition onPick (i : nat) (s : cb_state) : cb_state :=
  mk_cb (FOpt i) (searchTerm s) (selected s) (filteredData s) (dep_search s) (dep_value s).

(** [searchTerm && !selected && filteredData && filteredData.length > 0] *)
Definition dropdown_shown (s : cb_state) : bool :=
  bool_decide (searchTerm s <> []) && negb (fval_truthy (selected s)) &&
  bool_decide (filteredData s <> []).

(** The options whose buttons are rendered. *)
Definition listed (s : cb_state) : list nat :=
  if dropdown_shown s then List.filter present (filteredData s) else [].

(** [option[selectKey] === input.value]: the check mark and the
    highlighted class. *)
Definition check_mark (s : cb_state) (i : nat) : bool :=
  match cb_value s with FPrim v => strict_eq (option_key i) v | FOpt _ => false end.

Inductive cb_step : cb_event -> cb_state -> cb_state -> Prop :=
  | cb_type t s : settled s = true -> cb_step (TypeText t) s (onChange t s)
  | cb_clear s :
      settled s = true -> fval_truthy (cb_value s) = true -> cb_step ClickClear s (onClear s)
  | cb_pick i s : settled s = true -> i ∈ listed s -> cb_step (ClickOption i) s (onPick i s)
  | cb_effects s : settled s = false -> cb_step Effects s (run_effects s).

(** ** Render *)

Record cb_view := mk_cb_view {
  cv_text : jstr;                            (** the [<input>]'s value *)
  cv_clear : bool;                           (** the CLEAR button *)
  cv_list : option (list (value * bool))     (** the options: label, check mark *)
}.

Definition ComboBox (s : cb_state) : cb_view :=
  {| cv_text := searchTerm s;
     cv_clear := fval_truthy (cb_value s);
     cv_list := if dropdown_shown s
                then Some ((fun i => (option_key i, check_mark s i)) <$> List.filter present (filteredData s))
                else None |}.

(** ** The invariant

    Where the effects last ran, [filteredData] and [selected] are what they
    computed; every listed option exists; and while a search term is typed
    and nothing is [selected], the field holds a falsy value or an option
    object. *)
Definition cb_inv (s : cb_state) : Prop :=
  (forall t, dep_search s = Some t -> t <> [] -> filteredData s = filter_options t) /\
  (forall v, dep_value s = Some v -> selected s = or_null v) /\
  Forall (fun i => i < length options) (filteredData s) /\
  (searchTerm s <> [] -> fval_truthy (selected s) = false ->
   fval_truthy (cb_value s) = false \/ exists i, cb_value s = FOpt i).

End ComboBox.

(** ** Lemmas *)

Lemma object_is_truthy v w : object_is v w = true -> truthy v = truthy w.
Proof.
  unfold object_is. intros Heq.
  assert (Hse : strict_eq v w = true \/ (v = VNum NaN /\ w = VNum NaN)).
  { destruct v as [| | |[|x]| |]; try (left; exact Heq).
    destruct w as [| | |[|y]| |]; try (left; exact Heq). by right. }
  destruct Hse as [Hse|[-> ->]]; [|done].
  by apply strict_eq_true in Hse as [->|(? & ? & ? & -> & ->)].
Qed.

Lemma fval_is_truthy a b : fval_is a b = true -> fval_truthy a = fval_truthy b.
Proof. destruct a, b; simpl; try done. apply object_is_truthy. Qed.

Lemma fval_is_refl a : fval_is a a = true.
Proof.
  destruct a as [v|i]; simpl; [|apply Nat.eqb_refl].
  destruct v as [| |b|[|z]|x|r t]; simpl; try done.
  - by destruct b. - apply Z.eqb_refl. - by apply bool_decide_true. - apply Nat.eqb_refl.
Qed.

Lemma or_null_truthy f : fval_truthy (or_null f) = fval_truthy f.
Proof. unfold or_null. by destruct (fval_truthy f) eqn:E. Qed.

Lemma settled_deps s :
  settled s = true ->
  dep_search s = Some (searchTerm s) /\ exists v, dep_value s = Some v /\ fval_is v (cb_value s) = true.
Proof.
  unfold settled, dep_changed, jstr_is. destruct (dep_search s) as [d|], (dep_value s) as [v|]; simpl; rewrite ?andb_false_r; try done.
  rewrite andb_true_iff, !negb_involutive, bool_decide_eq_true. intros [-> Hv]. split; eauto.
Qed.

Lemma run_effects_settled `{JsHost} options s : settled (run_effects options s) = true.
Proof.
  unfold run_effects, settled.
  destruct (dep_changed jstr_is (dep_search s) (searchTerm s)) eqn:Es;
  match goal with |- context [if ?c then _ else _] => destruct c eqn:Ev end;
  simpl in *; unfold jstr_is; rewrite ?bool_decide_true, ?fval_is_refl by done; simpl; try done;
  rewrite ?Es, ?Ev; try done.
  all: revert Es; unfold dep_changed; destruct (dep_search s); simpl; [|done];
       unfold jstr_is; by destruct (bool_decide _).
Qed.

Section Invariant.
Context `{JsHost}.
Variable options : list (option value).

(** In a settled state, [selected] is falsy exactly when the field is. *)
Lemma settled_selected s :
  cb_inv options s -> settled s = true -> fval_truthy (selected s) = fval_truthy (cb_value s).
Proof.
  intros (_ & Hsel & _) (_ & v & Hv & Hvis)%settled_deps.
  rewrite (Hsel v Hv), or_null_truthy. by apply fval_is_truthy.
Qed.

Lemma cb_init_inv v0 : cb_inv options (cb_init options v0).
Proof.
  repeat split; simpl; try done.
  apply Forall_forall. intros i Hi%elem_of_seq. lia.
Qed.

Lemma filter_options_bound t : Forall (fun i => i < length options) (filter_options options t).
Proof.
  apply Forall_forall. intros i Hi. apply list_elem_of_In, filter_In in Hi as [Hi _].
  apply list_elem_of_In, elem_of_seq in Hi. lia.
Qed.

Lemma run_effects_inv s : cb_inv options s -> cb_inv options (run_effects options s).
Proof.
  intros Hinv.
  assert (Hs1 : cb_inv options (if dep_changed jstr_is (dep_search s) (searchTerm s)
                                then search_effect options s else s)).
  { destruct (dep_changed _ _ _); [|done]. destruct Hinv as (H1 & H2 & H3 & H4).
    repeat split; simpl; try done.
    - intros t [= <-] Ht. by rewrite bool_decide_true.
    - case_bool_decide; [apply filter_options_bound|done]. }
  pose proof (run_effects_settled options s) as Hset. revert Hset. unfold run_effects.
  destruct (dep_changed jstr_is (dep_search s) (searchTerm s)); [set (s1 := search_effect options s)|set (s1 := s)];
  destruct (dep_changed fval_is (dep_value s1) (cb_value s1)) eqn:Ev; intros Hset.
  all: try (destruct Hs1 as (H1 & H2 & H3 & H4); repeat split; simpl; try done;
            [intros v [= <-]; done|intros _ Hsel; rewrite or_null_truthy in Hsel; by left]).
  all: destruct Hs1 as (H1 & H2 & H3 & H4); repeat split; try done;
       intros Ht Hsel; left; by rewrite <- (settled_selected s1).
Qed.

Lemma cb_step_inv e s s' : cb_step options e s s' -> cb_inv options s -> cb_inv options s'.
Proof.
  destruct 1 as [t s Hset|s Hset Hv|i s Hset Hi|s Hset]; intros Hinv.
  - pose proof (settled_selected s Hinv Hset) as Hsel.
    destruct Hinv as (H1 & H2 & H3 & H4). repeat split; try done. simpl.
    intros _ Hf. left. by rewrite <- Hsel.
  - destruct Hinv as (H1 & H2 & H3 & H4). by repeat split.
  - destruct Hinv as (H1 & H2 & H3 & H4). repeat split; try done. intros _ _. simpl. eauto.
  - by apply run_effects_inv.
Qed.

Lemma cb_trace_inv v0 es s :
  trace (cb_step options) es (cb_init options v0) s -> cb_inv options s.
Proof.
  intros Htr. eapply trace_ind_inv; [|exact Htr|apply cb_init_inv].
  intros e s1 s2 Hst. by apply cb_step_inv with e.
Qed.

End Invariant.

Section Lemmas.
Context `{JsHost}.
Variable options : list (option value).

(** The matches are elements, never holes. *)
Lemma filter_present_filter_options t :
  List.filter (present options) (filter_options options t) = filter_options options t.
Proof.
  unfold filter_options. induction (seq 0 (length options)) as [|i l IH]; [done|]; simpl.
  destruct (present options i) eqn:Hp; [|done]; simpl.
  destruct (matches options t i); simpl; by rewrite ?Hp, IH.
Qed.

Lemma run_effects_value s : cb_value (run_effects options s) = cb_value s.
Proof. unfold run_effects. by repeat case_match. Qed.

Lemma run_effects_searchTerm s : searchTerm (run_effects options s) = searchTerm s.
Proof. unfold run_effects. by repeat case_match. Qed.

Lemma cb_step_effects_inv s s' : cb_step options Effects s s' -> s' = run_effects options s.
Proof. by inversion 1. Qed.

Lemma cb_step_type_inv t s s' :
  cb_step options (TypeText t) s s' -> settled s = true /\ s' = onChange t s.
Proof. by inversion 1. Qed.

Lemma cb_step_pick_inv i s s' :
  cb_step options (ClickOption i) s s' -> settled s = true /\ i ∈ listed options s /\ s' = onPick i s.
Proof. by inversion 1. Qed.

Lemma dropdown_shown_true s :
  dropdown_shown s = true ->
  searchTerm s <> [] /\ fval_truthy (selected s) = false.
Proof.
  unfold dropdown_shown. rewrite !andb_true_iff, negb_true_iff, !bool_decide_eq_true. tauto.
Qed.

Lemma filter_options_elem t i :
  i ∈ filter_options options t -> present options i = true /\ matches options t i = true.
Proof. intros Hi%list_elem_of_In%List.filter_In. by apply andb_true_iff, Hi. Qed.

(** In a settled state, the listed options are the matches of the term
    typed. *)
Lemma listed_settled s i :
  cb_inv options s -> settled s = true -> i ∈ listed options s -> i ∈ filter_options options (searchTerm s).
Proof.
  intros (Hf & _) Hset Hi. unfold listed in Hi.
  destruct (dropdown_shown s) eqn:Hd; [|by apply not_elem_of_nil in Hi].
  apply dropdown_shown_true in Hd as [Ht _]. destruct (settled_deps s Hset) as [Hds _].
  by rewrite (Hf _ Hds Ht), filter_present_filter_options in Hi.
Qed.

(** With keys that are non-empty strings, no listed option carries the
    check mark. *)
Lemma check_mark_listed s i :
  Forall (fun o => forall k, o = Some k -> exists t, k = VStr t /\ t <> []) options ->
  cb_inv options s -> dropdown_shown s = true -> present options i = true ->
  check_mark options s i = false.
Proof.
  intros Hkeys (_ & _ & _ & Hval) [Ht Hsel]%dropdown_shown_true Hp.
  unfold check_mark, option_key. unfold present in Hp.
  destruct (options !! i) as [[k|]|] eqn:Hl; [|done|done].
  destruct (Hval Ht Hsel) as [Hf|[j ->]]; [|done].
  destruct (cb_value s) as [v|j]; [|done].
  rewrite Forall_lookup in Hkeys. destruct (Hkeys i _ Hl k eq_refl) as (t & -> & Hne).
  destruct (strict_eq (VStr t) v) eqn:Heq; [|done].
  apply strict_eq_true in Heq as [<-|(? & ? & ? & ? & _)]; [|done].
  simpl in Hf. by rewrite bool_decide_true in Hf.
Qed.

(** Once the field holds an option, it keeps it until CLEAR is clicked:
    no option button is rendered in a settled state. *)
Lemma picked_stays es s s' i :
  cb_inv options s -> cb_value s = FOpt i ->
  trace (cb_step options) es s s' -> ClickClear ∉ es ->
  cb_inv options s' /\ cb_value s' = FOpt i.
Proof.
  intros Hinv Hv Htr. revert Hinv Hv.
  induction Htr as [s|e es s1 s2 s3 Hst _ IH]; intros Hinv Hv Hcl; [done|].
  apply not_elem_of_cons in Hcl as [He Hcl].
  apply IH; [by apply (cb_step_inv options e s1 s2)| |done].
  destruct Hst as [t s Hset|s Hset Hf|j s Hset Hj|s Hset]; simpl; try done.
  - exfalso. unfold listed in Hj. destruct (dropdown_shown s) eqn:Hd; [|by apply not_elem_of_nil in Hj].
    apply dropdown_shown_true in Hd as [_ Hsel].
    rewrite (settled_selected options s Hinv Hset), Hv in Hsel. done.
  - by rewrite run_effects_value.
Qed.

End Lemmas.

(** ** Properties of the field *)

Section Properties.
Context `{JsHost}.

(** C8: once the effects have run, the list under the field shows
    exactly the options whose key, printed and lower-cased, contains the
    lower-cased search term, in the order of [options], when a term is
    typed, the field is empty (falsy) and some option matches; otherwise
    no list is shown. *)
Theorem cb_dropdown_settled options v0 es s :
  trace (cb_step options) es (cb_init options v0) s -> settled s = true ->
  cv_list (ComboBox options s) =
    if bool_decide (searchTerm s <> []) && negb (fval_truthy (cb_value s)) &&
       bool_decide (filter_options options (searchTerm s) <> [])
    then Some ((fun i => (option_key options i, check_mark options s i)) <$> filter_options options (searchTerm s))
    else None.
Proof.
  intros Htr Hset. pose proof (cb_trace_inv options v0 es s Htr) as Hinv.
  pose proof (settled_selected options s Hinv Hset) as Hsel.
  destruct (settled_deps s Hset) as [Hds _]. destruct Hinv as (Hf & _).
  unfold ComboBox, dropdown_shown; cbn [cv_list]. rewrite Hsel.
  destruct (decide (searchTerm s = [])) as [Ht|Ht].
  - by rewrite !(bool_decide_false (searchTerm s <> [])) by tauto.
  - by rewrite (Hf _ Hds Ht), filter_present_filter_options.
Qed.

(** C9: when every option's key is a non-empty string, no rendered
    option ever carries the check mark or the highlighted class, in any
    state the field reaches, intermediate renders included: the code
    compares the key with [input.value], which holds the whole option
    object once one is picked, and the list only shows while the field is
    empty. *)
Theorem cb_no_check_mark options v0 es s l :
  Forall (fun o => forall k, o = Some k -> exists t, k = VStr t /\ t <> []) options ->
  trace (cb_step options) es (cb_init options v0) s ->
  cv_list (ComboBox options s) = Some l ->
  Forall (fun e => e.2 = false) l.
Proof.
  intros Hkeys Htr Hl. pose proof (cb_trace_inv options v0 es s Htr) as Hinv.
  unfold ComboBox in Hl; cbn [cv_list] in Hl.
  destruct (dropdown_shown s) eqn:Hd; [|done]. injection Hl as <-.
  apply Forall_fmap, Forall_forall. intros i Hi. apply list_elem_of_In, List.filter_In in Hi as [_ Hi]. simpl.
  by apply check_mark_listed.
Qed.

(** C33: after an option is picked, and until CLEAR is clicked, the list
    of options never shows again once the effects have run, whatever is
    typed: the field keeps the option and [selected] follows it. *)
Theorem cb_pick_closes_list options v0 es s i es' s' :
  trace (cb_step options) es (cb_init options v0) s -> cb_value s = FOpt i ->
  trace (cb_step options) es' s s' -> ClickClear ∉ es' -> settled s' = true ->
  cv_list (ComboBox options s') = None.
Proof.
  intros Htr Hv Htr' Hcl Hset.
  destruct (picked_stays options es' s s' i (cb_trace_inv options v0 es s Htr) Hv Htr' Hcl) as [Hinv Hv'].
  pose proof (settled_selected options s' Hinv Hset) as Hsel. rewrite Hv' in Hsel.
  unfold ComboBox, dropdown_shown; cbn [cv_list]. by rewrite Hsel, andb_false_r.
Qed.

End Properties.

(** ** Examples *)

Section Witnesses.
#[local] Existing Instance sample_host.

Definition sample_options : list (option value) :=
  [Some (VStr (str "Alice")); None; Some (VStr (str "Bob")); Some (VStr (str "Alicia"))].

(** Mount, type ["ali"]. *)
Definition sample_typed : cb_state :=
  run_effects sample_options (onChange (str "ali") (run_effects sample_options (cb_init sample_options (FPrim VNull)))).

(** Then pick Alice. *)
Definition sample_picked : cb_state := onPick 0 sample_typed.

(** Then type ["alic"]. *)
Definition sample_retyped : cb_state :=
  run_effects sample_options (onChange (str "alic") (run_effects sample_options sample_picked)).


Lemma sample_typed_trace :
  trace (cb_step sample_options) [Effects; TypeText (str "ali"); Effects]
    (cb_init sample_options (FPrim VNull)) sample_typed.
Proof.
  econstructor; [constructor; reflexivity|].
  econstructor; [constructor; reflexivity|].
  econstructor; [constructor; reflexivity|]. constructor.
Qed.

Lemma cb_dropdown_settled_witness :
  cv_list (ComboBox sample_options sample_typed) =
    Some [(VStr (str "Alice"), false); (VStr (str "Alicia"), false)].
Proof.
  rewrite (cb_dropdown_settled sample_options (FPrim VNull) [Effects; TypeText (str "ali"); Effects] _ sample_typed_trace);
    [|reflexivity].
  vm_compute. reflexivity.
Defined.

Lemma cb_no_check_mark_witness :
  Forall (fun e => e.2 = false) [(VStr (str "Alice"), false); (VStr (str "Alicia"), false)].
Proof.
  apply (cb_no_check_mark sample_options (FPrim VNull) [Effects; TypeText (str "ali"); Effects] sample_typed);
    [| |vm_compute; reflexivity].
  - repeat constructor; intros ? [= <-]; eexists; (split; [reflexivity|discriminate]).
  - exact sample_typed_trace.
Defined.

Lemma cb_pick_closes_list_witness :
  cv_list (ComboBox sample_options sample_retyped) = None.
Proof.
  apply (cb_pick_closes_list sample_options (FPrim VNull) [Effects; TypeText (str "ali"); Effects; ClickOption 0]
           sample_picked 0 [Effects; TypeText (str "alic"); Effects]).
  - apply (trace_app _ [Effects; TypeText (str "ali"); Effects] [ClickOption 0] _ sample_typed);
      [exact sample_typed_trace|].
    econstructor; [constructor; [reflexivity|decide_by_eval]|constructor].
  - reflexivity.
  - econstructor; [constructor; reflexivity|].
    econstructor; [constructor; reflexivity|].
    econstructor; [constructor; reflexivity|]. constructor.
  - decide_by_eval.
  - reflexivity.
Defined.

End Witnesses.
