(* ===== verification/FormStories.v ===== *)
(** * FormStories: the Formik stories of the text field and the combo box

    Models [src/src/components/Input/Input.stories.tsx] and
    [src/src/components/ComboBox/ComboBox.stories.tsx].  Each story renders
    a [<Formik>] form around the component ([InputField] of [Input], the
    combo box of [ComboBox]) and a [ReactJson] panel that shows the form's
    [values], [errors], [touched] and [isValid].

    Formik and Yup are libraries: the part of them the stories reach is
    written out here from their documented behaviour, as the section
    [Formik] over a validation function.  [setFieldValue] and
    [setFieldTouched] validate the whole form ([validateOnChange] and
    [validateOnBlur] default to [true]; validation on mount is off);
    [isValid] is that no error is recorded.  The text-field story cannot
    be submitted: it has no submit button (the eye button is
    [type="button"]) and its two text inputs block implicit submission,
    so its [onSubmit] never runs.  Validation is asynchronous in
    Formik; the model applies its result at once, the order in which the
    stories' events reach it being one event at a time.  Formik's
    [prepareDataForValidation] turns an empty string into [undefined]
    before Yup sees it. *)

From stdpp Require Import base list strings.
From Stdlib Require Import Ascii ZArith.
From S2P Require Import Prelude JsString JsValue Input ComboBox.

(** ** Formik and Yup *)

Section Formik.
Variable validate : datum -> datum.

(** [setFieldValue(name, value)], as [handleChange] calls it. *)
Definition setFieldValue (k : jstr) (v : value) (f : form) : form :=
  let vs := obj_set k v (values f) in mk_form vs (touched f) (validate vs).

(** [setFieldTouched(name, true)], as [handleBlur] calls it. *)
Definition setFieldTouched (k : jstr) (f : form) : form :=
  mk_form (values f) (obj_set k (VBool true) (touched f)) (validate (values f)).

(** [isValid]: the errors object has no key. *)
Definition isValid (f : form) : bool := bool_decide (errors f = []).

End Formik.

(** [prepareDataForValidation] on one value. *)
Definition prepare_value (v : value) : value :=
  match v with VStr [] => VUndef | _ => v end.

(** [Yup.string().required(msg)] on one value: [undefined], [null] and
    the empty string fail; every other value is cast to a non-empty
    string and passes. *)
Definition yup_string_required (msg : jstr) (v : value) : option jstr :=
  match v with VUndef | VNull | VStr [] => Some msg | _ => None end.

(** ** The text-field story *)

Definition k_favoriteAnimal : jstr := str "favoriteAnimal".
Definition k_password : jstr := str "password".

(** [initialValues={{ favoriteAnimal: '', password: '' }}] *)
Definition input_initialValues : datum := [(k_favoriteAnimal, VStr []); (k_password, VStr [])].

(** [validationSchema]: both fields [Yup.string().required('Required')];
    the errors object lists the failing fields, as [yupToFormErrors]
    builds it. *)
Definition validationSchema (vs : datum) : datum :=
  foldl (fun errs k =>
           match yup_string_required (str "Required") (prepare_value (get vs k)) with
           | Some m => obj_set k (VStr m) errs
           | None => errs
           end) [] [k_favoriteAnimal; k_password].

(** The two [<InputField>]s; [autoComplete] and [placeholder] go to the
    [<input>] through [...rest] and change nothing the model renders. *)
Definition favoriteAnimal_field : field_props :=
  mk_field_props (Some k_favoriteAnimal) (Some (str "Favorite Animal")) (Some (str "This is helper text"))
    (str "text") (Some (str "This is a tooltip")) None None false.

Definition password_field : field_props :=
  mk_field_props (Some k_password) (Some (str "Password")) (Some (str "This is helper text"))
    (str "password") (Some (str "This is a tooltip")) None None true.

Inductive story_field := Fav | Pwd.

Definition field_of (x : story_field) : field_props :=
  match x with Fav => favoriteAnimal_field | Pwd => password_field end.

Definition key_of (x : story_field) : jstr :=
  match x with Fav => k_favoriteAnimal | Pwd => k_password end.

(** What the user can do: type in a field (its [onChange], Formik's
    [handleChange]), leave it ([onBlur]), click the password field's eye
    button (the text field renders none). *)
Inductive is_event := IType (x : story_field) (t : jstr) | IBlur (x : story_field) | IEye.

#[export] Instance story_field_eq_dec : EqDecision story_field.
Proof. solve_decision. Defined.
#[export] Instance is_event_eq_dec : EqDecision is_event.
Proof. solve_decision. Defined.

(** The form and the hooks of the two [Input]s. *)
Record is_state := mk_is { is_form : form; is_fav : input_state; is_pwd : input_state }.

Definition is_init : is_state :=
  let f0 := mk_form input_initialValues [] [] in
  mk_is f0 (input_init (InputField_props f0 favoriteAnimal_field))
    (input_init (InputField_props f0 password_field)).

Definition is_step (e : is_event) (s : is_state) : is_state :=
  match e with
  | IType x t => mk_is (setFieldValue validationSchema (key_of x) (VStr t) (is_form s)) (is_fav s) (is_pwd s)
  | IBlur x => mk_is (setFieldTouched validationSchema (key_of x) (is_form s)) (is_fav s) (is_pwd s)
  | IEye => mk_is (is_form s) (is_fav s) (handlePasswordVisibility (is_pwd s))
  end.

Definition is_run (es : list is_event) : is_state := foldl (fun s e => is_step e s) is_init es.

(** The render of [Template]: the two fields and the [ReactJson] panel. *)
Record is_view := mk_is_view {
  iv_fav : input_view; iv_pwd : input_view;
  iv_values : datum; iv_errors : datum; iv_touched : datum; iv_isValid : bool
}.

Definition input_Template (s : is_state) : is_view :=
  let f := is_form s in
  mk_is_view (Input (is_fav s) (InputField_props f favoriteAnimal_field))
    (Input (is_pwd s) (InputField_props f password_field))
    (values f) (errors f) (touched f) (isValid f).

(** The field [x] of the story as [Template] renders it. *)
Definition is_field_view (s : is_state) (x : story_field) : input_view :=
  match x with Fav => iv_fav (input_Template s) | Pwd => iv_pwd (input_Template s) end.

(** ** The combo-box story *)

Definition animal (name : string) (id : Z) : datum :=
  [(str "displayName", VStr (str name)); (str "id", VNum (Num id))].

(** The [options] literal: nine slots, with holes at 3, 5 and 7 where a
    comma stands alone; the cast to [{ displayName; id }[]] hides them. *)
Definition animals : list (option datum) :=
  [Some (animal "Cats" 1); Some (animal "Cat" 2); Some (animal "Doggos" 3); None;
   Some (animal "Dogs" 4); None; Some (animal "Dog" 5); None; Some (animal "Birds" 6)].

(** [selectKey={'displayName'}]: [option[selectKey]] of each slot. *)
Definition animal_keys : list (option value) :=
  (fun o : option datum => (fun d : datum => get d (str "displayName")) <$> o) <$> animals.

(** [initialValues={{ favoriteAnimal: '' }}]: the field starts as the
    empty string. *)
Definition cb_story_init : cb_state := cb_init animal_keys (FPrim (VStr [])).

(** What [ReactJson] prints of a value of the form: a primitive, or the
    option object itself. *)
Inductive json_shown := JPrim (v : value) | JObject (d : datum).

(** The panel's [values]; [errors] and [touched] stay [{}], there being
    no schema and no bound [onBlur]. *)
Definition cb_story_values (s : cb_state) : list (jstr * json_shown) :=
  [(k_favoriteAnimal,
    match cb_value s with
    | FPrim v => JPrim v
    | FOpt i => match animals !! i with Some (Some d) => JObject d | _ => JPrim VUndef end
    end)].

(** The render of [Template]: the combo box and the [ReactJson] panel. *)
Definition cb_Template `{JsHost} (s : cb_state) : cb_view * list (jstr * json_shown) :=
  (ComboBox animal_keys s, cb_story_values s).

(** ** Invariant of the text-field story *)

(** The values the two text inputs can hold. *)
Definition story_values (a p : jstr) : datum := [(k_favoriteAnimal, VStr a); (k_password, VStr p)].

Definition story_text (x : story_field) (a p : jstr) : jstr := match x with Fav => a | Pwd => p end.

(** Both fields hold strings; the form has not been validated and nothing
    is touched, or the errors are those of the values; the hooks of the two [Input]s keep the types of their
    first render. *)
Definition is_inv (s : is_state) : Prop :=
  (exists a p, values (is_form s) = story_values a p) /\
  ((errors (is_form s) = [] /\ touched (is_form s) = []) \/
   errors (is_form s) = validationSchema (values (is_form s))) /\
  isPassword (is_fav s) = false /\ isPassword (is_pwd s) = true.

(** ** Lemmas *)

Lemma key_of_neq : k_password <> k_favoriteAnimal.
Proof. discriminate. Qed.

Lemma get_story_values a p x : get (story_values a p) (key_of x) = VStr (story_text x a p).
Proof. destruct x; vm_compute; reflexivity. Qed.

Lemma obj_set_story_values a p x t :
  obj_set (key_of x) (VStr t) (story_values a p) =
  match x with Fav => story_values t p | Pwd => story_values a t end.
Proof. destruct x; vm_compute; reflexivity. Qed.

Lemma get_validationSchema a p x :
  get (validationSchema (story_values a p)) (key_of x) =
  if bool_decide (story_text x a p = []) then VStr (str "Required") else VUndef.
Proof. destruct x, a, p; vm_compute; reflexivity. Qed.

Lemma validationSchema_nil a p :
  validationSchema (story_values a p) = [] <-> a <> [] /\ p <> [].
Proof. destruct a, p; vm_compute; split; try done; intros [? ?]; congruence. Qed.

Lemma is_init_inv : is_inv is_init.
Proof. split_and!; [by exists [], []|by left|reflexivity..]. Qed.

Lemma is_step_inv e s : is_inv s -> is_inv (is_step e s).
Proof.
  intros ([a [p Hv]] & Herr & Hf & Hp).
  destruct e as [x t|x|];
    cbn; split_and!; eauto.
  cbn [is_form setFieldValue values]. rewrite Hv, obj_set_story_values. destruct x; eauto.
Qed.

(** A property of the initial state that every step keeps, from a state
    of the invariant, holds after every run. *)
Lemma is_run_ind (P : is_state -> Prop) :
  P is_init -> (forall e s, is_inv s -> P s -> P (is_step e s)) -> forall es, P (is_run es).
Proof.
  intros H0 Hstep es. unfold is_run.
  cut (forall s, is_inv s -> P s -> is_inv (foldl (fun s e => is_step e s) s es) /\
                                   P (foldl (fun s e => is_step e s) s es)).
  { intros Hc. apply Hc; [apply is_init_inv|done]. }
  induction es as [|e es IH]; intros s Hi Hp; [done|]. simpl. apply IH; [by apply is_step_inv|auto].
Qed.

Lemma is_run_inv es : is_inv (is_run es).
Proof. apply (is_run_ind is_inv); [apply is_init_inv|auto using is_step_inv]. Qed.

Definition is_validated (s : is_state) : Prop :=
  errors (is_form s) = validationSchema (values (is_form s)).

Lemma is_step_validated e s : is_validated s \/ e <> IEye -> is_validated (is_step e s).
Proof.
  unfold is_validated. destruct e; [done|done|].
  intros [H|H]; [exact H|done].
Qed.

(** Once an event other than the eye button has run, the errors are those
    of the values. *)
Lemma is_run_validated es : Exists (fun e => e <> IEye) es -> is_validated (is_run es).
Proof.
  intros (e & He & Hne)%Exists_exists. apply list_elem_of_split in He as (es1 & es2 & ->).
  unfold is_run. rewrite foldl_app; simpl.
  generalize (is_step_validated e (foldl (fun s e => is_step e s) is_init es1) (or_intror Hne)).
  generalize (is_step e (foldl (fun s e => is_step e s) is_init es1)).
  induction es2 as [|e' es2 IH]; intros s Hs; [done|]. simpl. apply IH, is_step_validated. by left.
Qed.

(** The eye button alone never touches the form. *)
Lemma is_run_eye es : ~ Exists (fun e => e <> IEye) es -> is_form (is_run es) = is_form is_init.
Proof.
  intros Hn. apply not_Exists_Forall in Hn; [|intros e; apply _].
  unfold is_run. generalize is_init as s0. induction Hn as [|e es He _ IH]; intros s0; [done|].
  simpl. rewrite IH. apply dec_stable in He. by subst.
Qed.

(** A field is touched only in a validated form. *)
Lemma touched_validated s k : is_inv s -> truthy (get (touched (is_form s)) k) = true -> is_validated s.
Proof. intros (_ & [[_ Ht]|Hv] & _) Htr; [by rewrite Ht in Htr|exact Hv]. Qed.

Lemma InputField_currentState a p s x :
  is_inv s -> values (is_form s) = story_values a p ->
  _currentState (ip_currentState (InputField_props (is_form s) (field_of x))) =
  if truthy (get (touched (is_form s)) (key_of x))
  then (if bool_decide (story_text x a p = []) then CError else CSuccess) else CDefault.
Proof.
  intros Hi Hv. replace (ip_currentState _) with (Some (field_currentState (is_form s) (key_of x))) by by destruct x.
  rewrite field_currentState_cases.
  destruct (truthy (get (touched (is_form s)) (key_of x))) eqn:Ht; [|done].
  rewrite (touched_validated s _ Hi Ht), Hv, get_validationSchema. by case_bool_decide.
Qed.


Lemma is_field_view_Input s x :
  is_field_view s x = Input (match x with Fav => is_fav s | Pwd => is_pwd s end) (InputField_props (is_form s) (field_of x)).
Proof. by destruct x. Qed.

Lemma animal_keys_present i : present animal_keys i = true -> exists d, animals !! i = Some (Some d).
Proof.
  unfold present, animal_keys. rewrite list_lookup_fmap.
  destruct (animals !! i) as [[d|]|]; simpl; [eauto|done|done].
Qed.

Lemma animal_keys_key i d : animals !! i = Some (Some d) -> option_key animal_keys i = get d (str "displayName").
Proof. intros Hi. unfold option_key, animal_keys. by rewrite list_lookup_fmap, Hi. Qed.

(** The story rebuilds the [options] array at every render of the form,
    so the effect on [[searchTerm, options]] runs again after each
    [setValue]; in a settled state it changes nothing, which is why the
    model of [ComboBox] may track [searchTerm] alone. *)
Lemma search_effect_rerun `{JsHost} options s :
  cb_inv options s -> settled s = true -> search_effect options s = s.
Proof.
  intros (Hf & _) Hset. destruct (settled_deps s Hset) as [Hds _].
  destruct s as [v t sel fd ds dv]; unfold search_effect; cbn in *. subst ds.
  case_bool_decide as Ht; [by rewrite (Hf t eq_refl Ht)|done].
Qed.

(** ** Properties of the text-field story *)

(** C26: once anything but the eye button has happened, each field of the
    story shows ["Required"] under it exactly while it is empty, and its
    helper text otherwise, whether it was touched or not: [InputField]
    passes Formik's error as [helperText] without looking at [touched],
    and Formik validates the whole form on every change and blur, so
    typing in one field puts ["Required"] under the other, untouched one. *)
Theorem input_story_helper es x :
  Exists (fun e => e <> IEye) es ->
  exists a p, values (is_form (is_run es)) = story_values a p /\
    iv_helperText (is_field_view (is_run es) x) =
      VStr (if bool_decide (story_text x a p = []) then str "Required" else str "This is helper text").
Proof.
  intros Hex. destruct (is_run_inv es) as ([a [p Hv]] & _). exists a, p. split; [done|].
  rewrite is_field_view_Input. cbn [Input iv_helperText].
  replace (ip_helperText _) with
    (js_or (js_or (get (errors (is_form (is_run es))) (key_of x)) (VStr (str "This is helper text"))) (VStr []))
    by by destruct x.
  rewrite (is_run_validated es Hex), Hv, get_validationSchema. by case_bool_decide.
Qed.

(** C30: in every state of the story, a field's border, helper-text colour
    and state icon follow [touched] and the field's emptiness: neutral
    until the field is touched, then red with a cross when it is empty and
    green with a check when it is not; only the password field, which has
    [wStateIcon], shows an icon. *)
Theorem input_story_field_state es x :
  exists a p, values (is_form (is_run es)) = story_values a p /\
  let cs := if truthy (get (touched (is_form (is_run es))) (key_of x))
            then (if bool_decide (story_text x a p = []) then CError else CSuccess) else CDefault in
  iv_class (is_field_view (is_run es) x) = input_class cs /\
  iv_helper_class (is_field_view (is_run es) x) = helper_class cs /\
  iv_state_icon (is_field_view (is_run es) x) =
    match x, cs with
    | Pwd, CError => Some HiOutlineXCircle | Pwd, CSuccess => Some HiOutlineCheckCircle | _, _ => None
    end.
Proof.
  destruct (is_run_inv es) as ([a [p Hv]] & _). exists a, p. split; [done|].
  rewrite is_field_view_Input. unfold Input; cbn [iv_class iv_helper_class iv_state_icon].
  rewrite (InputField_currentState a p _ x (is_run_inv es) Hv).
  split_and!; [done|done|].
  replace (ip_wStateIcon _) with (match x with Fav => false | Pwd => true end) by by destruct x.
  destruct (truthy _), (bool_decide (story_text x a p = [])), x; vm_compute; reflexivity.
Qed.

(** C34: the [isValid] the panel prints is [true] until the form is
    first validated, although both fields start empty and are required
    (Formik does not validate on mount and the story gives no
    [initialErrors]); once anything but the eye button has happened, it
    is [true] exactly when both fields are filled in. *)
Theorem input_story_isValid es :
  exists a p, values (is_form (is_run es)) = story_values a p /\
    iv_isValid (input_Template (is_run es)) =
      negb (bool_decide (Exists (fun e => e <> IEye) es)) || bool_decide (a <> [] /\ p <> []).
Proof.
  destruct (is_run_inv es) as ([a [p Hv]] & _). exists a, p. split; [done|].
  cbn [input_Template iv_isValid]. unfold isValid.
  destruct (decide (Exists (fun e => e <> IEye) es)) as [Hex|Hnex].
  - rewrite (bool_decide_true (Exists _ es)) by done; simpl.
    rewrite (is_run_validated es Hex), Hv. apply bool_decide_ext, validationSchema_nil.
  - rewrite (bool_decide_false (Exists _ es)) by done; simpl.
    apply bool_decide_true. by rewrite is_run_eye.
Qed.

(** ** Properties of the combo-box story *)

(** C35: in the combo-box story, typing a term once the field has mounted
    and picking an option from the list always picks an animal of the
    literal, never a hole, whose [displayName] contains the term up to
    case; the form's [values] then show that animal's whole object, the
    list closes and CLEAR is offered. *)
Theorem cb_story_pick `{JsHost} t i s :
  trace (cb_step animal_keys) [Effects; TypeText t; Effects; ClickOption i; Effects] cb_story_init s ->
  exists d, animals !! i = Some (Some d) /\
    includes (toLowerCase (to_string (get d (str "displayName")))) (toLowerCase t) = true /\
    cb_story_values s = [(k_favoriteAnimal, JObject d)] /\
    cv_list (ComboBox animal_keys s) = None /\ cv_clear (ComboBox animal_keys s) = true.
Proof.
  intros Htr. pose proof (cb_trace_inv animal_keys _ _ _ Htr) as Hinv. trace_steps Htr.
  pose proof (cb_step_inv _ _ _ _ Hst1 (cb_step_inv _ _ _ _ Hst0 (cb_step_inv _ _ _ _ Hst (cb_init_inv _ _)))) as Hinv2.
  apply cb_step_effects_inv in Hst, Hst1, Hst3. apply cb_step_type_inv in Hst0 as [_ ->].
  apply cb_step_pick_inv in Hst2 as (Hset & Hi & ->). subst.
  apply listed_settled in Hi as [Hp Hm]%filter_options_elem; [|done|done].
  rewrite run_effects_searchTerm in Hm.
  destruct (animal_keys_present i Hp) as [d Hd]. exists d. split_and!; [done| | | |].
  - unfold matches in Hm. by rewrite <- (animal_keys_key i d Hd).
  - unfold cb_story_values. by rewrite run_effects_value; cbn [cb_value onPick]; rewrite Hd.
  - unfold ComboBox, dropdown_shown; cbn [cv_list].
    rewrite (settled_selected _ _ Hinv (run_effects_settled _ _)), run_effects_value. by rewrite andb_false_r.
  - unfold ComboBox; cbn [cv_clear]. by rewrite run_effects_value.
Qed.

(** ** Examples *)

(** Typing ["cat"] in the animal field puts ["Required"] under the
    password field, which nobody touched and whose border stays neutral. *)
Example password_required_untouched :
  iv_helperText (is_field_view (is_run [IType Fav (str "cat")]) Pwd) = VStr (str "Required") /\
  iv_class (is_field_view (is_run [IType Fav (str "cat")]) Pwd) = input_class CDefault.
Proof. split; vm_compute; reflexivity. Qed.

Lemma input_story_helper_witness :
  exists a p, values (is_form (is_run [IType Fav (str "cat")])) = story_values a p /\
    iv_helperText (is_field_view (is_run [IType Fav (str "cat")]) Pwd) =
      VStr (if bool_decide (story_text Pwd a p = []) then str "Required" else str "This is helper text").
Proof. apply input_story_helper. constructor. discriminate. Defined.

Section ComboBoxStory.
#[local] Existing Instance sample_host.

(** Mount, type ["dog"], pick [Dogs], the fifth slot. *)
Definition dog_typed : cb_state :=
  run_effects animal_keys (onChange (str "dog") (run_effects animal_keys cb_story_init)).

Definition dog_picked : cb_state := run_effects animal_keys (onPick 4 dog_typed).

(** ["dog"] lists [Doggos], [Dogs] and [Dog], skipping the holes. *)
Example dog_listed :
  cv_list (cb_Template dog_typed).1 =
    Some [(VStr (str "Doggos"), false); (VStr (str "Dogs"), false); (VStr (str "Dog"), false)].
Proof. vm_compute. reflexivity. Qed.

Lemma cb_story_pick_witness :
  exists d, animals !! 4 = Some (Some d) /\
    includes (toLowerCase (to_string (get d (str "displayName")))) (toLowerCase (str "dog")) = true /\
    cb_story_values dog_picked = [(k_favoriteAnimal, JObject d)] /\
    cv_list (ComboBox animal_keys dog_picked) = None /\ cv_clear (ComboBox animal_keys dog_picked) = true.
Proof.
  apply (cb_story_pick (str "dog") 4 dog_picked).
  econstructor; [constructor; reflexivity|].
  econstructor; [constructor; reflexivity|].
  econstructor; [constructor; reflexivity|].
  econstructor; [constructor; [reflexivity|decide_by_eval]|].
  econstructor; [constructor; reflexivity|]. constructor.
Defined.

End ComboBoxStory.
