(* ===== verification/DebouncedInput.v ===== *)
(** * DebouncedInput: an input that reports its value once typing pauses

    Models [DebouncedInput] of
    [src/src/components/DataGrid/lib/components/ui/DebouncedInput.tsx]:
    its [useState] hook, the effect on [[value]] that schedules
    [onChange] with [setTimeout] and clears the previous timer in its
    cleanup, and the input's [onChange] handler.

    Time is explicit: the state holds the clock ([now], in milliseconds),
    the pending timer (its due time and the value its closure captured),
    the time of the last change of [value], and the calls made to the
    [onChange] prop.  The platform's timers are modelled from the HTML
    standard: the delay is the WebIDL [long] conversion of [debounce]
    (wrapping modulo 2^32 into the signed 32-bit range) clamped below at
    0; a timer fires at or after its due time, never before.  A keystroke
    and the effect it triggers happen at the same instant; a keystroke
    that leaves the value unchanged ([Object.is]) does not render, so the
    effect does not run. *)

From stdpp Require Import base list strings.
From Stdlib Require Import Ascii ZArith.
From S2P Require Import Prelude JsString JsValue.

Open Scope Z_scope.

(** ** The platform's timer delay *)

(** WebIDL's conversion of an integral number to [long]. *)
Definition to_int32 (z : Z) : Z :=
  let m := z mod 2 ^ 32 in if bool_decide (2 ^ 31 <= m) then m - 2 ^ 32 else m.

(** The delay [setTimeout(f, timeout)] waits: negative delays are 0. *)
Definition timeout_delay (timeout : Z) : Z := Z.max 0 (to_int32 timeout).

(** ** The component *)

(** [debounce = 500] *)
Definition default_debounce : Z := 500.

Record di_state := mk_di {
  di_value : value;               (** the [value] hook *)
  now : Z;
  timer : option (Z * value);     (** due time, and [value] as the closure captured it *)
  last_change : Z;
  calls : list (Z * value)        (** [onChange(e)] calls: time, [e.target.value] *)
}.

Section Component.

(** The [debounce] prop. *)
Variable debounce : Z.

(** The effect on [[value]]: the cleanup clears the pending timer, and a
    new one is set to call [onChange] with the current [value]. *)
Definition debounce_effect (s : di_state) : di_state :=
  mk_di (di_value s) (now s) (Some (now s + timeout_delay debounce, di_value s)) (now s) (calls s).

(** The first render ([useState(initialValue)]) at time [t0], and the
    effect that follows it. *)
Definition di_mount (initialValue : value) (t0 : Z) : di_state :=
  debounce_effect (mk_di initialValue t0 None t0 []).

(** The input's [onChange]: [setValue(e.target.value)]; the render and the
    effect happen only when the value changes. *)
Definition setValue (v : value) (s : di_state) : di_state :=
  if object_is v (di_value s) then s
  else debounce_effect (mk_di v (now s) (timer s) (last_change s) (calls s)).

(** The timer's callback: [onChange({ target: { value } })] with the
    captured value. *)
Definition fire (s : di_state) : di_state :=
  match timer s with
  | Some (_, v) => mk_di (di_value s) (now s) None (last_change s) (calls s ++ [(now s, v)])
  | None => s
  end.

Definition tick (t : Z) (s : di_state) : di_state :=
  mk_di (di_value s) t (timer s) (last_change s) (calls s).

Inductive di_event := Keystroke (text : jstr) | Tick (t : Z) | Fire.

Inductive di_step : di_event -> di_state -> di_state -> Prop :=
  | di_key text s : di_step (Keystroke text) s (setValue (VStr text) s)
  | di_tick t s : now s <= t -> di_step (Tick t) s (tick t s)
  | di_fire d v s : timer s = Some (d, v) -> d <= now s -> di_step Fire s (fire s).

(** The invariant: the pending timer holds the current value and is due
    [delay] after the last change, which is not in the future; with no
    timer pending, the last call reported the current value. *)
Definition di_inv (s : di_state) : Prop :=
  last_change s <= now s /\
  match timer s with
  | Some (d, v) => v = di_value s /\ d = last_change s + timeout_delay debounce
  | None => exists t, last (calls s) = Some (t, di_value s)
  end.

End Component.

(** ** Lemmas *)

Lemma to_int32_small z : 0 <= z < 2 ^ 31 -> to_int32 z = z.
Proof.
  intros Hz. unfold to_int32. rewrite Z.mod_small by lia.
  rewrite bool_decide_false by lia. done.
Qed.

Lemma to_int32_range z : - 2 ^ 31 <= to_int32 z < 2 ^ 31.
Proof.
  unfold to_int32. pose proof (Z.mod_pos_bound z (2 ^ 32)) as Hb.
  case_bool_decide; lia.
Qed.

Lemma timeout_delay_nonneg t : 0 <= timeout_delay t.
Proof. unfold timeout_delay. lia. Qed.

Section Invariant.
Variable debounce : Z.

Lemma di_mount_inv v t0 : di_inv debounce (di_mount debounce v t0).
Proof. unfold di_inv, di_mount, debounce_effect; simpl. split; [lia|done]. Qed.

Lemma di_step_inv e s s' : di_step debounce e s s' -> di_inv debounce s -> di_inv debounce s'.
Proof.
  destruct 1 as [text s|t s Ht|d v s Hd Hle]; intros [Hlc Hinv].
  - unfold setValue. destruct (object_is _ _); [done|].
    unfold di_inv, debounce_effect; simpl. split; [lia|done].
  - unfold di_inv, tick; simpl. split; [lia|done].
  - unfold di_inv, fire. rewrite Hd in Hinv |- *. simpl. destruct Hinv as [-> _].
    split; [done|]. exists (now s). by rewrite last_snoc.
Qed.

Lemma di_trace_inv es v t0 s :
  trace (di_step debounce) es (di_mount debounce v t0) s -> di_inv debounce s.
Proof.
  intros Htr. eapply trace_ind_inv; [|exact Htr|apply di_mount_inv].
  intros e s1 s2. apply di_step_inv.
Qed.

End Invariant.

(** ** Properties of the input *)

(** C12: every call of [onChange] reports the value the input holds when
    the call is made, and comes at least the timer delay after the last
    change of that value: a pending call never reports a stale value. *)
Theorem debounce_fire_current debounce v0 t0 es s s' :
  trace (di_step debounce) es (di_mount debounce v0 t0) s -> di_step debounce Fire s s' ->
  calls s' = calls s ++ [(now s, di_value s)] /\ last_change s + timeout_delay debounce <= now s.
Proof.
  intros Htr Hst. destruct (di_trace_inv debounce es v0 t0 s Htr) as [_ Hinv].
  inversion Hst as [| |d v s1 Hd Hle]; subst.
  rewrite Hd in Hinv. destruct Hinv as [-> ->]. unfold fire. by rewrite Hd.
Qed.

(** C13: whatever the input went through, if no key is pressed, time can
    pass and the timer fire so that [onChange] has been called with the
    current value and no timer is pending; in particular the mount itself
    schedules a call with the initial value. *)
Theorem debounce_settles debounce v0 t0 es s :
  trace (di_step debounce) es (di_mount debounce v0 t0) s ->
  exists es' s', Forall (fun e => forall text, e <> Keystroke text) es' /\
    trace (di_step debounce) es' s s' /\ timer s' = None /\ di_value s' = di_value s /\
    exists t, last (calls s') = Some (t, di_value s).
Proof.
  intros Htr. destruct (di_trace_inv debounce es v0 t0 s Htr) as [Hlc Hinv].
  destruct (timer s) as [[d v]|] eqn:Ht.
  - destruct Hinv as [-> _].
    set (s1 := tick (Z.max (now s) d) s).
    assert (Hf : fire s1 = mk_di (di_value s) (Z.max (now s) d) None (last_change s)
                             (calls s ++ [(Z.max (now s) d, di_value s)])).
    { unfold fire. simpl. by rewrite Ht. }
    exists [Tick (Z.max (now s) d); Fire], (fire s1). rewrite Hf. split_and!; simpl.
    + constructor; [intros ?; discriminate|]. constructor; [intros ?; discriminate|constructor].
    + econstructor; [constructor; lia|]. fold s1.
      econstructor; [apply (di_fire debounce d (di_value s)); simpl; [exact Ht|lia]|].
      rewrite Hf. constructor.
    + done.
    + done.
    + exists (Z.max (now s) d). by rewrite last_snoc.
  - exists [], s. split; [constructor|]. split; [constructor|]. by split_and!.
Qed.

(** The delay between a keystroke that changes the value and the
    [onChange] call it schedules is [debounce] read as a signed 32-bit
    integer and clamped at 0: [debounce] itself below 2^31 ms, but 0 (no
    debouncing at all) from 2^31 to 2^32 ms, and always below 2^31 ms. *)
Theorem debounce_delay_bounds debounce s text :
  object_is (VStr text) (di_value s) = false ->
  timer (setValue debounce (VStr text) s) = Some (now s + timeout_delay debounce, VStr text) /\
  0 <= timeout_delay debounce < 2 ^ 31 /\
  (0 <= debounce < 2 ^ 31 -> timeout_delay debounce = debounce) /\
  (2 ^ 31 <= debounce < 2 ^ 32 -> timeout_delay debounce = 0).
Proof.
  intros Hne. unfold setValue. rewrite Hne. split; [done|].
  pose proof (to_int32_range debounce). split; [unfold timeout_delay; lia|]. split.
  - intros Hd. unfold timeout_delay. rewrite to_int32_small by done. lia.
  - intros Hd. unfold timeout_delay, to_int32. rewrite Z.mod_small by lia.
    rewrite bool_decide_true by lia. lia.
Qed.

(** ** Witnesses *)

(** Mounted at 0 with ["a"], typed ["ab"] at 100, then the timer fires at 600. *)
Definition sample_di : di_state :=
  tick 600 (setValue default_debounce (VStr (str "ab")) (tick 100 (di_mount default_debounce (VStr (str "a")) 0))).

Lemma debounce_fire_current_witness :
  calls (fire sample_di) = [(600, VStr (str "ab"))] /\ 100 + 500 <= 600.
Proof.
  apply (debounce_fire_current default_debounce (VStr (str "a")) 0
           [Tick 100; Keystroke (str "ab"); Tick 600] sample_di (fire sample_di)).
  - econstructor; [constructor; simpl; lia|].
    econstructor; [constructor|]. econstructor; [constructor; simpl; lia|]. constructor.
  - apply (di_fire default_debounce 600 (VStr (str "ab"))); reflexivity || (simpl; lia).
Defined.

Lemma debounce_settles_witness :
  exists es' s', Forall (fun e => forall text, e <> Keystroke text) es' /\
    trace (di_step default_debounce) es' (di_mount default_debounce (VStr (str "a")) 0) s' /\
    timer s' = None /\ di_value s' = VStr (str "a") /\
    exists t, last (calls s') = Some (t, VStr (str "a")).
Proof.
  apply (debounce_settles default_debounce (VStr (str "a")) 0 [] (di_mount default_debounce (VStr (str "a")) 0)).
  constructor.
Defined.

Lemma debounce_delay_bounds_witness :
  timer (setValue (2 ^ 31) (VStr (str "ab")) (di_mount (2 ^ 31) (VStr (str "a")) 0)) = Some (0 + timeout_delay (2 ^ 31), VStr (str "ab")) /\
  0 <= timeout_delay (2 ^ 31) < 2 ^ 31 /\
  (0 <= 2 ^ 31 < 2 ^ 31 -> timeout_delay (2 ^ 31) = 2 ^ 31) /\
  (2 ^ 31 <= 2 ^ 31 < 2 ^ 32 -> timeout_delay (2 ^ 31) = 0).
Proof. apply debounce_delay_bounds. reflexivity. Defined.
