(* ===== verification/SearchField.v ===== *)
(** * SearchField: the highlighted match and the search field

    Models [StringMatch] of [src/src/components/SearchField/lib/StringMatch.tsx]
    and the component [fenrirSearchField] of
    [src/src/components/SearchField/lib/variants/Base.tsx].

    [StringMatch] builds the regular expression
    [(?<before>.*?)(?<match>${search})(?<after>.* )] (without the space,
    which only keeps this comment open) with the flag [i] and
    runs it on [label].  For a search made of characters that are not
    pattern syntax, the search the engine performs is written out
    ([regex_search]): it tries the start positions from left to right,
    grows the lazy [before] one character at a time without crossing a
    line terminator, compares the search with the flag's case folding, and
    lets the greedy [after] run to the next line terminator.  A search
    holding one of [^ $ \ . * + ? ( ) [ ] { } |] is a pattern whose
    meaning the model does not interpret: [StringMatch] answers [None].

    [fenrirSearchField] keeps [show] and [search] in [useState]; its
    handlers are written out.  Its render reads the identifiers
    [handleClearInput] and [Close], which the module never declares, so it
    throws a [ReferenceError]; the module scope is the list [base_scope]. *)

From stdpp Require Import base list strings.
From Stdlib Require Import Ascii.
From S2P Require Import Prelude JsString JsValue.

(** ** [StringMatch] *)

Definition is_line_terminator (c : ascii) : bool :=
  bool_decide (c = "010"%char) || bool_decide (c = "013"%char).

(** Characters compared under the [i] flag: equal after case folding. *)
Definition ci_eq (c d : ascii) : bool := bool_decide (lower_char c = lower_char d).

(** [(?<match>search)] at the start of [s]. *)
Fixpoint ci_prefix (p s : jstr) : bool :=
  match p, s with
  | [], _ => true
  | c :: p', d :: s' => ci_eq c d && ci_prefix p' s'
  | _ :: _, [] => false
  end.

(** The group [after], a greedy [.*]: up to the first line terminator. *)
Fixpoint take_line (s : jstr) : jstr :=
  match s with
  | [] => []
  | c :: s' => if is_line_terminator c then [] else c :: take_line s'
  end.

(** The whole expression at one start position: the shortest [before]
    after which [search] matches, [before] never crossing a line
    terminator. *)
Fixpoint match_from (p s : jstr) : option (jstr * jstr * jstr) :=
  if ci_prefix p s then Some ([], take (length p) s, take_line (drop (length p) s))
  else match s with
       | [] => None
       | c :: s' =>
           if is_line_terminator c then None
           else match match_from p s' with
                | Some (b, m, a) => Some (c :: b, m, a)
                | None => None
                end
       end.

(** [label.match(regex)]: the first start position where the expression
    matches. *)
Fixpoint regex_search (p s : jstr) : option (jstr * jstr * jstr) :=
  match match_from p s with
  | Some r => Some r
  | None => match s with [] => None | _ :: s' => regex_search p s' end
  end.

(** Search strings with no pattern syntax. *)
Definition is_literal (search : jstr) : bool :=
  forallb (fun c => negb (bool_decide (c ∈ str "^$\.*+?()[]{}|"))) search.

(** What [StringMatch] renders: the three groups, or the label. *)
Inductive sm_render := SMParts (before matched after : jstr) | SMLabel (label : jstr).

Definition StringMatch (label search : jstr) : option sm_render :=
  if is_literal search then
    Some (match regex_search search label with
          | Some (b, m, a) => SMParts b m a
          | None => SMLabel label
          end)
  else None.

(** The text a render of [StringMatch] shows. *)
Definition sm_text (r : sm_render) : jstr :=
  match r with SMParts b m a => b ++ m ++ a | SMLabel l => l end.

(** ** [fenrirSearchField] ([variants/Base.tsx]) *)

Record sf_state := mk_sf { show : bool; search : jstr }.

(** [useState(false)], [useState('')] *)
Definition sf_init : sf_state := mk_sf false [].

Section Field.
Variable item : Type.

Record sf_props := mk_sf_props {
  sf_items : list item;                     (** [items = []] *)
  sf_RenderItem : bool;                     (** a [RenderItem] is given *)
  sf_updating : bool;                       (** [updating = true] *)
  sf_itemToString : item -> jstr;
  sf_onInputValueChange : bool;             (** the callback is given *)
  sf_onItemSelect : bool;
  sf_clearOnSelect : bool
}.

(** [fenrirSearchFieldProps<T>] of [lib/types.ts], as a caller writes
    them: an optional prop is [None] when it is left out.  [name] and the
    [<input>] attributes go to the input and are not carried. *)
Record search_field_props := mk_search_field_props {
  sfp_items : option (list item);
  sfp_RenderItem : bool;
  sfp_itemToString : item -> jstr;
  sfp_onInputValueChange : bool;
  sfp_onItemSelect : bool;
  sfp_label : option jstr;
  sfp_updating : option bool;
  sfp_clearOnSelect : option bool
}.

(** The destructuring of [fenrirSearchField]'s props: [items = []],
    [updating = true]; a missing [clearOnSelect] is [undefined], falsy. *)
Definition sf_props_of (p : search_field_props) : sf_props :=
  mk_sf_props (default [] (sfp_items p)) (sfp_RenderItem p) (default true (sfp_updating p))
    (sfp_itemToString p) (sfp_onInputValueChange p) (sfp_onItemSelect p) (default false (sfp_clearOnSelect p)).

(** The calls a handler makes to the callbacks of its props. *)
Inductive sf_call := ItemSelected (v : item) | InputValueChanged (v : jstr).

(** [handleSelect]: [setSearch(itemToString(value))], [setShow(false)],
    [onItemSelect(value)], then [setSearch('')] when [clearOnSelect]; the
    updates of one handler are applied together, the last one winning. *)
Definition handleSelect (p : sf_props) (s : sf_state) (v : item) : sf_state * list sf_call :=
  let search1 := sf_itemToString p v in
  let search2 := if sf_clearOnSelect p then [] else search1 in
  (mk_sf false search2, if sf_onItemSelect p then [ItemSelected v] else []).

(** [handleSearch]: [setSearch(e?.target?.value)], [setShow(true)],
    [onInputValueChange(e?.target?.value)]. *)
Definition handleSearch (p : sf_props) (s : sf_state) (v : jstr) : sf_state * list sf_call :=
  (mk_sf true v, if sf_onInputValueChange p then [InputValueChanged v] else []).

(** The [Cancel] icon's [onClick]. *)
Definition onCancel (s : sf_state) : sf_state := mk_sf false [].

(** The list under the field: eleven placeholders while [updating], else
    one button per item. *)
Inductive sf_list := Placeholders (n : nat) | Items (rows : list (option (option sm_render))).

Record sf_view := mk_sf_view {
  sv_backdrop : bool;              (** [{show && <div className="" />}] *)
  sv_cancel : bool;                (** [{search && <Cancel />}] *)
  sv_label_class : jstr;
  sv_list : option sf_list
}.

(** The identifiers in scope in [Base.tsx]: its imports, its
    declarations, and the locals of [fenrirSearchField]. *)
Definition base_scope : list jstr :=
  str <$> ["useState"; "MouseEvent"; "ChangeEvent"; "Fragment"; "useDebounce"; "Cancel";
           "Placeholder"; "StringMatch"; "TextField"; "makeStyles"; "useStyles";
           "fenrirSearchField"; "name"; "placeholder"; "items"; "RenderItem"; "updating";
           "itemToString"; "onInputValueChange"; "onItemSelect"; "clearOnSelect";
           "inputProps"; "show"; "setShow"; "search"; "setSearch"; "classes";
           "debounceSearch"; "handleSelect"; "handleSearch"]%string.

(** Reading an identifier. *)
Definition resolve (x : jstr) : except unit :=
  if bool_decide (x ∈ base_scope) then Ok tt else Throw (ReferenceError x).

(** The render, in the order JavaScript evaluates the JSX: the backdrop
    and the cancel icon, the label's [className], then the [TextField]'s
    props, whose [InputProps] read [handleClearInput] and [Close]; the
    list after it.  [debounceSearch] is what [useDebounce(search, 750)]
    returns. *)
Definition fenrirSearchField (p : sf_props) (s : sf_state) (debounceSearch : jstr) : except sf_view :=
  let backdrop := show s in
  let cancel := bool_decide (search s <> []) in
  let label_class :=
    str "text-sm font-semibold relative flex flex-col items-center w-full  z-40 " ++
    tpl_and (show s) (str "shadow") ++ str "
          " in
  _ <- resolve (str "handleClearInput") ;;
  _ <- resolve (str "Close") ;;
  Ok {| sv_backdrop := backdrop;
        sv_cancel := cancel;
        sv_label_class := label_class;
        sv_list :=
          if show s then
            Some (if sf_updating p then Placeholders 11
                  else Items ((fun v => if sf_RenderItem p then None
                                        else Some (StringMatch (sf_itemToString p v) debounceSearch))
                              <$> sf_items p))
          else None |}.

End Field.

Arguments handleSelect {item}.
Arguments handleSearch {item}.
Arguments fenrirSearchField {item}.
Arguments mk_search_field_props {item}.
Arguments sf_props_of {item}.

(** ** Lemmas *)

Definition one_line (s : jstr) : Prop := Forall (fun c => is_line_terminator c = false) s.

Lemma take_line_one_line s : one_line s -> take_line s = s.
Proof. induction 1 as [|c s Hc _ IH]; simpl; [done|]. by rewrite Hc, IH. Qed.

Lemma ci_eq_lower c d : ci_eq c d = true <-> lower_char c = lower_char d.
Proof. unfold ci_eq. by rewrite bool_decide_eq_true. Qed.

(** A case-folded prefix: the first [length p] characters of [s], lower
    cased, are [p] lower cased. *)
Lemma ci_prefix_take p s :
  ci_prefix p s = true -> length p <= length s /\ toLowerCase (take (length p) s) = toLowerCase p.
Proof.
  revert s. induction p as [|c p IH]; intros [|d s] H; simpl in *; try discriminate;
    [split; [lia|done]..|].
  rewrite andb_true_iff, ci_eq_lower in H. destruct H as [Hcd Hp]. destruct (IH s Hp) as [Hl Ht].
  split; [lia|].
  change (lower_char d :: toLowerCase (take (length p) s) = lower_char c :: toLowerCase p).
  by rewrite Ht, Hcd.
Qed.

Lemma ci_prefix_take_self p s : ci_prefix p s = true -> ci_prefix p (take (length p) s) = true.
Proof.
  revert s. induction p as [|c p IH]; intros [|d s]; simpl; try done.
  rewrite !andb_true_iff. intros [Hcd Hp]. split; [done|]. by apply IH.
Qed.

Lemma match_from_Some p s b m a :
  one_line s -> match_from p s = Some (b, m, a) ->
  s = b ++ m ++ a /\ ci_prefix p m = true /\ length m = length p /\
  forall k, k < length b -> ci_prefix p (drop k s) = false.
Proof.
  intros Hs. revert b. induction Hs as [|c s Hc Hs IH]; intros b.
  - simpl. destruct (ci_prefix p []) eqn:Hp; [|done]. intros [= <- <- <-].
    destruct p; [|done]. split_and!; try done; simpl; lia.
  - cbn [match_from]. destruct (ci_prefix p (c :: s)) eqn:Hp.
    + intros [= <- <- <-]. pose proof (ci_prefix_take _ _ Hp) as [Hl _].
      rewrite take_line_one_line by (apply Forall_drop; by constructor).
      split_and!; [by rewrite take_drop|by apply ci_prefix_take_self|rewrite length_take; lia|simpl; lia].
    + rewrite Hc. destruct (match_from p s) as [[[b' m'] a']|] eqn:Hm; [|done].
      intros [= <- <- <-]. destruct (IH b' eq_refl) as (-> & Hpm & Hlm & Hk).
      split_and!; [done|done|done|]. intros [|k] Hk'; [done|]. apply Hk. simpl in Hk'. lia.
Qed.

Lemma match_from_None p s :
  one_line s -> match_from p s = None -> forall k, k <= length s -> ci_prefix p (drop k s) = false.
Proof.
  induction 1 as [|c s Hc Hs IH]; cbn [match_from].
  - destruct (ci_prefix p []) eqn:Hp; [done|]. intros _ k Hk. simpl in Hk. by replace k with 0 by lia.
  - destruct (ci_prefix p (c :: s)) eqn:Hp; [done|]. rewrite Hc.
    destruct (match_from p s) as [[[b' m'] a']|]; [done|]. intros _ [|k] Hk; [done|].
    apply IH; [done|]. simpl in Hk. lia.
Qed.

(** On one line, the search over start positions is the match at the
    first one. *)
Lemma regex_search_one_line p s : one_line s -> regex_search p s = match_from p s.
Proof.
  induction 1 as [|c s Hc Hs IH]; [cbn [regex_search]; by destruct (match_from p [])|].
  cbn [regex_search]. destruct (match_from p (c :: s)) eqn:Hm; [done|].
  rewrite IH. revert Hm. cbn [match_from]. destruct (ci_prefix p (c :: s)); [done|].
  rewrite Hc. by destruct (match_from p s) as [[[? ?] ?]|].
Qed.

(** A label spanning two lines loses the first: the groups only cover the
    line of the match. *)
Example StringMatch_multiline :
  StringMatch (str "Acme" ++ ["010"%char] ++ str "Corp") (str "corp") = Some (SMParts [] (str "Corp") []).
Proof. vm_compute. reflexivity. Qed.

(** ** Properties *)

(** C32: on a one-line label and a search with no pattern syntax,
    [StringMatch] shows the label unchanged: split into the text before
    the first occurrence of the search (ignoring case), that occurrence in
    bold, and the rest; or the plain label when the search does not occur
    in it. *)
Theorem StringMatch_line label search r :
  one_line label -> is_literal search = true -> StringMatch label search = Some r ->
  sm_text r = label /\
  match r with
  | SMParts b m a =>
      toLowerCase m = toLowerCase search /\
      forall k, k < length b -> ci_prefix search (drop k label) = false
  | SMLabel _ => forall k, k <= length label -> ci_prefix search (drop k label) = false
  end.
Proof.
  intros Hl Hlit. unfold StringMatch. rewrite Hlit, regex_search_one_line by done.
  destruct (match_from search label) as [[[b m] a]|] eqn:Hm; intros [= <-].
  - destruct (match_from_Some _ _ _ _ _ Hl Hm) as (-> & Hp & Hlen & Hk).
    split; [done|]. split; [|done].
    destruct (ci_prefix_take _ _ Hp) as [_ Ht]. by rewrite <- Hlen, take_ge in Ht by lia.
  - split; [done|]. by apply match_from_None.
Qed.

Lemma StringMatch_line_witness :
  sm_text (SMParts (str "The ") (str "Red") (str " Cross")) = str "The Red Cross" /\
  toLowerCase (str "Red") = toLowerCase (str "red") /\
  (forall k, k < length (str "The ") -> ci_prefix (str "red") (drop k (str "The Red Cross")) = false).
Proof.
  apply (StringMatch_line (str "The Red Cross") (str "red")); [decide_by_eval|reflexivity|reflexivity].
Defined.

(** Every render of [fenrirSearchField] throws a [ReferenceError]:
    the [TextField]'s [InputProps] read [handleClearInput], which
    [Base.tsx] never declares, before anything is returned. *)
Theorem fenrirSearchField_throws {item} (p : sf_props item) s debounceSearch :
  fenrirSearchField p s debounceSearch = Throw (ReferenceError (str "handleClearInput")).
Proof. unfold fenrirSearchField, resolve. by rewrite bool_decide_false by decide_by_eval. Qed.
