(* ===== verification/SearchVariants.v ===== *)
(** * SearchVariants: the three search fields built on [fenrirSearchField]

    Models [src/src/components/SearchField/lib/variants/GivingaSearch.tsx]
    (the component [fenrirSearch]), [EarthShareSearch.tsx] and
    [SelectableSearch.tsx], which switches between the two.

    The hooks they call come from modules the repository does not contain
    ([@hooks/useClientSettings], [@hooks/usefenrirSearch],
    [@hooks/useEarthShareSearch]): what they return is an input, the
    client settings a record and each search a section variable from the
    corporation id and the search text to a [query_result].  A variant
    keeps its own [search] in [useState]; [fenrirSearchField]'s state is
    the [sf_state] of [SearchField]. *)

From stdpp Require Import base list strings.
From Stdlib Require Import Ascii.
From S2P Require Import Prelude JsString JsValue SearchField.

(** ** Items and their labels *)

(** [Charity]: the fields [itemToString] reads, [address] as the object
    it holds, [None] when it is nullish. *)
Record charity := mk_charity { ch_name : value; ch_ein : value; ch_address : option datum }.

(** [EsCharityItem]'s [earthshareCharity]: [extraField?.address] is
    [None] when [extraField] or [address] is nullish. *)
Record es_charity := mk_es_charity { esc_charityName : value; esc_ein : value; esc_address : option datum }.

(** [o?.[k]] *)
Definition opt_get (o : option datum) (k : jstr) : value :=
  match o with Some r => get r k | None => VUndef end.

(** What [clientSettings?.data] holds: [None] until the settings load. *)
Record client_settings := mk_client_settings { cs_data : option datum }.

(** [data?.charities] and [isLoading] of a search hook. *)
Record query_result (A : Type) := mk_query_result { qr_charities : option (list A); qr_isLoading : bool }.
Arguments qr_charities {A}.
Arguments qr_isLoading {A}.

(** The props a variant takes: [Pick<..., 'name' | 'label' | 'onItemSelect'
    | 'clearOnSelect'>]. *)
Record variant_props := mk_variant_props {
  vp_label : option jstr; vp_onItemSelect : bool; vp_clearOnSelect : option bool
}.

Record variant_state := mk_vs { vs_search : jstr; vs_field : sf_state }.

Definition variant_init : variant_state := mk_vs [] sf_init.

Section Variants.
Context `{JsHost}.

(** [usefenrirSearch(corpId, search, {})] *)
Variable fenrir_query : value -> jstr -> query_result charity.
(** [useEarthShareSearch(corpId, search, true)] *)
Variable es_query : value -> jstr -> query_result (option es_charity).

Definition corpId (cs : client_settings) : value := opt_get (cs_data cs) (str "corpId").

(** [`${item?.name} - ${item?.ein} - ${item?.address?.['city']}, ${item?.address?.['state']}`] *)
Definition fenrir_itemToString (item : charity) : jstr :=
  to_string (ch_name item) ++ str " - " ++ to_string (ch_ein item) ++ str " - " ++
  to_string (opt_get (ch_address item) (str "city")) ++ str ", " ++
  to_string (opt_get (ch_address item) (str "state")).

(** The same over [item?.earthshareCharity]. *)
Definition es_itemToString (item : option es_charity) : jstr :=
  let f g := match item with Some c => g c | None => VUndef end in
  to_string (f esc_charityName) ++ str " - " ++ to_string (f esc_ein) ++ str " - " ++
  to_string (opt_get (match item with Some c => esc_address c | None => None end) (str "city")) ++ str ", " ++
  to_string (opt_get (match item with Some c => esc_address c | None => None end) (str "state")).

(** The props [fenrirSearch] passes to [fenrirSearchField]: the results
    of its search as [items] (left [undefined] with [data?.charities], so
    that the field's default [[]] applies), [updating], a [RenderItem],
    its [setSearch] as [onInputValueChange], and, through [{...props}],
    [label] and [clearOnSelect]. *)
Definition fenrirSearch_props (p : variant_props) (cs : client_settings) (search : jstr) : sf_props charity :=
  let r := fenrir_query (corpId cs) search in
  sf_props_of (mk_search_field_props (qr_charities r) true fenrir_itemToString
    true (vp_onItemSelect p) (vp_label p) (Some (qr_isLoading r)) (vp_clearOnSelect p)).

(** [EarthShareSearch] destructures [name], [label] and [onItemSelect]
    only: [clearOnSelect] is not passed on. *)
Definition EarthShareSearch_props (p : variant_props) (cs : client_settings) (search : jstr) : sf_props (option es_charity) :=
  let r := es_query (corpId cs) search in
  sf_props_of (mk_search_field_props (qr_charities r) true es_itemToString
    true (vp_onItemSelect p) (vp_label p) (Some (qr_isLoading r)) None).

(** A keystroke in the field: [handleSearch], whose
    [onInputValueChange] call is the variant's [setSearch]. *)
Definition variant_type {A} (p : sf_props A) (vs : variant_state) (text : jstr) : variant_state :=
  let '(f, calls) := handleSearch p (vs_field vs) text in
  mk_vs (foldl (fun s c => match c with InputValueChanged _ v => v | ItemSelected _ _ => s end) (vs_search vs) calls) f.

(** The renders: [debounceSearch] is what [useDebounce] returns in the
    field. *)
Definition fenrirSearch (p : variant_props) (cs : client_settings) (vs : variant_state) (debounceSearch : jstr) : except sf_view :=
  fenrirSearchField (fenrirSearch_props p cs (vs_search vs)) (vs_field vs) debounceSearch.

Definition EarthShareSearch (p : variant_props) (cs : client_settings) (vs : variant_state) (debounceSearch : jstr) : except sf_view :=
  fenrirSearchField (EarthShareSearch_props p cs (vs_search vs)) (vs_field vs) debounceSearch.

(** ** [SelectableSearch] *)

Record selectable_props := mk_selectable_props {
  sp_label : option jstr;
  sp_withEarthShareSearch : option bool;  (** [withEarthShareSearch = true] *)
  sp_clearOnSelect : option bool
}.

(** What [{ffEarthshare && withEarthShareSearch && (...)}] renders: the
    switch, or a falsy operand, which React shows as text when it is a
    number or a string and not at all otherwise. *)
Inductive es_flag := FlagSwitch (checked : bool) | FlagText (s : jstr) | FlagNone.

Definition jsx_falsy (v : value) : es_flag :=
  match v with VNum _ | VStr _ => FlagText (to_string v) | _ => FlagNone end.

Definition es_flag_of (ff : value) (withEs : bool) (esSearch : bool) : es_flag :=
  if truthy ff then (if withEs then FlagSwitch esSearch else FlagNone) else jsx_falsy ff.

Record ss_view := mk_ss_view { ss_label : option jstr; ss_flag : es_flag; ss_earthshare : bool; ss_field : sf_view }.

(** The render: the label and the switch, then [fenrirSearch] or
    [EarthShareSearch] by [esSearch], with [onItemSelect] always given
    (its default is [() => null]). *)
Definition SelectableSearch (p : selectable_props) (esSearch : bool) (cs : client_settings)
    (child : variant_state) (debounceSearch : jstr) : except ss_view :=
  let ff := opt_get (cs_data cs) (str "ffEarthshare") in
  let vp := mk_variant_props (sp_label p) true (sp_clearOnSelect p) in
  field <- (if esSearch then EarthShareSearch vp cs child debounceSearch
            else fenrirSearch vp cs child debounceSearch) ;;
  Ok (mk_ss_view (sp_label p) (es_flag_of ff (default true (sp_withEarthShareSearch p)) esSearch) esSearch field).

(** The switch's [onClick]: [setEsSearch(!esSearch)].  The child changes
    component type, so React mounts the other variant afresh. *)
Definition toggle_es (esSearch : bool) (child : variant_state) : bool * variant_state :=
  (negb esSearch, variant_init).

End Variants.

(** ** Lemmas *)

Section Proofs.
Context `{JsHost}.
Variable fenrir_query : value -> jstr -> query_result charity.
Variable es_query : value -> jstr -> query_result (option es_charity).

(** Whatever the switch, the settings and the text, rendering
    [SelectableSearch] throws the [ReferenceError] of its field: neither
    variant can be shown. *)
Lemma SelectableSearch_throws p esSearch cs child debounceSearch :
  SelectableSearch fenrir_query es_query p esSearch cs child debounceSearch =
    Throw (ReferenceError (str "handleClearInput")).
Proof.
  unfold SelectableSearch, fenrirSearch, EarthShareSearch.
  destruct esSearch; by rewrite fenrirSearchField_throws.
Qed.

(** A keystroke reaches the variant's search hook at once: the variant's
    [search] is the text typed, not the field's debounced value. *)
Lemma variant_type_search {A} (p : sf_props A) vs text :
  sf_onInputValueChange A p = true ->
  vs_search (variant_type p vs text) = text /\ search (vs_field (variant_type p vs text)) = text /\ show (vs_field (variant_type p vs text)) = true.
Proof. intros Hp. unfold variant_type, handleSearch. by rewrite Hp. Qed.

(** [clearOnSelect] reaches the field only in the fenrir variant: picking
    an item leaves the search empty there, but leaves the item's label in
    the EarthShare variant. *)
Lemma selectable_clearOnSelect p cs s search c e :
  sp_clearOnSelect p = Some true ->
  let vp := mk_variant_props (sp_label p) true (sp_clearOnSelect p) in
  (handleSelect (fenrirSearch_props fenrir_query vp cs search) s c).1 = mk_sf false [] /\
  (handleSelect (EarthShareSearch_props es_query vp cs search) s e).1 = mk_sf false (es_itemToString e).
Proof. intros Hc vp. unfold vp, handleSelect, fenrirSearch_props. simpl. by rewrite Hc. Qed.

End Proofs.

Section Examples.
#[local] Existing Instance sample_host.

(** A charity without an address is listed with ["undefined"] for its
    city and state. *)
Example fenrir_itemToString_no_address :
  fenrir_itemToString (mk_charity (VStr (str "Acme")) (VStr (str "12-3456789")) None) =
    str "Acme - 12-3456789 - undefined, undefined".
Proof. reflexivity. Qed.

(** A flag [ffEarthshare] of [0] is shown as the text ["0"]. *)
Example es_flag_zero : es_flag_of (VNum (Num 0)) true false = FlagText (str "0").
Proof. reflexivity. Qed.

Lemma selectable_clearOnSelect_witness :
  (handleSelect (fenrirSearch_props (fun _ _ => mk_query_result _ None false)
                   (mk_variant_props None true (Some true)) (mk_client_settings None) [])
                sf_init (mk_charity VUndef VUndef None)).1 = mk_sf false [] /\
  (handleSelect (EarthShareSearch_props (fun _ _ => mk_query_result _ None false)
                   (mk_variant_props None true (Some true)) (mk_client_settings None) [])
                sf_init None).1 = mk_sf false (es_itemToString None).
Proof.
  apply (selectable_clearOnSelect (fun _ _ => mk_query_result _ None false) (fun _ _ => mk_query_result _ None false)
           (mk_selectable_props None None (Some true))); reflexivity.
Defined.

End Examples.
