(* ===== verification/GlobalFilter.v ===== *)
(** * GlobalFilter: the grid's search box

    Models [SearchInput] of
    [src/src/components/DataGrid/lib/components/Filters/GlobalFilter.tsx]
    beyond its search keys (which [Columns] holds): the helper [isDate],
    the handler [onSearchChange] with its asynchronous import of Fuse.js,
    the effect that calls it on every new debounced text, and the input it
    renders.

    Fuse.js is a library: its search is the section variable
    [fuse_search].  The debounce hook is imported from [@/hooks/useDebounce],
    which the repository does not contain: its successive values are the
    events [Debounced].  [onSearchChange] on a non-empty text suspends at
    [await import('fuse.js')]; the suspended calls are kept in order
    ([pending]) and the step [Resume] runs the oldest to completion, which
    is how the promise of one module import resumes its waiters. *)

From stdpp Require Import base list strings.
From Stdlib Require Import Ascii ZArith.
From S2P Require Import Prelude JsString JsValue Columns.

(** ** [isDate] *)

Definition dateFormats : list jstr :=
  str <$> ["MM-DD-YYYY"; "YYYY-MM-DD"; "DD-MM-YYYY"; "MM.DD.YYYY"; "YYYY.MM.DD";
           "DD.MM.YYYY"; "YYYY-MM-DDTHH:mm:ss.sssZ"; "D MMMM YYYY"]%string.

(** [s.replace(c, d)] with a string pattern: the first occurrence only. *)
Fixpoint replace_first (c d : ascii) (s : jstr) : jstr :=
  match s with
  | [] => []
  | x :: s' => if bool_decide (x = c) then d :: s' else x :: replace_first c d s'
  end.

(** [input.replace(/-/g, '/').replace(/,/g, '').replace(/\./g, '/').replace('T', ' ')] *)
Definition normalize_date (input : jstr) : jstr :=
  replace_first "T" " " (replace_char "." "/" (List.filter (fun c => negb (bool_decide (c = ","%char)))
                                                  (replace_char "-" "/" input))).

Section IsDate.
Context `{JsHost}.

(** The loop over [dateFormats]: each iteration parses the same string. *)
Definition isDate (input : jstr) : bool :=
  existsb (fun format =>
             negb (isNaN (host_parse_date (normalize_date input))) &&
             bool_decide (format ∈ dateFormats))
          dateFormats.

End IsDate.

(** ** [onSearchChange] and the effect on the debounced text *)

Record gf_state := mk_gf {
  visibleData : list datum;       (** the grid's [visibleData], set through [setVisibleData] *)
  pending : list jstr;            (** calls suspended at [await import('fuse.js')] *)
  debounced : option jstr         (** the [debouncedValue] the effect last ran with *)
}.

Inductive gf_event := Debounced (v : jstr) | Resume.

Section Search.

(** [new Fuse(dataSource, { keys, ... }).search(value).map(item => item.item)] *)
Variable fuse_search : list datum -> list value -> jstr -> list datum.
Variable dataSource : list datum.
Variable columns : list column.

(** [onSearchChange(value)] up to its first [await]: an empty text shows
    the data source at once; any other suspends. *)
Definition onSearchChange (value : jstr) (s : gf_state) : gf_state :=
  if bool_decide (value = []) then mk_gf dataSource (pending s) (debounced s)
  else mk_gf (visibleData s) (pending s ++ [value]) (debounced s).

(** The rest of a suspended call, once the module is loaded. *)
Definition resume (s : gf_state) : gf_state :=
  match pending s with
  | value :: rest => mk_gf (fuse_search dataSource (searchableColumns columns) value) rest (debounced s)
  | [] => s
  end.

(** [useEffect(() => { onSearchChange(debouncedValue) }, [debouncedValue])];
    the first run is the mount, with [debounced = None]. *)
Definition gf_search_effect (v : jstr) (s : gf_state) : gf_state :=
  if bool_decide (debounced s = Some v) then s
  else onSearchChange v (mk_gf (visibleData s) (pending s) (Some v)).

Inductive gf_step : gf_event -> gf_state -> gf_state -> Prop :=
  | gf_debounced v s : gf_step (Debounced v) s (gf_search_effect v s)
  | gf_resume s : pending s <> [] -> gf_step Resume s (resume s).

(** The grid mounts showing the data source; the effect's first run is the
    hook's first value, the empty text. *)
Definition gf_init : gf_state := mk_gf dataSource [] None.

End Search.

(** The [<input>]: its value, its placeholder and its [aria-label], both
    [placeholder || 'Search All Columns in Table...']. *)
Record gf_view := mk_gf_view { gv_value : jstr; gv_placeholder : jstr; gv_aria_label : jstr }.

Definition SearchInput_view (placeholder searchText : jstr) : gf_view :=
  let p := if bool_decide (placeholder <> []) then placeholder
           else str "Search All Columns in Table..." in
  mk_gf_view searchText p p.

(** ** Lemmas *)

Lemma existsb_const_true {A} (l : list A) (b : bool) (f : A -> bool) :
  l <> [] -> (forall x, x ∈ l -> f x = true) -> existsb (fun x => b && f x) l = b.
Proof.
  intros Hne Hf. destruct b; [|clear Hne Hf; induction l as [|x l IH]; simpl; [done|exact IH]].
  destruct l as [|x l]; [done|]. simpl. rewrite Hf; [done|by left].
Qed.

Section Invariant.
Variable fuse_search : list datum -> list value -> jstr -> list datum.
Variable dataSource : list datum.
Variable columns : list column.

(** The invariant: the data shown is what the last completed call set,
    and the suspended calls are the non-empty texts issued after it, in
    order; when the last text issued is non-empty, it is the last
    suspended call. *)
Definition gf_inv (s : gf_state) : Prop :=
  Forall (fun v => v <> []) (pending s) /\
  (forall v, debounced s = Some v -> v <> [] -> last (pending s) = Some v \/
     (pending s = [] /\ visibleData s = fuse_search dataSource (searchableColumns columns) v)).

Lemma gf_init_inv : gf_inv (gf_init dataSource).
Proof. split; [constructor|done]. Qed.

Lemma gf_step_inv e s s' :
  gf_step fuse_search dataSource columns e s s' -> gf_inv s -> gf_inv s'.
Proof.
  destruct 1 as [v s|s Hp]; intros [Hne Hlast].
  - unfold gf_search_effect. case_bool_decide; [done|].
    unfold onSearchChange; simpl. case_bool_decide as Hv.
    + split; [done|]. simpl. intros v' [= <-] Hv'. done.
    + split; [by apply Forall_app; split; [|constructor]|]. simpl.
      intros v' [= <-] _. left. by rewrite last_snoc.
  - unfold resume. destruct (pending s) as [|v rest] eqn:Hps; [done|]. simpl.
    apply Forall_cons in Hne as [_ Hne]. split; [done|].
    intros v' Hd Hv'. destruct (Hlast v' Hd Hv') as [Hl|[[=] _]].
    destruct rest as [|w rest]; simpl in Hl.
    + injection Hl as ->. by right.
    + left. done.
Qed.

Lemma gf_trace_inv es s :
  trace (gf_step fuse_search dataSource columns) es (gf_init dataSource) s -> gf_inv s.
Proof.
  intros Htr. eapply trace_ind_inv; [|exact Htr|apply gf_init_inv].
  intros e s1 s2. apply gf_step_inv.
Qed.

End Invariant.

(** ** Properties *)

(** [isDate] loops over eight formats but never uses them: it is
    [true] exactly when the host parses the normalised input as a date. *)
Theorem isDate_single_parse `{JsHost} input :
  isDate input = negb (isNaN (host_parse_date (normalize_date input))).
Proof.
  unfold isDate. apply existsb_const_true; [done|].
  intros format Hf. by apply bool_decide_true.
Qed.

(** C11: once no call of [onSearchChange] is suspended, and the last
    debounced text is not empty, the grid shows the Fuse.js results for
    that text: the suspended calls complete in the order they were made. *)
Theorem gf_last_search_shown fuse_search dataSource columns es s v :
  trace (gf_step fuse_search dataSource columns) es (gf_init dataSource) s ->
  pending s = [] -> debounced s = Some v -> v <> [] ->
  visibleData s = fuse_search dataSource (searchableColumns columns) v.
Proof.
  intros Htr Hp Hd Hv. destruct (gf_trace_inv fuse_search dataSource columns es s Htr) as [_ Hlast].
  destruct (Hlast v Hd Hv) as [Hl|[_ ?]]; [|done]. by rewrite Hp in Hl.
Qed.

(** Resuming the suspended calls one after the other until none is left
    shows the results of the last of them, and leaves the debounced text
    alone. *)
Lemma resumes_show_last fuse_search dataSource columns es s s' v :
  Forall (eq Resume) es -> trace (gf_step fuse_search dataSource columns) es s s' ->
  pending s' = [] -> last (pending s) = Some v ->
  visibleData s' = fuse_search dataSource (searchableColumns columns) v /\ debounced s' = debounced s.
Proof.
  intros Hall Htr. revert Hall.
  induction Htr as [s|e es s1 s2 s3 Hst Htr IH]; intros Hall Hp Hl; [by rewrite Hp in Hl|].
  apply Forall_cons in Hall as [<- Hall]. inversion Hst as [|s0 Hne]; subst.
  unfold resume in *. destruct (pending s1) as [|w rest] eqn:Hps; [done|].
  destruct rest as [|w' rest].
  - injection Hl as ->. inversion Htr as [|e' es' t1 t2 t3 Hst' _]; subst; [done|].
    apply Forall_cons in Hall as [<- _]. by inversion Hst'.
  - destruct (IH Hall Hp Hl) as [Hv Hd]. by rewrite Hd.
Qed.

(** C10: clearing the search box while a search is suspended leaves stale
    results on screen, in every execution: from any state with a
    suspended call (the grid reaches one with the first non-empty text),
    once the empty text is debounced and the suspended
    calls have all completed, the box is empty while the grid shows the
    Fuse.js results for the last text searched, not the data source that
    the empty text showed for a moment. *)
Theorem gf_clear_race fuse_search dataSource columns s v es' s' :
  last (pending s) = Some v ->
  trace (gf_step fuse_search dataSource columns) (Debounced [] :: es') s s' ->
  Forall (eq Resume) es' -> pending s' = [] ->
  debounced s' = Some [] /\ visibleData s' = fuse_search dataSource (searchableColumns columns) v.
Proof.
  intros Hl Htr Hall Hp. apply trace_cons_inv in Htr as (s1 & Hst & Htr).
  inversion Hst; subst.
  assert (Hs1 : pending (gf_search_effect dataSource [] s) = pending s /\
                debounced (gf_search_effect dataSource [] s) = Some [] \/
                gf_search_effect dataSource [] s = s /\ debounced s = Some []).
  { unfold gf_search_effect. case_bool_decide as Hd; [by right|left].
    unfold onSearchChange. by rewrite bool_decide_true. }
  destruct Hs1 as [[Hps Hd]|[Heq Hd]].
  - rewrite <- Hps in Hl. destruct (resumes_show_last _ _ _ _ _ _ v Hall Htr Hp Hl) as [Hv Hd'].
    by rewrite Hd', Hd.
  - rewrite Heq in Htr. destruct (resumes_show_last _ _ _ _ _ _ v Hall Htr Hp Hl) as [Hv Hd'].
    by rewrite Hd', Hd.
Qed.

Section Witnesses.
#[local] Existing Instance sample_host.

(** A search that keeps the records holding the text in a field. *)
Definition sample_fuse (data : list datum) (keys : list value) (v : jstr) : list datum :=
  List.filter (fun r => existsb (fun kv => includes (to_string kv.2) v) r) data.

Definition sample_data : list datum :=
  [[(str "name", VStr (str "Alice"))]; [(str "name", VStr (str "Bob"))]].

Lemma gf_last_search_shown_witness :
  visibleData (resume sample_fuse sample_data []
                 (gf_search_effect sample_data (str "Bob") (gf_init sample_data))) =
  sample_fuse sample_data (searchableColumns []) (str "Bob").
Proof.
  apply (gf_last_search_shown sample_fuse sample_data [] [Debounced (str "Bob"); Resume]);
    [|reflexivity|reflexivity|discriminate].
  econstructor; [constructor|]. econstructor; [constructor; discriminate|]. constructor.
Defined.

Lemma gf_clear_race_witness :
  debounced (resume sample_fuse sample_data [] (gf_search_effect sample_data []
               (gf_search_effect sample_data (str "Bob") (gf_init sample_data)))) = Some [] /\
  visibleData (resume sample_fuse sample_data [] (gf_search_effect sample_data []
               (gf_search_effect sample_data (str "Bob") (gf_init sample_data)))) =
    sample_fuse sample_data (searchableColumns []) (str "Bob").
Proof.
  apply (gf_clear_race sample_fuse sample_data []
           (gf_search_effect sample_data (str "Bob") (gf_init sample_data)) (str "Bob") [Resume]).
  - reflexivity.
  - econstructor; [constructor|]. econstructor; [constructor; discriminate|]. constructor.
  - repeat constructor.
  - reflexivity.
Defined.

End Witnesses.
