(* ===== verification/Presentational.v ===== *)
(** * Presentational: the small components of the library

    Models, as functions from props (and their one piece of state, where
    they have one) to what they render:
    - [Button] of [components/Button/index.tsx] and its three bases;
    - [DataGridCheckbox] of [components/Checkbox/index.tsx] and the effect
      that sets the DOM input's [indeterminate];
    - [Switch] of [components/Toggle/index.tsx];
    - [ToolTip] of [components/ToolTip/index.tsx];
    - [ChildrenModal] of [components/ChildrenModal/index.tsx], with the
      propagation of a click through its two nested [div]s;
    - [Modal] of [DataGrid/lib/components/ui/Modal.tsx], with its
      [isOpen] hook and its two handlers;
    - [MenuHelper] of [DataGrid/lib/components/ui/ColumnMenu.tsx].

    Spreading [{...props}] after a literal attribute lets the prop win:
    a given [className] replaces the component's own. *)

From stdpp Require Import base list strings.
From Stdlib Require Import Ascii ZArith.
From S2P Require Import Prelude JsString JsValue Colors.

(** ** [Button] *)

Record button_props := mk_button_props {
  b_variant : jstr;
  b_type : option jstr;            (** [type = 'button'] *)
  b_className : option jstr        (** a [className] in the spread [props] *)
}.

(** A rendered [<button>]: its [type] attribute, when set, and its class. *)
Record button_el := mk_button_el { be_type : option jstr; be_class : jstr }.

(** [className="..." {...props}] *)
Definition spread_class (base : jstr) (p : button_props) : jstr := default base (b_className p).

Definition BaseButton (p : button_props) : button_el :=
  mk_button_el None (spread_class (str "btn-primary") p).

Definition tertiary_class : jstr :=
  str "flex items-center gap-2 px-1 py-2 text-center border rounded-lg hover:shadow-lg bg-gray-50 border-primary-500 text-dark-400 text-body-3".

Definition BaseButtonTeritary (p : button_props) : button_el :=
  mk_button_el None (spread_class tertiary_class p).

Definition BaseButtonLink (p : button_props) : button_el :=
  mk_button_el None (spread_class (str "px-6 py-4 text-center bg-transparent border border-transparent rounded-lg hover:shadow-lg text-primary-500 text-body-2") p).

(** The fragment of five [variant === ... && ...]. *)
Definition Button (p : button_props) : list button_el :=
  let v := b_variant p in
  (if bool_decide (v = str "primary")
   then [mk_button_el (Some (default (str "button") (b_type p))) (spread_class (str "btn-primary") p)] else []) ++
  (if bool_decide (v = str "secondary") then [BaseButton p] else []) ++
  (if bool_decide (v = str "tertiary-gray") then [BaseButtonTeritary p] else []) ++
  (if bool_decide (v = str "tertiary-primary") then [BaseButtonTeritary p] else []) ++
  (if bool_decide (v = str "link") then [BaseButtonTeritary p] else []).

(** The type of a [<button>] without a [type] attribute is [submit]. *)
Definition button_type (e : button_el) : jstr := default (str "submit") (be_type e).

(** ** [DataGridCheckbox] *)

Record checkbox_props := mk_checkbox_props {
  c_indeterminate : option bool;
  c_checked : option bool          (** [checked = false] *)
}.

Inductive checkbox_icon := HiCheck | HiMinus | EmptyBox.

Definition DataGridCheckbox (p : checkbox_props) : list checkbox_icon :=
  let checked := default false (c_checked p) in
  let indeterminate := default false (c_indeterminate p) in
  (if checked then [HiCheck] else []) ++
  (if indeterminate then [HiMinus] else []) ++
  (if negb checked && negb indeterminate then [EmptyBox] else []).

(** The effect: [ref.current.indeterminate = !checked && indeterminate]
    when [indeterminate] is a boolean; the DOM property is kept otherwise. *)
Definition indeterminate_effect (p : checkbox_props) (dom : bool) : bool :=
  match c_indeterminate p with
  | Some b => negb (default false (c_checked p)) && b
  | None => dom
  end.

(** ** [Switch] *)

Record switch_view := mk_switch_view { sw_label : jstr; sw_class : jstr; sw_knob_class : jstr }.

Definition Switch (label : jstr) (checked : bool) : switch_view :=
  mk_switch_view label
    (classNames [if checked then str "bg-primary-500" else str "bg-gray-200";
                 str "relative inline-flex flex-shrink-0 h-6 w-11 border-2 border-transparent rounded-full cursor-pointer transition-colors ease-in-out duration-200 focus:outline-none "])
    (classNames [if checked then str "translate-x-5" else str "translate-x-0";
                 str "pointer-events-none inline-block h-5 w-5 rounded-full bg-white shadow transform ring-0 transition ease-in-out duration-200"]).

(** [setValue(data)]: the toggle's new state goes to [onChange]. *)
Definition Switch_setValue (data : bool) : list bool := [data].

(** ** [ToolTip] *)

Record tooltip_view := mk_tooltip_view {
  tt_strategy : option jstr;
  tt_postion : jstr;               (** the attribute [data-tooltip-postion] *)
  tt_anchor_id : jstr;             (** [data-tooltip-id] of the anchor *)
  tt_tooltip_id : jstr;            (** [id] of the [Tooltip] *)
  tt_content : jstr
}.

(** [useId()] is the input [id]. *)
Definition ToolTip (content : jstr) (strategy postion : option jstr) (id : jstr) : tooltip_view :=
  mk_tooltip_view strategy (default (str "bottom") postion)
    (str "my-tooltip-" ++ id) (str "my-tooltip-" ++ id) content.

(** ** [ChildrenModal] *)

Record children_modal_props := mk_children_modal_props {
  cm_isOpen : bool;
  cm_height : option jsnum;        (** [height?: number | null] *)
  cm_width : option jsnum
}.

Definition opt_num_truthy (o : option jsnum) : bool :=
  match o with Some n => truthy (VNum n) | None => false end.

Record children_modal_view := mk_children_modal_view {
  cmv_open : bool;
  cmv_class : jstr;
  cmv_style : option (jstr * jstr)  (** [width], [height] *)
}.

Definition ChildrenModal (p : children_modal_props) : children_modal_view :=
  let sized := opt_num_truthy (cm_height p) && opt_num_truthy (cm_width p) in
  mk_children_modal_view (cm_isOpen p)
    (if sized then str "card overflow-scroll" else str "flex card w-10/12 h-[800px]")
    (if sized then Some (number_to_string (default NaN (cm_width p)) ++ str "px",
                         number_to_string (default NaN (cm_height p)) ++ str "px")
     else None).

(** A click handler: whether it stops the propagation, and the calls of
    [setIsOpen] it makes. *)
Record click_handler := mk_click_handler { h_stop : bool; h_calls : list bool }.

(** The handlers a click meets from its target up, until one stops it. *)
Fixpoint dispatch (path : list click_handler) : list bool :=
  match path with
  | [] => []
  | h :: rest => h_calls h ++ (if h_stop h then [] else dispatch rest)
  end.

Inductive modal_target := OverlayDiv | PanelDiv.

(** The outer [div]: [onClick={() => setIsOpen(false)}]; the panel:
    [onClick={(e) => e.stopPropagation()}]. *)
Definition overlay_handler : click_handler := mk_click_handler false [false].
Definition panel_handler : click_handler := mk_click_handler true [].

Definition click_path (t : modal_target) : list click_handler :=
  match t with
  | OverlayDiv => [overlay_handler]
  | PanelDiv => [panel_handler; overlay_handler]
  end.

(** ** [Modal] *)

Record modal_props := mk_modal_props {
  m_onOpen : bool;                 (** the callbacks are given *)
  m_onClose : bool;
  m_title : jstr;
  m_subTitle : option jstr
}.

Inductive modal_call := OnOpen | OnClose.

(** [openModal]: [setIsOpen(true)], then [onOpen && onOpen()]. *)
Definition openModal (p : modal_props) : bool * list modal_call :=
  (true, if m_onOpen p then [OnOpen] else []).

(** [closeModal]: [setIsOpen(false)], then [onClose && onClose()]. *)
Definition closeModal (p : modal_props) : bool * list modal_call :=
  (false, if m_onClose p then [OnClose] else []).

(** The events: a click on the modal's button, which the open dialog
    covers; the dialog's [onClose] (Escape, a click outside the panel) and
    its Close button, both [closeModal]. *)
Inductive modal_event := ClickModalButton | DialogOnClose | ClickCloseButton.

Inductive modal_step (p : modal_props) : modal_event -> bool * list modal_call -> bool * list modal_call -> Prop :=
  | modal_open calls :
      modal_step p ClickModalButton (false, calls) ((openModal p).1, calls ++ (openModal p).2)
  | modal_dialog_close calls :
      modal_step p DialogOnClose (true, calls) ((closeModal p).1, calls ++ (closeModal p).2)
  | modal_close_button calls :
      modal_step p ClickCloseButton (true, calls) ((closeModal p).1, calls ++ (closeModal p).2).

Record modal_view := mk_modal_view {
  mv_button : bool;                (** the button with [ModalButton] *)
  mv_panel : option (jstr * option jstr * list button_el)  (** title, subtitle, Close *)
}.

Definition Modal (p : modal_props) (isOpen : bool) : modal_view :=
  mk_modal_view true
    (if isOpen
     then Some (m_title p, m_subTitle p, Button (mk_button_props (str "tertiary-primary") None None))
     else None).

(** ** [MenuHelper] *)

Definition menu_button_class (active : bool) : jstr :=
  (if active then str " border-l-4 border-secondary-400 " else str "border-l-4 border-transparent") ++
  str " text-gray-900 group flex w-full items-center justify-between  p-2 text-sm ".

(** The items, each with its class; [active] is the item under the
    pointer, as [Menu.Item] reports it. *)
Definition MenuHelper (menuItems : list jstr) (active : option nat) : list (jstr * jstr) :=
  imap (fun i name => (name, menu_button_class (bool_decide (active = Some i)))) menuItems.

(** ** Lemmas *)

(** A click inside the panel never closes the [ChildrenModal]; a click on
    the overlay does. *)
Lemma ChildrenModal_click_panel : dispatch (click_path PanelDiv) = [].
Proof. reflexivity. Qed.

Lemma ChildrenModal_click_overlay : dispatch (click_path OverlayDiv) = [false].
Proof. reflexivity. Qed.

(** Checked and indeterminate at once, the checkbox shows both icons while
    the DOM input is not indeterminate. *)
Lemma DataGridCheckbox_both dom :
  DataGridCheckbox (mk_checkbox_props (Some true) (Some true)) = [HiCheck; HiMinus] /\
  indeterminate_effect (mk_checkbox_props (Some true) (Some true)) dom = false.
Proof. done. Qed.

(** ** Properties *)

(** [Button] forwards [type] only for the ['primary'] variant: a
    ['secondary'], ['tertiary-gray'], ['tertiary-primary'] or ['link']
    button renders without a [type] attribute, so it submits the form it
    sits in even when [type="button"] is passed; ['secondary'] renders
    with the class of ['primary'], and ['link'] as ['tertiary-primary']
    ([BaseButtonLink] is never rendered). *)
Theorem Button_variants ty cls :
  (forall v, v ∈ str <$> ["secondary"; "tertiary-gray"; "tertiary-primary"; "link"]%string ->
     exists e, Button (mk_button_props v ty cls) = [e] /\ button_type e = str "submit") /\
  be_class <$> Button (mk_button_props (str "secondary") ty cls) =
    be_class <$> Button (mk_button_props (str "primary") ty cls) /\
  Button (mk_button_props (str "link") ty cls) = Button (mk_button_props (str "tertiary-primary") ty cls).
Proof.
  split; [|done].
  intros v Hv. repeat (apply elem_of_cons in Hv as [->|Hv]; [by eexists|]).
  by apply not_elem_of_nil in Hv.
Qed.
