(* ===== verification/ComponentTests.v ===== *)
(** * ComponentTests: the three component tests of the repository

    Models [Checkbox/Checkbox.test.tsx], [ChildrenModal/ChildrenModal.test.tsx]
    and [Toggle/Toggle.test.tsx] of [src/src/components].  Each renders a
    component with Testing Library and makes one query or assertion; the
    model renders the component to a DOM tree ([node]) and runs the query
    on it.  [getByTestId] throws when no element carries the
    [data-testid]; jest-dom's [toBeInTheDocument] throws when its subject
    is not an element.

    The [Dialog] of Headless UI that [ChildrenModal] renders is a
    library: it is a section variable from the [open] prop and the
    children to the nodes it mounts, of which the hypothesis
    [Dialog_no_testid] only says that it adds no [data-testid] of its
    own. *)

From stdpp Require Import base list strings.
From Stdlib Require Import Ascii ZArith.
From S2P Require Import Prelude JsString JsValue Presentational.

(** ** A DOM tree and the queries of the tests *)

Inductive node := Elem (tag : jstr) (attrs : list (jstr * jstr)) (children : list node) | Text (s : jstr).

(** The [data-testid] values of a tree, in document order. *)
Fixpoint testids (n : node) : list jstr :=
  match n with
  | Elem _ attrs children =>
      (snd <$> List.filter (fun a => bool_decide (a.1 = str "data-testid")) attrs) ++
      (fix go (l : list node) : list jstr :=
         match l with [] => [] | c :: l' => testids c ++ go l' end) children
  | Text _ => []
  end.

Definition testids_of (ns : list node) : list jstr := mjoin (testids <$> ns).

(** [screen.getByTestId(id)] *)
Definition getByTestId (ns : list node) (id : jstr) : except jstr :=
  if bool_decide (id ∈ testids_of ns) then Ok id
  else Throw (Error (str "Unable to find an element by: [data-testid=" ++ id ++ str "]")).

(** What [expect(x)] receives: a DOM element or what [render] returns. *)
Inductive subject := SElement (n : node) | SRenderResult.

(** [expect(x).toBeInTheDocument()] on a rendered element. *)
Definition toBeInTheDocument (x : subject) : except unit :=
  match x with
  | SElement _ => Ok tt
  | SRenderResult => Throw (Error (str "received value must be an HTMLElement or an SVGElement."))
  end.

(** ** The rendered components *)

Definition icon (name cls : jstr) : node := Elem (str "svg") [(str "class", cls); (str "data-icon", name)] [].

(** [DataGridCheckbox] of [Checkbox/index.tsx]: the icons it shows (the
    model [DataGridCheckbox] of [Presentational]) inside the [label],
    then the hidden input. *)
Definition Checkbox_dom (p : checkbox_props) : node :=
  Elem (str "label") [(str "class", str "flex items-center justify-center w-5 h-5 cursor-pointer ")]
    (((fun i => match i with
               | HiCheck => icon (str "HiCheck") (str "w-5 h-5 text-white border rounded-md bg-primary-500 border-primary-500 drop-shadow")
               | HiMinus => icon (str "HiMinus") (str "w-5 h-5 text-white border rounded-md shadow bg-fenrir border-fenrir")
               | EmptyBox => Elem (str "div") [(str "class", str "w-5 h-5 border rounded-md shadow border-dark-200")] []
               end) <$> DataGridCheckbox p) ++
     [Elem (str "input") [(str "type", str "checkbox"); (str "class", str "hidden")] []]).

Section Modal.
Variable Dialog : option bool -> list node -> list node.
Hypothesis Dialog_no_testid : forall o ns, testids_of (Dialog o ns) ⊆ testids_of ns.

(** [ChildrenModal]'s tree inside the [Dialog]: the overlay, the outer
    [div] and the panel, with no [data-testid]. *)
Definition ChildrenModal_dom (isOpen : option bool) (p : children_modal_props) : list node :=
  Dialog isOpen
    [Elem (str "div") [(str "class", str "fixed inset-0 bg-black opacity-30")] [];
     Elem (str "div") [(str "class", str "fixed inset-0 transition-opacity")]
       [Elem (str "div") [(str "class", str "flex items-center justify-center min-h-screen")]
          [Elem (str "div") [(str "role", str "dialog"); (str "aria-modal", str "true");
                             (str "aria-labelledby", str "modal-headline");
                             (str "class", cmv_class (ChildrenModal p))] []]]].

(** [render(<ChildrenModal />); screen.getByTestId('ChildrenModal')]:
    every prop is [undefined]. *)
Definition ChildrenModal_test : except jstr :=
  getByTestId (ChildrenModal_dom None (mk_children_modal_props false None None)) (str "ChildrenModal").

End Modal.

(** [render(<Checkbox />); expect(screen.getByTestId('Checkbox')).toBeInTheDocument()] *)
Definition Checkbox_test : except unit :=
  _ <- getByTestId [Checkbox_dom (mk_checkbox_props None None)] (str "Checkbox") ;;
  toBeInTheDocument (SElement (Checkbox_dom (mk_checkbox_props None None))).

(** [const toggle = render(<Toggle checked={true} />); expect(toggle).toBeInTheDocument()] *)
Definition Toggle_test : except unit := toBeInTheDocument SRenderResult.

(** ** Properties *)

(** None of the three tests can pass: the checkbox and the modal render
    no element with the [data-testid] they query (the only one in the
    library is the grid's), and the toggle test asserts on the object
    [render] returns, not on an element. *)
Lemma component_tests_fail Dialog :
  (forall o ns, testids_of (Dialog o ns) ⊆ testids_of ns) ->
  is_ok Checkbox_test = false /\ is_ok (ChildrenModal_test Dialog) = false /\ is_ok Toggle_test = false.
Proof.
  intros HD. split_and!; [reflexivity| |reflexivity].
  unfold ChildrenModal_test, getByTestId. rewrite bool_decide_false; [done|].
  intros Hin. apply HD in Hin. revert Hin. vm_compute. by intros ?%elem_of_nil.
Qed.
