(* ===== verification/SmallStories.v ===== *)
(** * SmallStories: the stories of the button, the checkbox, the switch and the modal

    Models [Button/Button.stories.tsx] (the [render] of [meta], which
    mounts the button under a [ThemeProvider], and the args of its four
    stories), [Checkbox/Checkbox.stories.tsx] and
    [Toggle/Toggle.stories.tsx] (a [useState(false)] flipped by the
    component's [onChange], with a text that follows it) and
    [ChildrenModal/ChildrenModal.stories.tsx] (a closed modal whose
    [setIsOpen] throws).  The components are those of [Presentational]
    and, for the checkbox's markup, of [ComponentTests]; the theme is that
    of [Theme].

    The hidden [<input>] of the checkbox sits in its [<label>]: a click on
    the label toggles it and fires [onChange].  The Headless UI [Switch]
    calls [onChange(!checked)] on a click. *)

From stdpp Require Import base list strings.
From Stdlib Require Import Ascii ZArith.
From S2P Require Import Prelude JsString JsValue Colors Theme Presentational ComponentTests.

(** ** The button stories *)

(** [meta.render]: [<ThemeProvider><Button {...args} /></ThemeProvider>]
    on the document's style: the style the provider leaves and the
    buttons rendered. *)
Definition Button_render (args : button_props) (st : style) : except (style * list button_el) :=
  p <- ThemeProvider st ;; Ok (p.2, Button args).

(** The args of [Primary], [Secondary], [Tertiary] and [TertiaryWithIcon];
    their [children] are text or icons, which the model of [Button] does
    not carry. *)
Definition Primary : button_props := mk_button_props (str "primary") None None.
Definition Secondary : button_props := mk_button_props (str "secondary") None None.
Definition Tertiary : button_props := mk_button_props (str "tertiary-primary") None None.
Definition TertiaryWithIcon : button_props := mk_button_props (str "tertiary-gray") None None.

(** ** The checkbox story *)

(** [handleChange]: [setChecked(!checked)]. *)
Definition handleChange (checked : bool) : bool := negb checked.

(** The render of [Default]: the checkbox, then [{' '}], the text and
    [{' '}]; [useTheme()] is read outside any provider and its value is
    unused. *)
Definition Checkbox_story (checked : bool) : list node :=
  [Checkbox_dom (mk_checkbox_props None (Some checked)); Text (str " ");
   Text (if checked then str "Checked" else str "Unchecked"); Text (str " ")].

(** ** The switch story *)

(** A click on the switch: Headless UI calls [onChange(!checked)], which
    [setValue] passes on; the story's [() => setChecked(!checked)]
    ignores its argument and flips the [checked] of its render. *)
Definition switch_click (checked : bool) : bool :=
  foldl (fun c _ => negb checked) checked (Switch_setValue (negb checked)).

(** The render: the switch labelled ["label"] and one [<div>] of text,
    the other operand of [&&] being [false], which React does not show. *)
Definition Switch_story (checked : bool) : switch_view * list node :=
  (Switch (str "label") checked,
   (if checked then [Elem (str "div") [] [Text (str "Checked")]] else []) ++
   (if negb checked then [Elem (str "div") [] [Text (str "Unchecked")]] else [])).

(** ** The modal story *)

Definition ChildrenModal_story_props : children_modal_props := mk_children_modal_props false None None.

(** The story's [setIsOpen]. *)
Definition story_setIsOpen (v : bool) : except unit := Throw (Error (str "Function not implemented.")).

(** ** Properties *)

(** A state flipped by each click is on after an odd number of clicks. *)
Lemma iter_flip (f : bool -> bool) n : (forall b, f b = negb b) -> Nat.iter n f false = Nat.odd n.
Proof.
  intros Hf. induction n as [|n IH]; [done|].
  by rewrite Nat.iter_succ, IH, Hf, Nat.odd_succ, <- Nat.negb_odd.
Qed.

(** The four button stories show three looks, all under the palette the
    provider writes: [Secondary] looks like [Primary], [Tertiary] like
    [TertiaryWithIcon], and every story but [Primary] renders a [submit]
    button. *)
Lemma button_stories_render st :
  let st' := foldl (fun st '(k, v) => setProperty k v st) st palette_css in
  Button_render Primary st = Ok (st', [mk_button_el (Some (str "button")) (str "btn-primary")]) /\
  Button_render Secondary st = Ok (st', [mk_button_el None (str "btn-primary")]) /\
  Button_render Tertiary st = Ok (st', [mk_button_el None tertiary_class]) /\
  Button_render TertiaryWithIcon st = Ok (st', [mk_button_el None tertiary_class]).
Proof. unfold Button_render, ThemeProvider. rewrite generateTheme_eq. split_and!; reflexivity. Qed.

(** After [n] clicks the checkbox story shows the check icon and
    ["Checked"] when [n] is odd, the empty box and ["Unchecked"] when it
    is even: the icon and the text never disagree. *)
Lemma checkbox_story_clicks n :
  let checked := Nat.iter n handleChange false in
  checked = Nat.odd n /\
  DataGridCheckbox (mk_checkbox_props None (Some checked)) = [if Nat.odd n then HiCheck else EmptyBox] /\
  Checkbox_story checked !! 2%nat = Some (Text (if Nat.odd n then str "Checked" else str "Unchecked")).
Proof.
  simpl. rewrite (iter_flip handleChange n) by done. by destruct (Nat.odd n).
Qed.

(** The same for the switch story: after [n] clicks the switch is on, in
    the primary colour with its knob to the right, and the text reads
    ["Checked"], exactly when [n] is odd. *)
Lemma switch_story_clicks n :
  let checked := Nat.iter n switch_click false in
  checked = Nat.odd n /\
  Switch_story checked =
    (Switch (str "label") (Nat.odd n),
     [Elem (str "div") [] [Text (if Nat.odd n then str "Checked" else str "Unchecked")]]).
Proof.
  simpl. rewrite (iter_flip switch_click n) by done. by destruct (Nat.odd n).
Qed.

(** The modal story renders a closed modal; a call of its [setIsOpen],
    as a click on the overlay would make, throws. *)
Lemma ChildrenModal_story_closed :
  cmv_open (ChildrenModal ChildrenModal_story_props) = false /\
  js_foreach (fun _ v => story_setIsOpen v) tt (dispatch (click_path OverlayDiv)) =
    Throw (Error (str "Function not implemented.")).
Proof. split; reflexivity. Qed.
