(* ===== verification/ColumnManager.v ===== *)
(** * ColumnManager: the modal that shows and hides columns

    Models the component [ColumnManager] of
    [src/src/components/DataGrid/lib/components/ColumnManager.tsx] beyond
    the two lists [Columns] holds ([column_tags], [manageableColumns]):
    its hooks ([searchText], [haveColumnsBeenAdded], and the tags, which a
    [useMemo] with no dependencies computes once at mount), the [Modal]
    it opens ([Presentational]), and what the modal shows: the section
    "Default Columns" and one section per tag, each column with a lock or
    a checkbox bound to TanStack's visibility of the column.

    The visibility state is TanStack's [VisibilityState] (a column is
    visible unless set to [false]); a checkbox's [onChange] is
    [column.getToggleVisibilityHandler()], which sets the column's
    visibility to the checkbox's new [checked]. *)

From stdpp Require Import base list strings.
From Stdlib Require Import Ascii ZArith.
From S2P Require Import Prelude JsString JsValue Columns Presentational.

Record cm_state := mk_cm {
  searchText : jstr;               (** [useState('')]; nothing calls [setSearchText] *)
  haveColumnsBeenAdded : bool;
  modalOpen : bool;                (** the [isOpen] hook of the [Modal] *)
  tags : list value;               (** the [useMemo] of mount *)
  columnVisibility : list (jstr * bool)
}.

Definition cm_init (columns : list column) (vis : list (jstr * bool)) : cm_state :=
  mk_cm [] false false (column_tags columns) vis.

(** [column.getIsVisible()] *)
Definition is_visible (vis : list (jstr * bool)) (id : jstr) : bool :=
  match List.find (fun p => bool_decide (p.1 = id)) vis with Some (_, b) => b | None => true end.

(** [column.toggleVisibility(checked)] *)
Definition set_visibility (id : jstr) (b : bool) (vis : list (jstr * bool)) : list (jstr * bool) :=
  (id, b) :: List.filter (fun p => negb (bool_decide (p.1 = id))) vis.

(** The [Modal]'s [openModal] with the manager's [onOpen]. *)
Definition cm_open (s : cm_state) : cm_state :=
  mk_cm (searchText s) (if haveColumnsBeenAdded s then haveColumnsBeenAdded s else true)
    true (tags s) (columnVisibility s).

Definition cm_close (s : cm_state) : cm_state :=
  mk_cm (searchText s) (haveColumnsBeenAdded s) false (tags s) (columnVisibility s).

(** A click on a column's checkbox, which shows its visibility. *)
Definition cm_toggle (id : jstr) (s : cm_state) : cm_state :=
  mk_cm (searchText s) (haveColumnsBeenAdded s) (modalOpen s) (tags s)
    (set_visibility id (negb (is_visible (columnVisibility s) id)) (columnVisibility s)).

Inductive cm_control := Lock | VisibilityBox (checked : bool).

Record cm_entry := mk_cm_entry { ce_id : jstr; ce_header : value; ce_control : cm_control }.

Definition cm_entry_of (vis : list (jstr * bool)) (c : column) : cm_entry :=
  mk_cm_entry (col_id c) (col_header c)
    (if truthy (meta_get c m_locked) then Lock else VisibilityBox (is_visible vis (col_id c))).

Record cm_view := mk_cm_view {
  cmv_label : jstr;                                         (** the button's text *)
  cmv_default : option (list cm_entry);                     (** "Default Columns" *)
  cmv_sections : option (list (value * list cm_entry))      (** "Other Columns", by tag *)
}.

Section Manager.
Context `{JsHost}.
Variable js_sort : (column -> column -> Z) -> list column -> list column.

(** [{column.columnDef.meta?.tag === undefined && !column.columnDef.meta?.searchable ? ... : null}] *)
Definition in_default (c : column) : bool :=
  strict_eq (meta_get c m_tag) VUndef && negb (truthy (meta_get c m_searchable)).

Definition ColumnManager (columns : list column) (s : cm_state) : cm_view :=
  let manageable := manageableColumns js_sort (searchText s) columns in
  let entry := cm_entry_of (columnVisibility s) in
  mk_cm_view
    (if haveColumnsBeenAdded s then str "Manage Columns" else str "Add Columns")
    (if modalOpen s then Some (entry <$> List.filter in_default manageable) else None)
    (if modalOpen s
     then Some ((fun t => (t, entry <$> List.filter (fun c => strict_eq (meta_get c m_tag) t) manageable))
                <$> tags s)
     else None).

(** The modal's button while it is closed, its dialog's close, a click on
    a rendered checkbox. *)
Inductive cm_event := OpenManager | CloseManager | ToggleColumn (id : jstr).

Inductive cm_step (columns : list column) : cm_event -> cm_state -> cm_state -> Prop :=
  | cm_step_open s : modalOpen s = false -> cm_step columns OpenManager s (cm_open s)
  | cm_step_close s : modalOpen s = true -> cm_step columns CloseManager s (cm_close s)
  | cm_step_toggle c s :
      modalOpen s = true -> c ∈ columns -> truthy (meta_get c m_locked) = false ->
      cm_step columns (ToggleColumn (col_id c)) s (cm_toggle (col_id c) s).

End Manager.

(** The entries the open modal shows, both parts together. *)
Definition cm_entries (v : cm_view) : list cm_entry :=
  default [] (cmv_default v) ++ mjoin (snd <$> default [] (cmv_sections v)).

(** ** Lemmas *)

Lemma indexOf_str l x :
  VStr x ∈ l -> exists i, indexOf l (VStr x) = Some i /\ l !! i = Some (VStr x).
Proof.
  induction l as [|y l IH]; intros Hin; [by apply not_elem_of_nil in Hin|]. simpl.
  destruct (strict_eq y (VStr x)) eqn:Hy.
  - apply strict_eq_true in Hy as [->|(? & ? & ? & _ & [=])]. by exists 0.
  - apply elem_of_cons in Hin as [<-|Hin].
    + simpl in Hy. by rewrite bool_decide_true in Hy.
    + destruct (IH Hin) as (i & -> & Hi). by exists (S i).
Qed.

(** A string tag survives the de-duplication by [indexOf]. *)
Lemma dedup_by_index_str l x : VStr x ∈ l -> VStr x ∈ dedup_by_index l.
Proof.
  intros Hin. destruct (indexOf_str l x Hin) as (i & Hidx & Hi).
  unfold dedup_by_index. apply list_elem_of_fmap. exists (i, VStr x). split; [done|].
  apply list_elem_of_In, filter_In. split.
  - apply list_elem_of_In, list_elem_of_lookup. exists i. by rewrite list_lookup_imap, Hi.
  - by apply bool_decide_true.
Qed.

Lemma dedup_by_index_sub l y : y ∈ dedup_by_index l -> y ∈ l.
Proof.
  unfold dedup_by_index. intros ([i z] & -> & Hp)%list_elem_of_fmap.
  apply list_elem_of_In, filter_In in Hp as [Hp _]. apply list_elem_of_In, list_elem_of_lookup in Hp as [j Hj].
  rewrite list_lookup_imap in Hj. destruct (l !! j) eqn:Hl; [|done]. injection Hj as <- <-.
  by eapply list_elem_of_lookup_2.
Qed.

Lemma column_tags_defined cols t : t ∈ column_tags cols -> t <> VUndef.
Proof.
  unfold column_tags. intros Ht%dedup_by_index_sub ->.
  apply list_elem_of_In, filter_In in Ht as [_ Ht]. done.
Qed.

(** A column with a string tag has a section. *)
Lemma column_tags_str cols c x :
  c ∈ cols -> meta_get c m_tag = VStr x -> VStr x ∈ column_tags cols.
Proof.
  intros Hc Ht. apply dedup_by_index_str. apply list_elem_of_In, filter_In. split; [|done].
  apply list_elem_of_In, list_elem_of_fmap. by exists c.
Qed.

Lemma fmap_inj_elem {A B} (f : A -> B) (l : list A) x y :
  NoDup (f <$> l) -> x ∈ l -> y ∈ l -> f x = f y -> x = y.
Proof.
  induction l as [|z l IH]; intros Hnd Hx Hy Hf; [by apply not_elem_of_nil in Hx|].
  rewrite fmap_cons, NoDup_cons in Hnd. destruct Hnd as [Hz Hnd].
  apply elem_of_cons in Hx as [->|Hx], Hy as [->|Hy]; try done.
  - destruct Hz. rewrite Hf. by apply list_elem_of_fmap_2.
  - destruct Hz. rewrite <- Hf. by apply list_elem_of_fmap_2.
  - by apply IH.
Qed.

Section Proofs.
Context `{JsHost}.
Variable js_sort : (column -> column -> Z) -> list column -> list column.
Hypothesis js_sort_perm : forall cmp l, Permutation (js_sort cmp l) l.

Lemma manageable_no_search cols c :
  c ∈ manageableColumns js_sort [] cols <->
  c ∈ cols /\ strict_eq (meta_get c m_manageable) (VBool false) = false.
Proof.
  unfold manageableColumns. rewrite elem_of_filter_bool, (js_sort_perm _ _), elem_of_filter_bool.
  rewrite negb_true_iff, includes_nil. naive_solver.
Qed.

(** Nothing sets the search text, and the tags are those of mount. *)
Lemma cm_trace_inv columns vis es s :
  trace (cm_step columns) es (cm_init columns vis) s ->
  searchText s = [] /\ tags s = column_tags columns.
Proof.
  intros Htr. eapply (trace_ind_inv _ (fun s => searchText s = [] /\ tags s = column_tags columns));
    [|exact Htr|done].
  by intros e s1 s2 []; simpl.
Qed.

Lemma cm_entries_elem columns s e :
  modalOpen s = true ->
  e ∈ cm_entries (ColumnManager js_sort columns s) <->
  exists c, c ∈ manageableColumns js_sort (searchText s) columns /\ e = cm_entry_of (columnVisibility s) c /\
    (in_default c = true \/ exists t, t ∈ tags s /\ strict_eq (meta_get c m_tag) t = true).
Proof.
  intros Ho. unfold cm_entries, ColumnManager. cbn zeta. rewrite Ho. cbn [cmv_default cmv_sections default].
  set (M := manageableColumns js_sort (searchText s) columns). set (en := cm_entry_of (columnVisibility s)).
  rewrite elem_of_app, list_elem_of_join. split.
  - intros [(c & -> & (Hc & Hd)%elem_of_filter_bool)%list_elem_of_fmap|(l & He & Hl)].
    + exists c. auto.
    + apply list_elem_of_fmap in Hl as ([t l'] & -> & Htl).
      apply list_elem_of_fmap in Htl as (t' & [= -> ->] & Ht). simpl in He.
      apply list_elem_of_fmap in He as (c & -> & (Hc & Htag)%elem_of_filter_bool).
      exists c. eauto 10.
  - intros (c & Hc & -> & [Hd|(t & Ht & Htag)]).
    + left. apply list_elem_of_fmap. exists c. split; [done|]. by apply elem_of_filter_bool.
    + right. exists (en <$> List.filter (fun c => strict_eq (meta_get c m_tag) t) M). split.
      * apply list_elem_of_fmap. exists c. split; [done|]. by apply elem_of_filter_bool.
      * apply list_elem_of_fmap. eexists (t, _). split; [done|]. apply list_elem_of_fmap. by exists t.
Qed.

(** C21: once the manager is opened, a manageable column gets a control
    (its lock or its visibility checkbox) exactly when it has a tag or is
    not searchable: an untagged column with [meta.searchable] set is in
    neither the "Default Columns" section nor any tag's, so it cannot be
    shown or hidden.  The search text of the manager is never set, so
    every manageable column is listed. *)
Theorem cm_offered columns vis es s c :
  NoDup (col_id <$> columns) ->
  Forall (fun d => meta_get d m_tag = VUndef \/ exists x, meta_get d m_tag = VStr x) columns ->
  trace (cm_step columns) es (cm_init columns vis) s -> modalOpen s = true ->
  c ∈ columns -> strict_eq (meta_get c m_manageable) (VBool false) = false ->
  (cm_entry_of (columnVisibility s) c ∈ cm_entries (ColumnManager js_sort columns s) <->
   meta_get c m_tag <> VUndef \/ truthy (meta_get c m_searchable) = false).
Proof.
  intros Hnd Htags Htr Ho Hc Hm. rewrite cm_entries_elem by done.
  destruct (cm_trace_inv columns vis es s Htr) as [-> ->]. split.
  - intros (d & (Hd & _)%manageable_no_search & Heq & Hcase).
    apply (f_equal ce_id) in Heq. simpl in Heq.
    pose proof (fmap_inj_elem col_id columns c d Hnd Hc Hd Heq) as <-.
    destruct Hcase as [Hdef|(t & Ht & Htag)].
    + right. unfold in_default in Hdef. apply andb_true_iff in Hdef as [_ Hs]. by apply negb_true_iff.
    + left. intros Hu. rewrite Hu in Htag.
      apply strict_eq_true in Htag as [<-|(? & ? & ? & [=] & _)].
      by apply (column_tags_defined columns VUndef).
  - intros Hcase. exists c. split; [by apply manageable_no_search|]. split; [done|].
    rewrite Forall_forall in Htags. destruct (Htags c Hc) as [Hu|(x & Hx)].
    + left. unfold in_default. rewrite Hu. destruct Hcase as [?|Hs]; [done|]. by rewrite Hs.
    + right. exists (VStr x). split; [by apply column_tags_str with c|]. rewrite Hx. simpl.
      by apply bool_decide_true.
Qed.

End Proofs.

(** ** Witness *)

Section Witness.
#[local] Existing Instance sample_host.

Definition meta_with (tag searchable : value) : option column_meta :=
  Some (mk_meta VUndef VUndef VUndef tag VUndef searchable VUndef VUndef).

Definition sample_columns : list column :=
  [mk_column (str "name") VUndef (VStr (str "name")) (VStr (str "Name")) (meta_with VUndef VUndef);
   mk_column (str "email") VUndef (VStr (str "email")) (VStr (str "Email")) (meta_with VUndef (VBool true));
   mk_column (str "age") VUndef (VStr (str "age")) (VStr (str "Age")) (meta_with (VStr (str "Personal")) (VBool true))].

Definition email_entry : cm_entry := cm_entry_of [] (nth 1 sample_columns (mk_column [] VUndef VUndef VUndef None)).

Lemma cm_offered_witness :
  email_entry ∈ cm_entries (ColumnManager no_sort sample_columns (cm_open (cm_init sample_columns []))) <->
  VUndef <> VUndef \/ truthy (VBool true) = false.
Proof.
  apply (cm_offered no_sort (fun _ _ => reflexivity _) sample_columns [] [OpenManager]
           (cm_open (cm_init sample_columns [])) (nth 1 sample_columns (mk_column [] VUndef VUndef VUndef None))).
  - decide_by_eval.
  - do 3 (constructor; [simpl; first [left; reflexivity | right; eexists; reflexivity]|]).
    constructor.
  - econstructor; [constructor; reflexivity|]. constructor.
  - reflexivity.
  - apply list_elem_of_further, list_elem_of_here.
  - reflexivity.
Defined.

End Witness.
