(* ===== verification/Grid.v ===== *)
(** * Grid: the table the data grid renders

    Models the component [Grid] of
    [src/src/components/DataGrid/lib/components/Grid.tsx] as a function
    from its props to the rows of the [<table>] it renders.  A rendered
    row is a list of cells named by what they show: the select-all or
    row checkbox, a header or data cell by column id, the expand button
    with whether it shows "expanded"; the [Transition] row of each body
    row with whether it is shown and the row whose sub-component it
    renders; the empty-state row with its texts; a loading skeleton row.

    What TanStack computes ([getHeaderGroups], [getRowModel().rows],
    [get<Placement>VisibleCells]) is an input: the header groups of the
    placement, the rows of the current page (by their index in the
    data), and the column ids of each row's visible cells. *)

From stdpp Require Import base list strings.
From Stdlib Require Import Ascii ZArith.
From S2P Require Import Prelude JsString JsValue.

(** [emptyStateMessage]: a string, or a function and the text it renders. *)
Inductive empty_message := MsgString (s : jstr) | MsgFn (rendered : jstr).

Record grid_in := mk_grid_in {
  g_checkboxColumn : bool;
  g_headerGroups : list (list jstr);
  g_rows : list nat;                    (** [table.getRowModel().rows] *)
  g_cells : nat -> list jstr;           (** [row.get<Placement>VisibleCells()] *)
  g_expandedRow : option nat;
  g_expandColumn : bool;
  g_subComponent : bool;                (** [renderSubComponent] is given *)
  g_numberOfRows : nat;
  g_isLoading : bool;
  g_dataLength : nat;                   (** [dataSource.length] *)
  g_emptyStateMessage : option empty_message
}.

Inductive cell :=
  | SelectAllCell | HeaderCell (id : jstr) | ExpandHeaderCell
  | RowCheckbox (row : nat) | DataCell (id : jstr) (row : nat) | ExpandButton (index : nat) (expanded : bool).

Inductive grid_row :=
  | Tr (cells : list cell)
  | SubRow (index : nat) (shown : bool) (content : option nat)
  | EmptyStateRow (texts : list jstr)
  | SkeletonRow.

(** [<thead>]: one row per header group. *)
Definition grid_header (g : grid_in) : list grid_row :=
  (fun hg => Tr ((if g_checkboxColumn g then [SelectAllCell] else []) ++
                 (HeaderCell <$> hg) ++
                 (if g_expandColumn g then [ExpandHeaderCell] else []))) <$> g_headerGroups g.

(** One body row and its [Transition] row, [show={expandedRow === index}]. *)
Definition body_rows (g : grid_in) (index row : nat) : list grid_row :=
  let expanded := bool_decide (g_expandedRow g = Some index) in
  [Tr ((if g_checkboxColumn g then [RowCheckbox row] else []) ++
       ((fun id => DataCell id row) <$> g_cells g row) ++
       (if g_expandColumn g then [ExpandButton index expanded] else []));
   SubRow index expanded (if g_subComponent g then Some row else None)].

(** [{table && !isLoading && <tbody>...</tbody>}] *)
Definition grid_body (g : grid_in) : list grid_row :=
  if g_isLoading g then [] else mjoin (imap (body_rows g) (g_rows g)).

Definition default_empty_text : jstr :=
  str "Currently there is no data to display refine your query.".

(** The texts of the empty state: [emptyStateMessage] when it is a
    non-empty string, the rendered function otherwise (an empty [div]
    when there is none), then the default text when the message is
    falsy. *)
Definition empty_texts (m : option empty_message) : list jstr :=
  match m with
  | Some (MsgString s) => if bool_decide (s <> []) then [s] else [[]; default_empty_text]
  | Some (MsgFn r) => [r]
  | None => [[]; default_empty_text]
  end.

(** [{!isLoading && dataSource.length === 0 && <tr>...</tr>}] *)
Definition grid_empty (g : grid_in) : list grid_row :=
  if negb (g_isLoading g) && bool_decide (g_dataLength g = 0)
  then [EmptyStateRow (empty_texts (g_emptyStateMessage g))] else [].

(** [{isLoading && Array.from({ length: numberOfRows }).map(...)}] *)
Definition grid_loading (g : grid_in) : list grid_row :=
  if g_isLoading g then replicate (g_numberOfRows g) SkeletonRow else [].

Definition Grid (g : grid_in) : list grid_row * list grid_row :=
  (grid_header g, grid_body g ++ grid_empty g ++ grid_loading g).

(** The sub-rows a rendered table shows. *)
Definition shown_subrows (rows : list grid_row) : list (nat * option nat) :=
  omap (fun r => match r with SubRow i true c => Some (i, c) | _ => None end) rows.

(** ** Lemmas *)

Lemma shown_subrows_app r1 r2 : shown_subrows (r1 ++ r2) = shown_subrows r1 ++ shown_subrows r2.
Proof. apply omap_app. Qed.

(** The sub-rows shown by the rows of indices [k], [k + 1], ... *)
Lemma shown_subrows_from g k rows :
  shown_subrows (mjoin (imap (fun j r => body_rows g (k + j) r) rows)) =
  match g_expandedRow g with
  | Some i => if bool_decide (k <= i) then
                match rows !! (i - k) with
                | Some row => [(i, if g_subComponent g then Some row else None)]
                | None => []
                end
              else []
  | None => []
  end.
Proof.
  revert k. induction rows as [|r rows IH]; intros k.
  - simpl. destruct (g_expandedRow g) as [i|]; [|done].
    by case_bool_decide.
  - rewrite imap_cons. change (mjoin (?a :: ?l)) with (a ++ mjoin l).
    rewrite shown_subrows_app.
    rewrite (imap_ext _ (fun j r' => body_rows g (S k + j) r'))
      by (intros j r' _; unfold compose; f_equal; lia).
    rewrite IH. unfold body_rows. rewrite Nat.add_0_r. simpl.
    destruct (g_expandedRow g) as [i|] eqn:He; simpl.
    + destruct (decide (i = k)) as [->|Hik].
      * rewrite bool_decide_true by done. simpl.
        rewrite (bool_decide_false (S k <= k)) by lia. rewrite (bool_decide_true (k <= k)) by lia. rewrite Nat.sub_diag. reflexivity.
      * rewrite bool_decide_false by congruence. simpl.
        destruct (decide (k <= i)).
        -- rewrite (bool_decide_true (k <= i)) by done.
           rewrite (bool_decide_true (S k <= i)) by lia.
           replace (i - k) with (S (i - S k)) by lia. reflexivity.
        -- rewrite !bool_decide_false by lia. reflexivity.
    + reflexivity.
Qed.

(** ** Properties of the rendering *)

(** Exactly the sub-row of the expanded index is shown, when the page has
    a row at that index, and it renders that row's sub-component. *)
Lemma grid_body_subrows g :
  g_isLoading g = false ->
  shown_subrows (grid_body g) =
  match g_expandedRow g with
  | Some i => match g_rows g !! i with
              | Some row => [(i, if g_subComponent g then Some row else None)]
              | None => []
              end
  | None => []
  end.
Proof.
  intros Hl. unfold grid_body. rewrite Hl.
  change (imap (body_rows g) (g_rows g)) with (imap (fun j r => body_rows g (0 + j) r) (g_rows g)).
  rewrite shown_subrows_from.
  destruct (g_expandedRow g) as [i|]; [|done].
  rewrite bool_decide_true by lia. by rewrite Nat.sub_0_r.
Qed.

(** While loading, the body is [numberOfRows] skeleton rows and nothing
    else. *)
Lemma grid_loading_rows g :
  g_isLoading g = true -> (Grid g).2 = replicate (g_numberOfRows g) SkeletonRow.
Proof. intros Hl. unfold Grid, grid_body, grid_empty, grid_loading. by rewrite Hl. Qed.
