(* ===== verification/DataGrid.v ===== *)
(** * DataGrid: the container of the data grid

    Models the component [DataGrid] of
    [src/src/components/DataGrid/lib/index.tsx]: its props with their
    defaults, its state hooks, the guard that throws on an export without
    a table name, the effect that hides and pins columns after mount, the
    expand handler, and what it renders: the controls of the toolbar and
    the [Grid]s of the three placements.

    Two calls of the TanStack column API are used by the effect:
    [column.toggleVisibility(false)] and [column.pin('left')].  They are
    written out as TanStack defines them ([set_hidden], [pin_left]): the
    second one also turns a missing [right] list into [[]]. *)

From stdpp Require Import base list strings.
From Stdlib Require Import Ascii ZArith.
From S2P Require Import Prelude JsString JsValue Columns Grid.

(** ** Props and state *)

Inductive csv_export_type := CsvRaw | CsvFormatted.

Record grid_props := mk_grid_props {
  p_tableName : value;
  p_columns : list column;
  p_dataSource : list datum;
  p_exportToCSV : value;
  p_csvExportType : option csv_export_type;
  p_simpleSearch : value;
  p_checkboxColumn : option bool;
  p_isLoading : value;
  p_numberOfRows : option nat;
  p_callToActionText : value;
  p_callToActionOnClick : bool;      (** the handler is given *)
  p_expandColumn : value;
  p_subComponent : bool;             (** the function is given *)
  p_emptyStateMessage : option empty_message
}.

(** The defaults of the destructuring: [csvExportType = 'formatted'],
    [checkboxColumn = false], [numberOfRows = 20]; [simpleSearch] has none. *)
Definition csvExportType (p : grid_props) : csv_export_type :=
  default CsvFormatted (p_csvExportType p).
Definition checkboxColumn (p : grid_props) : bool := default false (p_checkboxColumn p).
Definition numberOfRows (p : grid_props) : nat := default 20 (p_numberOfRows p).

(** [ColumnPinningState]: each side is absent or a list of column ids. *)
Record pinning := mk_pinning { left_ids : option (list jstr); right_ids : option (list jstr) }.

Record dg_state := mk_dg {
  visibleData : list datum;
  columnVisibility : option (list (jstr * bool));
  columnPinning : pinning;
  expandedRow : option nat;
  globalSearch : jstr;
  pageIndex : nat;
  pageSize : nat
}.

(** ** TanStack's column calls *)

(** [setColumnVisibility(old => ({...old, [id]: false}))] *)
Definition set_hidden (id : jstr) (vis : option (list (jstr * bool))) : option (list (jstr * bool)) :=
  Some ((id, false) :: List.filter (fun p => negb (bool_decide (p.1 = id))) (default [] vis)).

(** [column.pin('left')] for a leaf column: the id is moved to the end of
    [left] and removed from [right]; both sides become arrays. *)
Definition pin_left (id : jstr) (pn : pinning) : pinning :=
  let drop l := List.filter (fun d => negb (bool_decide (d = id))) l in
  mk_pinning (Some (drop (default [] (left_ids pn)) ++ [id]))
             (Some (drop (default [] (right_ids pn)))).

(** ** Mount *)

(** The render guard and the initial hooks; the pagination state starts at
    page [0] with [numberOfRows] rows per page. *)
Definition dg_init (p : grid_props) : except dg_state :=
  if truthy (p_exportToCSV p) && negb (truthy (p_tableName p))
  then Throw (Error (str "Export to CSV requires table name property"))
  else Ok (mk_dg [] None (mk_pinning None None) None [] 0 (numberOfRows p)).

(** One column of the effect's [forEach]. *)
Definition column_effect (s : dg_state) (c : column) : dg_state :=
  let vis := if truthy (meta_get c m_hidden) then set_hidden (col_id c) (columnVisibility s)
             else columnVisibility s in
  let pn := if truthy (meta_get c m_pin) then pin_left (col_id c) (columnPinning s)
            else columnPinning s in
  mk_dg (visibleData s) vis pn (expandedRow s) (globalSearch s) (pageIndex s) (pageSize s).

(** The effect on [table]: nothing without leaf columns. *)
Definition columns_effect (columns : list column) (s : dg_state) : dg_state :=
  match columns with
  | [] => s
  | _ => foldl column_effect s columns
  end.

(** After mount: the guard, then the children's effects (the filter
    panel shows the data source, [ColumnFilters.tsx]), then the grid's
    own effect on the columns. *)
Definition dg_mount (p : grid_props) : except dg_state :=
  s <- dg_init p ;;
  let s := mk_dg (p_dataSource p) (columnVisibility s) (columnPinning s) (expandedRow s)
                 (globalSearch s) (pageIndex s) (pageSize s) in
  Ok (columns_effect (p_columns p) s).

(** ** Handlers *)

Definition handleExpandRow (rowIndex : nat) (s : dg_state) : dg_state :=
  let e := if bool_decide (expandedRow s = Some rowIndex) then None else Some rowIndex in
  mk_dg (visibleData s) (columnVisibility s) (columnPinning s) e (globalSearch s)
    (pageIndex s) (pageSize s).

(** [setPagination]: a new page index, from the pagination buttons. *)
Definition set_page (i : nat) (s : dg_state) : dg_state :=
  mk_dg (visibleData s) (columnVisibility s) (columnPinning s) (expandedRow s)
    (globalSearch s) i (pageSize s).

(** ** What is rendered *)

(** A button of the toolbar by its [aria-label] and its role. *)
Inductive control :=
  | FiltersButton | ColumnManagerButton | ExportButton | CallToAction | CallToActionPlus
  | SearchInput | RowsSelect.

Definition aria_label (c : control) : option jstr :=
  match c with
  | FiltersButton | ExportButton | CallToAction | CallToActionPlus => Some (str "Export CSV")
  | _ => None
  end.

Definition toolbar (p : grid_props) : list control :=
  [FiltersButton; ColumnManagerButton] ++
  (if truthy (p_exportToCSV p) && truthy (p_tableName p) then [ExportButton] else []) ++
  (if truthy (p_callToActionText p) && p_callToActionOnClick p
   then [CallToAction; CallToActionPlus] else []) ++
  (if truthy (p_simpleSearch p) then [SearchInput] else []) ++
  [RowsSelect].

Inductive placement := Left | Center | Right.

(** [{columnPinning?.left && <Grid placement="Left" .../>}], the centre
    grid, then the right one: an array is truthy, even when empty. *)
Definition grids (s : dg_state) : list placement :=
  match left_ids (columnPinning s) with Some _ => [Left] | None => [] end ++ [Center] ++
  match right_ids (columnPinning s) with Some _ => [Right] | None => [] end.

(** The rows of the current page, as TanStack's pagination row model
    slices them: [rows.slice(pageIndex * pageSize, (pageIndex + 1) * pageSize)]
    (the sorting state is empty, so the rows are in data order). *)
Definition page_rows (n pageIndex pageSize : nat) : list nat :=
  take pageSize (drop (pageIndex * pageSize) (seq 0 n)).

(** The props of the centre [Grid]: [expandedRow], [setExpandedRow],
    [expandColumn] and [renderSubComponent] are passed to it and to no
    other placement; [checkboxColumn] is not. *)
Definition center_grid (p : grid_props) (s : dg_state) (headers : list (list jstr))
    (cells : nat -> list jstr) : grid_in :=
  mk_grid_in false headers (page_rows (length (visibleData s)) (pageIndex s) (pageSize s))
    cells (expandedRow s) (truthy (p_expandColumn p)) (p_subComponent p) (numberOfRows p)
    (truthy (p_isLoading p)) (length (visibleData s)) (p_emptyStateMessage p).

(** ** The action row ([components/ActionRow.tsx])

    The grid accepts [actions] but never renders [ActionRow]. *)

Record action := mk_action { a_handler : bool; a_name : jstr }.

(** One button per action when there are some, each disabled without a
    selected row. *)
Definition ActionRow (actions : option (list action)) (selectedRows : list datum) : list (jstr * bool) :=
  match actions with
  | Some l => if bool_decide (0 < length l)
              then (fun a => (a_name a, bool_decide (length selectedRows = 0))) <$> l else []
  | None => []
  end.

(** A click on an enabled button: [if (!handler) return;
    handleActions(handler, selectedRows)]; the calls of the handler. *)
Definition ActionRow_click (a : action) (selectedRows : list datum) : list (list datum) :=
  if a_handler a then [selectedRows] else [].

(** ** The error boundary ([DataGrid/index.tsx])

    The exported [DataGrid] renders the container inside
    [useErrorBoundary]'s [ErrorBoundary]: what the container throws while
    rendering is shown as a title and the error's message. *)

Inductive boundary_view := Rendered (s : dg_state) | ErrorScreen (title : jstr) (e : js_error).

(** The exported [DataGridProps] repeats the container's props type
    field for field. *)
Definition DataGridProps : Type := grid_props.

Definition DataGrid (p : DataGridProps) : boundary_view :=
  match dg_mount p with
  | Ok s => Rendered s
  | Throw e => ErrorScreen (str "Something went wrong") e
  end.

(** ** Lemmas *)

Definition vis_step (vis : option (list (jstr * bool))) (c : column) :=
  if truthy (meta_get c m_hidden) then set_hidden (col_id c) vis else vis.

Definition pin_step (pn : pinning) (c : column) :=
  if truthy (meta_get c m_pin) then pin_left (col_id c) pn else pn.

(** The effect's fold, field by field. *)
Lemma foldl_column_effect s cols :
  foldl column_effect s cols =
  mk_dg (visibleData s) (foldl vis_step (columnVisibility s) cols)
    (foldl pin_step (columnPinning s) cols) (expandedRow s) (globalSearch s)
    (pageIndex s) (pageSize s).
Proof.
  revert s. induction cols as [|c cols IH]; intros s; [by destruct s|].
  simpl. rewrite IH. reflexivity.
Qed.

Lemma filter_neq_notin (id : jstr) (l : list jstr) :
  id ∉ l -> List.filter (fun d => negb (bool_decide (d = id))) l = l.
Proof.
  induction l as [|d l IH]; intros Hn; [done|]. rewrite not_elem_of_cons in Hn.
  simpl. rewrite bool_decide_false by naive_solver. simpl. f_equal. naive_solver.
Qed.

Definition pinned (cols : list column) : list column :=
  List.filter (fun c => truthy (meta_get c m_pin)) cols.

Definition hidden (cols : list column) : list column :=
  List.filter (fun c => truthy (meta_get c m_hidden)) cols.

(** Pinning distinct columns one after the other, from sides that hold
    none of them. *)
Lemma foldl_pin_step cols pn :
  NoDup (col_id <$> cols) ->
  (forall c, c ∈ cols -> col_id c ∉ default [] (left_ids pn) /\ col_id c ∉ default [] (right_ids pn)) ->
  foldl pin_step pn cols =
  match pinned cols with
  | [] => pn
  | _ => mk_pinning (Some (default [] (left_ids pn) ++ (col_id <$> pinned cols)))
                    (Some (default [] (right_ids pn)))
  end.
Proof.
  revert pn. induction cols as [|c cols IH]; intros pn Hnd Hdis; [done|].
  rewrite fmap_cons, NoDup_cons in Hnd. destruct Hnd as [Hc Hnd].
  change (pinned (c :: cols)) with
    (if truthy (meta_get c m_pin) then c :: pinned cols else pinned cols).
  cbn [foldl]. unfold pin_step at 2. destruct (truthy (meta_get c m_pin)) eqn:Hp.
  - destruct (Hdis c (list_elem_of_here _ _)) as [Hl Hr].
    unfold pin_left. rewrite !filter_neq_notin by done.
    rewrite IH; [|done|].
    + destruct (pinned cols) eqn:Hpc; cbn; [done|]. by rewrite <- app_assoc.
    + intros c' Hc'. simpl. split.
      * rewrite elem_of_app, list_elem_of_singleton. intros [Hin|Heq].
        -- apply (proj1 (Hdis c' (list_elem_of_further _ _ _ Hc'))), Hin.
        -- apply Hc. rewrite <- Heq. apply list_elem_of_fmap. by exists c'.
      * apply (proj2 (Hdis c' (list_elem_of_further _ _ _ Hc'))).
  - apply IH; [done|]. intros c' Hc'. apply Hdis. by apply elem_of_cons; right.
Qed.

Lemma set_hidden_elem x b id vis :
  (x, b) ∈ default [] (set_hidden id vis) <->
  (x = id /\ b = false) \/ ((x, b) ∈ default [] vis /\ x <> id).
Proof.
  unfold set_hidden. simpl. rewrite elem_of_cons, list_elem_of_In, filter_In, <- list_elem_of_In.
  simpl. rewrite negb_true_iff, bool_decide_eq_false. naive_solver.
Qed.

Lemma foldl_vis_step cols vis x b :
  (x, b) ∈ default [] (foldl vis_step vis cols) <->
  (b = false /\ x ∈ col_id <$> hidden cols) \/
  ((x, b) ∈ default [] vis /\ x ∉ col_id <$> hidden cols).
Proof.
  revert vis. induction cols as [|c cols IH]; intros vis.
  - simpl. rewrite elem_of_nil. naive_solver.
  - change (hidden (c :: cols)) with
      (if truthy (meta_get c m_hidden) then c :: hidden cols else hidden cols).
    cbn [foldl]. rewrite IH. unfold vis_step.
    destruct (truthy (meta_get c m_hidden)); [|done].
    rewrite set_hidden_elem, !fmap_cons. setoid_rewrite elem_of_cons.
    destruct (decide (x = col_id c)), (decide (x ∈ col_id <$> hidden cols)); naive_solver.
Qed.

Lemma dg_mount_Ok p s :
  dg_mount p = Ok s ->
  truthy (p_exportToCSV p) && negb (truthy (p_tableName p)) = false /\
  s = columns_effect (p_columns p)
        (mk_dg (p_dataSource p) None (mk_pinning None None) None [] 0 (numberOfRows p)).
Proof.
  unfold dg_mount, dg_init. destruct (_ && _); [discriminate|]. by intros [= <-].
Qed.

(** The exported grid shows the error screen exactly when the container's
    guard throws, with the guard's message. *)
Lemma DataGrid_boundary p :
  DataGrid p =
  if truthy (p_exportToCSV p) && negb (truthy (p_tableName p))
  then ErrorScreen (str "Something went wrong") (Error (str "Export to CSV requires table name property"))
  else Rendered (columns_effect (p_columns p)
                   (mk_dg (p_dataSource p) None (mk_pinning None None) None [] 0 (numberOfRows p))).
Proof. unfold DataGrid, dg_mount, dg_init. by destruct (_ && _). Qed.

Lemma columns_effect_foldl cols s :
  columns_effect cols s = foldl column_effect s cols.
Proof. by destruct cols. Qed.

(** ** Properties *)

(** C28: after mount, on columns with distinct ids, the left pinning lists
    the columns whose [meta.pin] is truthy, in column order; since
    TanStack's [pin('left')] also sets [right] to [[]], which is truthy,
    the grid then renders three tables, the right one with no column,
    and a single centre table when no column is pinned. *)
Theorem dg_mount_pinning p s :
  NoDup (col_id <$> p_columns p) -> dg_mount p = Ok s ->
  match pinned (p_columns p) with
  | [] => left_ids (columnPinning s) = None /\ right_ids (columnPinning s) = None /\
          grids s = [Center]
  | _ => left_ids (columnPinning s) = Some (col_id <$> pinned (p_columns p)) /\
         right_ids (columnPinning s) = Some [] /\ grids s = [Left; Center; Right]
  end.
Proof.
  intros Hnd Hm. apply dg_mount_Ok in Hm as [_ ->].
  rewrite columns_effect_foldl, foldl_column_effect. unfold grids. cbn [columnPinning].
  rewrite foldl_pin_step by (done || (intros; simpl; split; apply not_elem_of_nil)).
  by destruct (pinned (p_columns p)).
Qed.

(** After mount the grid shows the data source, and the visibility
    state holds exactly the columns whose [meta.hidden] is truthy, each
    set to [false]. *)
Theorem dg_mount_visibility p s :
  dg_mount p = Ok s ->
  visibleData s = p_dataSource p /\
  forall x b, (x, b) ∈ default [] (columnVisibility s) <->
              b = false /\ x ∈ col_id <$> hidden (p_columns p).
Proof.
  intros Hm. apply dg_mount_Ok in Hm as [_ ->].
  rewrite columns_effect_foldl, foldl_column_effect. split; [done|].
  intros x b. cbn [columnVisibility]. rewrite foldl_vis_step. simpl.
  rewrite elem_of_nil. naive_solver.
Qed.

(** Whenever the grid renders, the Export button is shown exactly
    when [exportToCSV] is set (the guard has thrown otherwise without a
    table name), and the Filters button, which exports nothing, carries
    the label ["Export CSV"] as well, as do both call-to-action buttons
    when they are shown. *)
Theorem toolbar_export_button p s :
  dg_init p = Ok s ->
  (ExportButton ∈ toolbar p <-> truthy (p_exportToCSV p) = true) /\
  List.filter (fun c => bool_decide (aria_label c = Some (str "Export CSV"))) (toolbar p) =
  [FiltersButton] ++ (if truthy (p_exportToCSV p) then [ExportButton] else []) ++
  (if truthy (p_callToActionText p) && p_callToActionOnClick p
   then [CallToAction; CallToActionPlus] else []).
Proof.
  unfold dg_init, toolbar. intros Hi.
  destruct (truthy (p_exportToCSV p)), (truthy (p_tableName p)); try discriminate Hi;
    destruct (truthy (p_callToActionText p) && p_callToActionOnClick p),
      (truthy (p_simpleSearch p)); simpl; rewrite ?elem_of_cons, ?elem_of_nil;
    (split; [naive_solver|reflexivity]).
Qed.

(** ** Examples and witnesses *)

(** A column pinned left and a hidden one. *)
Definition pinned_name_column : column :=
  mk_column (str "name") VUndef (VStr (str "name")) (VStr (str "Name"))
    (Some (mk_meta VUndef VUndef (VBool true) VUndef VUndef VUndef VUndef VUndef)).

Definition hidden_email_column : column :=
  mk_column (str "email") VUndef (VStr (str "email")) (VStr (str "Email"))
    (Some (mk_meta VUndef (VBool true) VUndef VUndef VUndef VUndef VUndef VUndef)).

Definition sample_props : grid_props :=
  mk_grid_props (VStr (str "people")) [pinned_name_column; hidden_email_column] []
    (VBool true) None VUndef None VUndef None VUndef false VUndef true None.

Lemma sample_props_mount :
  dg_mount sample_props =
  Ok (columns_effect (p_columns sample_props)
        (mk_dg [] None (mk_pinning None None) None [] 0 20)).
Proof. reflexivity. Qed.

Lemma dg_mount_pinning_witness :
  NoDup (col_id <$> p_columns sample_props) /\
  left_ids (columnPinning (columns_effect (p_columns sample_props)
                             (mk_dg [] None (mk_pinning None None) None [] 0 20)))
    = Some [str "name"] /\
  grids (columns_effect (p_columns sample_props) (mk_dg [] None (mk_pinning None None) None [] 0 20))
    = [Left; Center; Right].
Proof.
  assert (Hnd : NoDup (col_id <$> p_columns sample_props)) by decide_by_eval.
  pose proof (dg_mount_pinning _ _ Hnd sample_props_mount) as Hp. simpl in Hp.
  destruct Hp as (Hl & _ & Hg). split; [exact Hnd|]. split; [exact Hl|exact Hg].
Defined.

Lemma dg_mount_visibility_witness :
  visibleData (columns_effect (p_columns sample_props)
                 (mk_dg [] None (mk_pinning None None) None [] 0 20)) = [] /\
  ((str "email", false) ∈ default [] (columnVisibility (columns_effect (p_columns sample_props)
                                      (mk_dg [] None (mk_pinning None None) None [] 0 20))) <->
   false = false /\ str "email" ∈ col_id <$> hidden (p_columns sample_props)).
Proof.
  destruct (dg_mount_visibility _ _ sample_props_mount) as [Hv Hx].
  split; [exact Hv | exact (Hx _ _)].
Defined.

Lemma toolbar_export_button_witness :
  ExportButton ∈ toolbar sample_props <-> truthy (p_exportToCSV sample_props) = true.
Proof.
  exact (proj1 (toolbar_export_button sample_props _ (eq_refl : dg_init sample_props =
    Ok (mk_dg [] None (mk_pinning None None) None [] 0 20)))).
Defined.

Lemma page_rows_lookup n q size i :
  i < size -> q * size + i < n -> page_rows n q size !! i = Some (q * size + i).
Proof.
  intros Hi Hn. unfold page_rows. rewrite lookup_take by done. rewrite lookup_drop.
  rewrite decide_True by done. apply lookup_seq. lia.
Qed.

(** The expanded row is an index within the page and survives a
    page change: after expanding row [i] of page [pg] and moving to page
    [q], the centre grid shows the sub-component of record
    [q * pageSize + i], whatever [pg] was, and not the record that was
    expanded. *)
Theorem expanded_row_other_page p s headers cells i pg q :
  truthy (p_isLoading p) = false -> p_subComponent p = true -> expandedRow s = None ->
  i < pageSize s -> q * pageSize s + i < length (visibleData s) ->
  shown_subrows (grid_body (center_grid p (set_page q (handleExpandRow i (set_page pg s)))
                              headers cells)) =
  [(i, Some (q * pageSize s + i))].
Proof.
  intros Hl Hsub He Hi Hn. rewrite grid_body_subrows by done.
  unfold center_grid, handleExpandRow, set_page. cbn. rewrite He.
  rewrite bool_decide_false by discriminate. cbn.
  change (take (pageSize s) (drop (q * pageSize s) (seq 0 (length (visibleData s)))))
    with (page_rows (length (visibleData s)) q (pageSize s)).
  rewrite page_rows_lookup by done. by rewrite Hsub.
Qed.

Lemma expanded_row_other_page_witness :
  shown_subrows (grid_body (center_grid sample_props
     (set_page 1 (handleExpandRow 2 (set_page 0
        (mk_dg (repeat [] 45) None (mk_pinning None None) None [] 0 20)))) [] (fun _ => [])))
  = [(2, Some 22)].
Proof.
  apply (expanded_row_other_page sample_props
           (mk_dg (repeat [] 45) None (mk_pinning None None) None [] 0 20) [] (fun _ => []) 2 0 1);
    try reflexivity; simpl; lia.
Defined.
