(* ===== verification/Services.v ===== *)
(** * Services: the mock people service, its API endpoint and the data hooks

    Models [src/src/mocks/services/people.ts] ([getPerson], [getPeople],
    [getPeopleAsync]), the API route of [src/src/mocks/util/endpoint.ts]
    (the module [useService] imports as [../pages/api/[[...service]]]),
    the mock handler of [src/src/mocks/handlers.ts], and the hooks
    [useService] and [usePeople] of [src/src/hooks].

    Faker.js is a library: the values one call of [getPerson] draws are a
    [person_draw], and the draws of the successive calls a function of the
    call's index.  A promise is settled once: [resolve] and [reject] on a
    settled promise do nothing.  The response of the endpoint goes through
    JSON: [JSON.stringify] on the server and [Response.json()] in the
    client, over the [json] values below. *)

From stdpp Require Import base list strings.
From Stdlib Require Import Ascii ZArith.
From S2P Require Import Prelude JsString JsValue DebouncedInput.

(** ** Promises *)

Inductive promise (A : Type) := Pending | Fulfilled (a : A) | Rejected (e : js_error).
Arguments Pending {A}.
Arguments Fulfilled {A} a.
Arguments Rejected {A} e.

(** The [resolve] and [reject] functions of a [new Promise] executor. *)
Definition p_resolve {A} (a : A) (p : promise A) : promise A :=
  match p with Pending => Fulfilled a | _ => p end.

Definition p_reject {A} (e : js_error) (p : promise A) : promise A :=
  match p with Pending => Rejected e | _ => p end.

(** ** [people.ts] *)

(** What one call of [getPerson] draws from faker. *)
Record person_draw := mk_draw {
  d_firstName : jstr; d_lastName : jstr; d_middleName : jstr;
  d_age : jstr; d_visits : jstr; d_progress : jstr;  (** [faker.random.numeric()] *)
  d_bankBalance : jstr;                              (** [faker.datatype.float().toFixed(2)] *)
  d_status : jstr;
  d_birthday : jsnum;                                (** the time of [faker.date.past()] *)
  d_birthCountry : jstr; d_birthCity : jstr; d_email : jstr; d_phone : jstr; d_street : jstr
}.

(** [getPerson()]; [ref] names the [Date] object it allocates. *)
Definition getPerson (d : person_draw) (ref : nat) : datum :=
  [(str "firstName", VStr (d_firstName d)); (str "lastName", VStr (d_lastName d));
   (str "middleName", VStr (d_middleName d));
   (str "age", VStr (d_age d)); (str "visits", VStr (d_visits d));
   (str "progress", VStr (d_progress d)); (str "bankBalance", VStr (d_bankBalance d));
   (str "status", VStr (d_status d)); (str "birthday", VDate ref (d_birthday d));
   (str "birthCountry", VStr (d_birthCountry d)); (str "birthCity", VStr (d_birthCity d));
   (str "email", VStr (d_email d)); (str "phone", VStr (d_phone d));
   (str "street", VStr (d_street d))].

(** [Array.from({ length: 100 }, (_, index) => ({ ...getPerson(), id: index }))] *)
Definition getPeople (draw : nat -> person_draw) : list datum :=
  (fun i => obj_set (str "id") (VNum (Num (Z.of_nat i))) (getPerson (draw i) i)) <$> seq 0 100.

Record async_opts := mk_async_opts {
  o_timeOut : option Z; o_error : option bool; o_empty : option bool
}.

(** The body of the timer's callback, up to its [catch]. *)
Definition people_try (error empty : bool) (draw : nat -> person_draw)
    (p : promise (list datum)) : except (promise (list datum)) :=
  _ <- (if error then Throw (Error (str "Error in getPeopleAsync")) else Ok tt) ;;
  let p1 := if empty then p_resolve [] p else p in
  Ok (p_resolve (getPeople draw) p1).

(** The callback: [try { ... } catch (error) { reject(error) }]. *)
Definition people_callback (o : async_opts) (draw : nat -> person_draw)
    (p : promise (list datum)) : promise (list datum) :=
  match people_try (default false (o_error o)) (default false (o_empty o)) draw p with
  | Ok p' => p'
  | Throw e => p_reject e p
  end.

(** A call of [getPeopleAsync] in flight: the clock, the promise it
    returned and the due time of its timer, until the timer fires. *)
Record async_state := mk_async { a_now : Z; a_promise : promise (list datum); a_timer : option Z }.

(** [getPeopleAsync(o)] at time [t0]: [timeOut = 1500] by default. *)
Definition getPeopleAsync (o : async_opts) (t0 : Z) : async_state :=
  mk_async t0 Pending (Some (t0 + timeout_delay (default 1500 (o_timeOut o))))%Z.

Inductive async_event := ATick (t : Z) | AFire.

Inductive async_step (o : async_opts) (draw : nat -> person_draw) : async_event -> async_state -> async_state -> Prop :=
  | async_tick t s : (a_now s <= t)%Z -> async_step o draw (ATick t) s (mk_async t (a_promise s) (a_timer s))
  | async_fire d s : a_timer s = Some d -> (d <= a_now s)%Z ->
      async_step o draw AFire s (mk_async (a_now s) (people_callback o draw (a_promise s)) None).

(** What the promise settles to. *)
Definition async_outcome (o : async_opts) (draw : nat -> person_draw) : promise (list datum) :=
  if default false (o_error o) then Rejected (Error (str "Error in getPeopleAsync"))
  else if default false (o_empty o) then Fulfilled []
  else Fulfilled (getPeople draw).

(** ** JSON *)

Inductive json := JNull | JBool (b : bool) | JNum (z : Z) | JStr (s : jstr)
                | JArr (l : list json) | JObj (l : list (jstr * json)).

Section Json.

(** [Date.prototype.toISOString] on a valid time value. *)
Variable iso_string : Z -> jstr.

(** [JSON.stringify] of a property value: [undefined] is left out, [NaN]
    and an invalid [Date] are [null], a valid [Date] is its [toJSON()]. *)
Definition json_of_value (v : value) : option json :=
  match v with
  | VUndef => None
  | VNull | VNum NaN | VDate _ NaN => Some JNull
  | VBool b => Some (JBool b)
  | VNum (Num z) => Some (JNum z)
  | VStr s => Some (JStr s)
  | VDate _ (Num t) => Some (JStr (iso_string t))
  end.

Definition json_of_datum (r : datum) : json :=
  JObj (omap (fun kv => (fun j => (kv.1, j)) <$> json_of_value kv.2) r).

End Json.

(** [obj[k]] of a parsed object. *)
Fixpoint json_get (l : list (jstr * json)) (k : jstr) : option json :=
  match l with
  | [] => None
  | (k', j) :: l' => if bool_decide (k = k') then Some j else json_get l' k
  end.

Definition json_truthy (j : json) : bool :=
  match j with
  | JNull => false
  | JBool b => b
  | JNum z => negb (Z.eqb z 0)
  | JStr s => bool_decide (s <> [])
  | JArr _ | JObj _ => true
  end.

(** ** The API route *)

Record response := mk_response { status : Z; body : json }.

(** The keys an object literal inherits from [Object.prototype]. *)
Definition object_prototype_keys : list jstr :=
  str <$> ["constructor"; "__defineGetter__"; "__defineSetter__"; "hasOwnProperty";
           "__lookupGetter__"; "__lookupSetter__"; "isPrototypeOf";
           "propertyIsEnumerable"; "toString"; "valueOf"; "__proto__"; "toLocaleString"]%string.

(** [query.service] of the optional catch-all route is the array of path
    segments, or [undefined] for [/api] itself; as a property key it is
    converted to a string ([join(',')] for an array). *)
Definition service_key (q : option (list jstr)) : jstr :=
  match q with None => str "undefined" | Some segs => join (str ",") segs end.

(** [JSON.stringify] of an [Error]: its own properties are not enumerable. *)
Definition error_json (e : js_error) : json := JObj [].

Section Endpoint.
Variable iso_string : Z -> jstr.
Variable draw : nat -> person_draw.

(** [services[k]()] for an inherited key: the host's [Object.prototype]
    method called on [services], then [JSON.stringify] of its result. *)
Variable proto_call : jstr -> except json.

(** [services[service]()]: [services.people] is [getPeople]; a key that is
    neither own nor inherited reads [undefined], and calling it throws. *)
Definition call_service (k : jstr) : except json :=
  if bool_decide (k = str "people") then Ok (JArr (json_of_datum iso_string <$> getPeople draw))
  else if bool_decide (k ∈ object_prototype_keys) then proto_call k
  else Throw TypeError.

(** [handler(req, res)] after [await NextCors(...)]. *)
Definition handler (q : option (list jstr)) : response :=
  match call_service (service_key q) with
  | Ok data => mk_response 200 data
  | Throw e => mk_response 500 (error_json e)
  end.

(** The dev server at [localhost:3000]: the path after [/api/], split at
    ['/'], is the route's query. *)
Definition api_prefix : jstr := str "http://localhost:3000/api/".

Definition route_query (path : jstr) : option (list jstr) :=
  if bool_decide (path = []) then None else Some (split "/" path).

(** [fetch(url)]: the response of the route, or a [TypeError] (the
    network error of [fetch]) for a URL the server does not serve. *)
Definition fetch_api (url : jstr) : except response :=
  if startsWith url api_prefix then Ok (handler (route_query (drop (length api_prefix) url)))
  else Throw TypeError.

(** [handlers.ts]: [GET /people] answers [200] with [getPeople()]. *)
Definition msw_people : response :=
  mk_response 200 (JArr (json_of_datum iso_string <$> getPeople draw)).

End Endpoint.

(** ** [useService] *)

(** [console.log(data)], [console.log('error', error)] in the [catch], and
    [console.error(error)]. *)
Inductive log_entry := LogData (j : json) | LogCaught (e : js_error) | LogError (e : js_error).

Inductive fetch_stage := AwaitFetch | Settled.

Record svc_state := mk_svc {
  s_data : json;                 (** [useState<T[]>([])] *)
  s_loading : bool;              (** [useState(true)] *)
  s_error : option js_error;     (** [useState<Error>()] *)
  s_stage : fetch_stage;         (** where [fetchData] is *)
  s_logs : list log_entry
}.

(** The effect on [[data, error]]. *)
Definition log_effect (s : svc_state) : svc_state :=
  mk_svc (s_data s) (s_loading s) (s_error s) (s_stage s)
    (s_logs s ++ (match s_error s with Some e => [LogError e] | None => [] end) ++
     (if json_truthy (s_data s) then [LogData (s_data s)] else [])).

(** The mount: the first effect calls [fetchData], which suspends at
    [await fetch(...)]; then the second effect runs. *)
Definition svc_mount : svc_state := log_effect (mk_svc (JArr []) true None AwaitFetch []).

Definition svc_url (service : jstr) : jstr := str "http://localhost:3000/api/" ++ service.

(** The rest of [fetchData] once [fetch] settles: [setData(await
    data.json())] or, in the [catch], the log and [setError(error)]; then
    [setLoading(false)] in the [finally].  The updates are batched into one
    render. *)
Definition fetchData_resume (r : except response) (s : svc_state) : svc_state :=
  match r with
  | Ok resp => mk_svc (body resp) false (s_error s) Settled (s_logs s)
  | Throw e => mk_svc (s_data s) false (Some e) Settled (s_logs s ++ [LogCaught e])
  end.

Inductive svc_event := Respond.

(** [net] answers [fetch]; after the render the effect on [[data, error]]
    runs, since [setData] and [setError] store new objects. *)
Inductive svc_step (net : jstr -> except response) (service : jstr) : svc_event -> svc_state -> svc_state -> Prop :=
  | svc_respond s : s_stage s = AwaitFetch ->
      svc_step net service Respond s (log_effect (fetchData_resume (net (svc_url service)) s)).

(** ** [usePeople] *)

Record people_hook := mk_people_hook { h_data : list datum; h_isLoading : bool; h_error : option js_error }.

(** The first render, then the effect: [setIsLoading(false)] and
    [setData(PeopleService.getPeople())]. *)
Definition usePeople_init : people_hook := mk_people_hook [] false None.

Definition usePeople_effect (draw : nat -> person_draw) (h : people_hook) : people_hook :=
  mk_people_hook (getPeople draw) false (h_error h).

(** What the hook returns: [isError: error !== null]. *)
Definition usePeople (h : people_hook) : list datum * bool * bool :=
  (h_data h, h_isLoading h, bool_decide (h_error h <> None)).

(** ** Lemmas *)

Lemma getPeople_lookup draw i :
  (i < 100)%nat ->
  getPeople draw !! i = Some (obj_set (str "id") (VNum (Num (Z.of_nat i))) (getPerson (draw i) i)).
Proof.
  intros Hi. unfold getPeople. rewrite list_lookup_fmap, lookup_seq_lt by done. done.
Qed.

(** The callback on the pending promise settles it to [async_outcome]:
    after [resolve([])], the [resolve(getPeople())] that follows is
    ignored. *)
Lemma people_callback_pending o draw : people_callback o draw Pending = async_outcome o draw.
Proof. unfold people_callback, people_try, async_outcome. by destruct (default _ (o_error o)), (default _ (o_empty o)). Qed.

Section AsyncInvariant.
Variables (o : async_opts) (draw : nat -> person_draw) (t0 : Z).

Definition async_due : Z := (t0 + timeout_delay (default 1500 (o_timeOut o)))%Z.

(** Before the timer fires the promise is pending; after, it holds the
    outcome and the clock is past the due time. *)
Definition async_inv (s : async_state) : Prop :=
  match a_timer s with
  | Some d => d = async_due /\ a_promise s = Pending
  | None => a_promise s = async_outcome o draw /\ (async_due <= a_now s)%Z
  end.

Lemma async_step_inv e s s' : async_step o draw e s s' -> async_inv s -> async_inv s'.
Proof.
  destruct 1 as [t s Ht|d s Hd Hle]; unfold async_inv; simpl.
  - destruct (a_timer s); [done|]. intros [? ?]. split; [done|lia].
  - rewrite Hd. intros [-> ->]. split; [apply people_callback_pending|done].
Qed.

Lemma async_trace_inv es s :
  trace (async_step o draw) es (getPeopleAsync o t0) s -> async_inv s.
Proof.
  intros Htr. eapply trace_ind_inv; [|exact Htr|done].
  intros e s1 s2. apply async_step_inv.
Qed.

End AsyncInvariant.

Lemma fetch_api_people iso draw proto :
  fetch_api iso draw proto (svc_url (str "people")) =
    Ok (mk_response 200 (JArr (json_of_datum iso <$> getPeople draw))).
Proof.
  unfold fetch_api. rewrite (eq_refl : startsWith (svc_url (str "people")) api_prefix = true).
  unfold handler, call_service.
  rewrite (eq_refl : service_key (route_query (drop (length api_prefix) (svc_url (str "people")))) = str "people").
  by rewrite bool_decide_true.
Qed.

(** A [useService] trace is the mount, then at most the one response. *)
Lemma svc_trace_cases net service es s :
  trace (svc_step net service) es svc_mount s ->
  (es = [] /\ s = svc_mount) \/
  (es = [Respond] /\ s = log_effect (fetchData_resume (net (svc_url service)) svc_mount)).
Proof.
  inversion 1 as [|e es' s1 s2 s3 Hst Htr']; subst; [by left|right].
  inversion Hst; subst. inversion Htr' as [|? ? ? ? ? Hst']; subst; [done|].
  inversion Hst' as [? Hstage]. by destruct (net _).
Qed.

(** Each record the route sends, as the client reads it. *)
Lemma person_json iso d i :
  json_of_datum iso (obj_set (str "id") (VNum (Num (Z.of_nat i))) (getPerson d i)) =
  JObj [(str "firstName", JStr (d_firstName d)); (str "lastName", JStr (d_lastName d));
        (str "middleName", JStr (d_middleName d));
        (str "age", JStr (d_age d)); (str "visits", JStr (d_visits d));
        (str "progress", JStr (d_progress d)); (str "bankBalance", JStr (d_bankBalance d));
        (str "status", JStr (d_status d));
        (str "birthday", match d_birthday d with Num t => JStr (iso t) | NaN => JNull end);
        (str "birthCountry", JStr (d_birthCountry d)); (str "birthCity", JStr (d_birthCity d));
        (str "email", JStr (d_email d)); (str "phone", JStr (d_phone d));
        (str "street", JStr (d_street d)); (str "id", JNum (Z.of_nat i))].
Proof. unfold getPerson. by destruct (d_birthday d). Qed.

Lemma getPeople_length draw : length (getPeople draw) = 100%nat.
Proof. unfold getPeople. by rewrite length_fmap, length_seq. Qed.

(** ** Properties *)

(** C38: the promise [getPeopleAsync] returns stays pending until its
    timer fires, no earlier than [timeOut] (1500 by default) after the
    call; it then holds its outcome for good: rejected with [Error in
    getPeopleAsync] when [error] is set, else fulfilled with [[]] when
    [empty] is set (the [resolve(getPeople())] that follows is ignored),
    else with the 100 people; and it can always get there. *)
Theorem getPeopleAsync_settles o draw t0 es s :
  trace (async_step o draw) es (getPeopleAsync o t0) s ->
  (a_timer s <> None -> a_promise s = Pending) /\
  (a_timer s = None -> a_promise s = async_outcome o draw /\
     (t0 + timeout_delay (default 1500 (o_timeOut o)) <= a_now s)%Z) /\
  exists es' s', trace (async_step o draw) es' s s' /\ a_promise s' = async_outcome o draw.
Proof.
  intros Htr. pose proof (async_trace_inv o draw t0 es s Htr) as Hinv.
  unfold async_inv, async_due in Hinv. split_and!.
  - intros Ht. destruct (a_timer s); [by destruct Hinv|done].
  - intros Ht. by rewrite Ht in Hinv.
  - destruct (a_timer s) as [d|] eqn:Ht; [destruct Hinv as [-> Hp]|exists [], s; split; [constructor|apply Hinv]].
    exists [ATick (Z.max (a_now s) (t0 + timeout_delay (default 1500 (o_timeOut o)))); AFire]; eexists.
    split; [econstructor; [constructor; lia|]|].
    + econstructor; [eapply async_fire; simpl; [exact Ht|lia]|constructor].
    + simpl. rewrite Hp. apply people_callback_pending.
Qed.

(** C39: the API route answers [200] with the people for the key
    ["people"], and [500] with the empty object [{}] (an [Error] has no
    enumerable property) for every key that is neither ["people"] nor
    inherited from [Object.prototype]: [/api] (key ["undefined"]) and
    [/api/people/x] (key ["people,x"]) among them. *)
Theorem handler_error iso draw proto q :
  handler iso draw proto (Some [str "people"]) = mk_response 200 (JArr (json_of_datum iso <$> getPeople draw)) /\
  (service_key q <> str "people" -> service_key q ∉ object_prototype_keys ->
   handler iso draw proto q = mk_response 500 (JObj [])).
Proof.
  split; [unfold handler, call_service; by rewrite bool_decide_true|].
  intros Hp Hk. unfold handler, call_service. by rewrite !bool_decide_false.
Qed.

(** C40: [useService('people')] against the API route ends with
    [loading] false, no error, and data that is not a [Person[]]: the 100
    records come back through JSON, so each [birthday] is the ISO string
    of the date drawn, not a [Date], next to the record's [id]; the effect
    on [[data, error]] has logged the initial [[]] (truthy) and then the
    data. *)
Theorem useService_people iso draw proto es s :
  trace (svc_step (fetch_api iso draw proto) (str "people")) es svc_mount s -> s_stage s = Settled ->
  s_loading s = false /\ s_error s = None /\
  s_logs s = [LogData (JArr []); LogData (s_data s)] /\
  exists l, s_data s = JArr l /\ length l = 100%nat /\
    forall i, (i < 100)%nat -> exists fields, l !! i = Some (JObj fields) /\
      json_get fields (str "id") = Some (JNum (Z.of_nat i)) /\
      forall t, d_birthday (draw i) = Num t -> json_get fields (str "birthday") = Some (JStr (iso t)).
Proof.
  intros Htr Hs. destruct (svc_trace_cases _ _ _ _ Htr) as [[-> ->]|[-> ->]]; [done|].
  rewrite fetch_api_people. split_and!; [done..|].
  eexists. split; [reflexivity|]. split; [by rewrite length_fmap, getPeople_length|].
  intros i Hi. rewrite list_lookup_fmap, getPeople_lookup by done.
  change (json_of_datum iso <$> Some ?x) with (Some (json_of_datum iso x)).
  rewrite person_json. eexists. split; [reflexivity|]. split; [reflexivity|].
  intros t ->. reflexivity.
Qed.

(** ** Witnesses *)

Definition sample_draw : person_draw :=
  mk_draw (str "Ada") (str "Lovelace") (str "Byron") (str "36") (str "3") (str "50") (str "12.50")
    (str "active") (Num 0) (str "UK") (str "London") (str "ada@example.com") (str "555") (str "St James's Square").

Definition sample_iso (t : Z) : jstr := str "1970-01-01T00:00:00.000Z".

Lemma getPeopleAsync_settles_witness :
  (a_timer (getPeopleAsync (mk_async_opts None None (Some true)) 0) <> None ->
   a_promise (getPeopleAsync (mk_async_opts None None (Some true)) 0) = Pending) /\
  (a_timer (getPeopleAsync (mk_async_opts None None (Some true)) 0) = None ->
   a_promise (getPeopleAsync (mk_async_opts None None (Some true)) 0) = Fulfilled [] /\
   (0 + timeout_delay 1500 <= 0)%Z) /\
  exists es' s', trace (async_step (mk_async_opts None None (Some true)) (fun _ => sample_draw)) es'
                   (getPeopleAsync (mk_async_opts None None (Some true)) 0) s' /\ a_promise s' = Fulfilled [].
Proof.
  apply (getPeopleAsync_settles (mk_async_opts None None (Some true)) (fun _ => sample_draw) 0 []).
  constructor.
Defined.

Lemma handler_error_witness :
  handler sample_iso (fun _ => sample_draw) (fun _ => Throw TypeError) None = mk_response 500 (JObj []).
Proof.
  apply (handler_error sample_iso (fun _ => sample_draw) (fun _ => Throw TypeError) None);
    [discriminate|decide_by_eval].
Defined.

Lemma useService_people_witness :
  exists s, trace (svc_step (fetch_api sample_iso (fun _ => sample_draw) (fun _ => Throw TypeError)) (str "people"))
              [Respond] svc_mount s /\ s_loading s = false /\ s_error s = None.
Proof.
  eexists. split; [econstructor; [constructor; reflexivity|constructor]|].
  destruct (useService_people sample_iso (fun _ => sample_draw) (fun _ => Throw TypeError) [Respond]
              (log_effect (fetchData_resume (fetch_api sample_iso (fun _ => sample_draw) (fun _ => Throw TypeError)
                                               (svc_url (str "people"))) svc_mount)))
    as [Hl [He _]]; [econstructor; [constructor; reflexivity|constructor]|reflexivity|].
  by split.
Defined.
