(* ===== verification/Stories.v ===== *)
(** * Stories: the DataGrid story, where the components meet

    Models [src/src/components/DataGrid/DataGrid.stories.tsx]: the
    story's [args], its eleven column definitions and [Template], which
    fetches the people with [useService('people')] (of [Services]) and
    renders [DataGrid] (of [DataGrid]) with [dataSource={people.data}]
    and [isLoading={people.loading}].

    The grid mounts while the fetch is in flight, on [[]]; when the data
    arrives, the grid is not mounted again: its [visibleData] changes only
    through the filter panel's effect on [[dataSource]] ([ColumnFilters]).
    The parsed JSON becomes records through [people_rows], which reads a
    flat object's values back into [value]s. *)

From stdpp Require Import base list strings.
From Stdlib Require Import Ascii ZArith.
From S2P Require Import Prelude JsString JsValue Columns ColumnFilters DataGrid Services.

(** ** The story's data *)

(** A parsed JSON value as a property of a record; [None] for an array
    or an object, which a record of the grid does not hold. *)
Definition value_of_json (j : json) : option value :=
  match j with
  | JNull => Some VNull
  | JBool b => Some (VBool b)
  | JNum z => Some (VNum (Num z))
  | JStr s => Some (VStr s)
  | JArr _ | JObj _ => None
  end.

Definition datum_of_json (j : json) : option datum :=
  match j with
  | JObj l => mapM (fun kv => (fun v => (kv.1, v)) <$> value_of_json kv.2) l
  | _ => None
  end.

(** [people.data as Data]: the parsed array as the grid's records. *)
Definition people_rows (j : json) : option (list datum) :=
  match j with JArr l => mapM datum_of_json l | _ => None end.

(** ** The story's columns and args *)

Definition story_meta (filterType hidden tag searchable locked filterLabel : value) : column_meta :=
  mk_meta filterType hidden VUndef tag VUndef searchable locked filterLabel.

(** [const columns: ColumnDef<Person, unknown>[] = [...]]; a column's
    [id] is its [id] or else its [accessorKey], as TanStack resolves it. *)
Definition story_columns : list column :=
  [mk_column (str "firstName") VUndef (VStr (str "firstName")) (VStr (str "Full Name"))
     (Some (story_meta VUndef VUndef VUndef VUndef (VBool true) (VStr (str "First Name"))));
   mk_column (str "lastName") (VStr (str "lastName")) VUndef VUndef
     (Some (story_meta VUndef VUndef VUndef (VBool true) VUndef (VStr (str "Last Name"))));
   mk_column (str "middleName") VUndef (VStr (str "middleName")) (VStr (str "Middle Name")) (Some empty_meta);
   mk_column (str "birthday") VUndef (VStr (str "birthday")) (VStr (str "Birthday"))
     (Some (story_meta (VStr (str "date")) VUndef VUndef VUndef VUndef VUndef));
   mk_column (str "bankBalance") VUndef (VStr (str "bankBalance")) (VStr (str "Bank Balance")) None;
   mk_column (str "email") VUndef (VStr (str "email")) (VStr (str "Email"))
     (Some (story_meta VUndef (VBool true) (VStr (str "Contact")) VUndef VUndef VUndef));
   mk_column (str "phone") VUndef (VStr (str "phone")) (VStr (str "Phone"))
     (Some (story_meta VUndef (VBool true) (VStr (str "Contact")) VUndef VUndef VUndef));
   mk_column (str "age") VUndef (VStr (str "age")) (VStr (str "Age"))
     (Some (story_meta (VStr (str "number")) VUndef VUndef VUndef VUndef VUndef));
   mk_column (str "visits") VUndef (VStr (str "visits")) (VStr (str "Visits"))
     (Some (story_meta VUndef (VBool true) (VStr (str "Analytics")) VUndef VUndef VUndef));
   mk_column (str "status") VUndef (VStr (str "status")) (VStr (str "Status")) None;
   mk_column (str "progress") VUndef (VStr (str "progress")) (VStr (str "Profile Progress"))
     (Some (story_meta VUndef (VBool true) (VStr (str "Analytics")) VUndef VUndef VUndef))].

(** [<DataGrid {...args} dataSource=... columns=... subComponent=...
    isLoading=... />] with [meta.args]: a search box, the table name,
    the raw CSV export, a call to action and the expand column. *)
Definition Template_props (data : list datum) (loading : bool) : grid_props :=
  mk_grid_props (VStr (str "Users Table")) story_columns data (VBool true) (Some CsvRaw)
    (VBool true) None (VBool loading) None (VStr (str "Call to Action")) true (VBool true) true None.

(** The first render of [Default]: [useService] has data [[]] and
    [loading] true; the grid mounts on these props. *)
Definition story_mount : except dg_state := dg_mount (Template_props [] true).

(** The filter panel of the mounted grid, over the data source [[]]. *)
Definition story_panel `{JsHost} : cf_state := cf_init [].

(** The render after [useService] settles: the new [dataSource] reaches
    the panel's effect, which sets the grid's [visibleData]. *)
Definition story_loaded `{JsHost} (svc : svc_state) : option cf_state :=
  (fun rows => dataSource_effect rows story_panel) <$> people_rows (s_data svc).

(** ** Lemmas *)

(** A property after [JSON.stringify] and [JSON.parse]. *)
Definition json_roundtrip (iso : Z -> jstr) (v : value) : option value :=
  json_of_value iso v ≫= value_of_json.

(** The JSON round trip of a record: [undefined] properties are dropped,
    [NaN] and invalid dates become [null], valid dates their ISO string;
    every other value comes back as it was. *)
Lemma datum_json_roundtrip iso r :
  datum_of_json (json_of_datum iso r) =
    Some (omap (fun kv : jstr * value => (fun v => (kv.1, v)) <$> json_roundtrip iso kv.2) r : datum).
Proof.
  apply mapM_omap_Some.
  - intros [k v] [k' j]. destruct v as [| |b|[|z]|s|ref [|t]]; intros [= <- <-]; by eexists.
  - intros [k v]. by destruct v as [| |b|[|z]|s|ref [|t]].
Qed.

Lemma people_rows_getPeople iso draw :
  people_rows (JArr (json_of_datum iso <$> getPeople draw)) =
    Some ((fun r : datum => omap (fun kv : jstr * value => (fun v => (kv.1, v)) <$> json_roundtrip iso kv.2) r)
            <$> getPeople draw : list datum).
Proof. apply mapM_fmap_Some. apply datum_json_roundtrip. Qed.

(** The person at index [i], as the grid's record, keeps its [id] and has
    its [birthday] as a string. *)
Lemma person_row_fields iso d i :
  let r : datum := omap (fun kv : jstr * value => (fun v => (kv.1, v)) <$> json_roundtrip iso kv.2)
                (obj_set (str "id") (VNum (Num (Z.of_nat i))) (getPerson d i)) in
  get r (str "id") = VNum (Num (Z.of_nat i)) /\
  get r (str "birthday") = match d_birthday d with Num t => VStr (iso t) | NaN => VNull end.
Proof. unfold getPerson. by destruct (d_birthday d). Qed.

(** The hidden columns of the story, as the mount effect records them. *)
Definition story_hidden : list (jstr * bool) :=
  [(str "progress", false); (str "visits", false); (str "phone", false); (str "email", false)].

(** ** Properties *)

(** C37: the Default story composes the fetch, the API route, the grid
    and its filter panel: the grid mounts while [useService('people')] is
    in flight, with no row and with the four tagged columns ([email],
    [phone], [visits], [progress]) hidden; once the fetch settles against
    the route, the panel's effect on [[dataSource]] makes the grid show
    the 100 people, each with its [id] and with its [birthday] read back
    as an ISO string, not a [Date]. *)
Theorem story_default_loaded `{JsHost} iso draw proto es svc :
  trace (svc_step (fetch_api iso draw proto) (str "people")) es svc_mount svc -> s_stage svc = Settled ->
  exists s0 panel,
    story_mount = Ok s0 /\ visibleData s0 = [] /\ columnVisibility s0 = Some story_hidden /\
    story_loaded svc = Some panel /\ length (cf_visibleData panel) = 100%nat /\
    forall i, (i < 100)%nat -> exists r, cf_visibleData panel !! i = Some r /\
      get r (str "id") = VNum (Num (Z.of_nat i)) /\
      get r (str "birthday") = match d_birthday (draw i) with Num t => VStr (iso t) | NaN => VNull end.
Proof.
  intros Htr Hs. destruct (svc_trace_cases _ _ _ _ Htr) as [[-> ->]|[-> ->]]; [done|].
  rewrite fetch_api_people. eexists _, _. split_and!; [vm_compute; reflexivity..| | |].
  - unfold story_loaded. cbn [s_data log_effect fetchData_resume body].
    rewrite people_rows_getPeople. reflexivity.
  - cbn [dataSource_effect story_panel cf_init filters_effect cf_filters set_visible cf_visibleData].
    by rewrite length_fmap, getPeople_length.
  - intros i Hi. cbn [dataSource_effect story_panel cf_init filters_effect cf_filters set_visible cf_visibleData].
    rewrite list_lookup_fmap, getPeople_lookup by done. eexists. split; [reflexivity|].
    apply person_row_fields.
Qed.

(** ** Witnesses *)

Section Witnesses.
#[local] Existing Instance sample_host.

Lemma story_default_loaded_witness :
  exists s0 panel,
    story_mount = Ok s0 /\ visibleData s0 = [] /\ columnVisibility s0 = Some story_hidden /\
    story_loaded (log_effect (fetchData_resume (fetch_api sample_iso (fun _ => sample_draw) (fun _ => Throw TypeError)
                                                  (svc_url (str "people"))) svc_mount)) = Some panel /\
    length (cf_visibleData panel) = 100%nat /\
    forall i, (i < 100)%nat -> exists r, cf_visibleData panel !! i = Some r /\
      get r (str "id") = VNum (Num (Z.of_nat i)) /\
      get r (str "birthday") = match d_birthday sample_draw with Num t => VStr (sample_iso t) | NaN => VNull end.
Proof.
  apply (story_default_loaded sample_iso (fun _ => sample_draw) (fun _ => Throw TypeError) [Respond]);
    [econstructor; [constructor; reflexivity|constructor]|reflexivity].
Defined.

End Witnesses.
